(** * Engagement dashboard: the pre-posting tweet analyzer

    A shallow embedding of [engagement-dashboard/analyzer.py]: the class
    [EngagementAnalyzer] with its feature extractor, its three scorers
    (safety, quality, engagement potential), the aggregator, the risk
    classifier and the recommendation generator.

    Conventions of the embedding.
    - A Python [str] is a Rocq [string] read as a sequence of code points,
      one [ascii] per code point, so the texts covered are those over
      U+0000..U+00FF.  The character tables below ([isspace], [isupper],
      [isword], [lower]) are CPython's tables restricted to that range.
      Message literals of the program that hold characters outside that
      range are kept as their UTF-8 bytes; they are only ever produced,
      never analysed.
    - A Python [float] is a binary64 [float] of the kernel; arithmetic and
      comparisons are the IEEE operations the interpreter performs.
    - A Python [int] is a [Z] (or a [nat] for a count).
    - An exception is a value: fallible code returns [result].
    - What the interpreter decides per process (the iteration order of a
      [set] of strings, which follows the randomised string hash) and what
      changed between interpreter versions (the validation of a bracketed
      host in [urlsplit]) is read from a [PyRuntime] record. *)

From Stdlib Require Import List String Ascii ZArith NArith Bool Lia Permutation.
From Stdlib Require Import Floats DecimalString.
Import ListNotations.

Set Warnings "-inexact-float".

(* ================================================================= *)
(** ** The Python runtime the program relies on *)

Module Py.

Open Scope string_scope.

(** *** Exceptions *)

Inductive exn : Type :=
| TypeError
| ValueError
| ZeroDivisionError.

Inductive result (A : Type) : Type :=
| Ok (a : A)
| Raise (e : exn).
Arguments Ok {A} a.
Arguments Raise {A} e.

Definition bind {A B : Type} (m : result A) (k : A -> result B) : result B :=
  match m with
  | Ok a => k a
  | Raise e => Raise e
  end.

(** *** Characters (code points U+0000..U+00FF) *)

Definition between (lo hi n : N) : bool := (N.leb lo n && N.leb n hi)%bool.

(** [str.isspace] of a one-character string; also the class [\s] of [re]. *)
Definition isspace (c : ascii) : bool :=
  let n := N_of_ascii c in
  (between 9 13 n || between 28 32 n || N.eqb n 133 || N.eqb n 160)%bool.

(** [str.isupper] of a one-character string. *)
Definition isupper (c : ascii) : bool :=
  let n := N_of_ascii c in
  (between 65 90 n || between 192 214 n || between 216 222 n)%bool.

(** The class [\d] of [re] on [str] patterns: the decimal digits. *)
Definition isdigit (c : ascii) : bool := between 48 57 (N_of_ascii c).

(** The class [\w] of [re] on [str] patterns: alphanumerics (in the sense of
    [str.isalnum]) and the underscore. *)
Definition isword (c : ascii) : bool :=
  let n := N_of_ascii c in
  (between 48 57 n || between 65 90 n || N.eqb n 95 || between 97 122 n
   || N.eqb n 170 || between 178 179 n || N.eqb n 181 || between 185 186 n
   || between 188 190 n || between 192 214 n || between 216 246 n
   || between 248 255 n)%bool.

(** [str.lower] on one character. *)
Definition lower_char (c : ascii) : ascii :=
  if isupper c then ascii_of_N (N_of_ascii c + 32) else c.

Definition isascii_char (c : ascii) : bool := N.ltb (N_of_ascii c) 128.

(** [c.isascii() and c.isalpha()] *)
Definition isascii_alpha (c : ascii) : bool :=
  let n := N_of_ascii c in (between 65 90 n || between 97 122 n)%bool.

(** *** Strings *)

Definition chars (s : string) : list ascii := list_ascii_of_string s.
Definition str (l : list ascii) : string := string_of_list_ascii l.

(** [len(s)] *)
Definition len (s : string) : nat := String.length s.

(** [sum(1 for c in s if p(c))], [len([c for c in s if p(c)])] *)
Fixpoint count_if (p : ascii -> bool) (s : string) : nat :=
  match s with
  | EmptyString => 0
  | String c s' => (if p c then 1 else 0) + count_if p s'
  end.

(** [s.count(c)] for a one-character [c] *)
Definition count_char (c : ascii) (s : string) : nat :=
  count_if (Ascii.eqb c) s.

(** [s.lower()] *)
Fixpoint lower (s : string) : string :=
  match s with
  | EmptyString => EmptyString
  | String c s' => String (lower_char c) (lower s')
  end.

(** [sub in s] *)
Fixpoint contains (sub s : string) : bool :=
  (String.prefix sub s
   || match s with
      | EmptyString => false
      | String _ s' => contains sub s'
      end)%bool.

(** [c in s] for a one-character [c] *)
Fixpoint has_char (c : ascii) (s : string) : bool :=
  match s with
  | EmptyString => false
  | String d s' => (Ascii.eqb c d || has_char c s')%bool
  end.

(** [sep.join(l)] for a list of strings *)
Definition join (sep : string) (l : list string) : string :=
  String.concat sep l.

(** [l[:n]] *)
Definition slice_to {A : Type} (n : nat) (l : list A) : list A := firstn n l.

(** [str(n)], [f'{n}'] for an [int] *)
Definition str_of_Z (z : Z) : string :=
  NilZero.string_of_int (Z.to_int z).

Definition str_of_nat (n : nat) : string := str_of_Z (Z.of_nat n).

(** The double quote, for messages that hold one. *)
Definition dq : string := String (ascii_of_nat 34) EmptyString.

(** *** Floats *)

(** [float(z)] for an [int] below 2^63 in magnitude. *)
Definition float_of_Z (z : Z) : float :=
  if (z <? 0)%Z
  then PrimFloat.opp (PrimFloat.of_uint63 (Uint63.of_Z (- z)))
  else PrimFloat.of_uint63 (Uint63.of_Z z).

Definition float_of_nat (n : nat) : float := float_of_Z (Z.of_nat n).

(** [a / b] on two [int] counts: the correctly rounded quotient, or
    [ZeroDivisionError]. *)
Definition truediv (a b : nat) : result float :=
  match b with
  | O => Raise ZeroDivisionError
  | S _ => Ok (PrimFloat.div (float_of_nat a) (float_of_nat b))
  end.

(** [n / d] rounded to the nearest integer, ties to even ([d] positive). *)
Definition div_half_even (n d : Z) : Z :=
  let q := (n / d)%Z in
  let r := (n mod d)%Z in
  match (2 * r ?= d)%Z with
  | Lt => q
  | Gt => (q + 1)%Z
  | Eq => if Z.even q then q else (q + 1)%Z
  end.

(** The exact value of [k * x], rounded to the nearest integer, ties to
    even: the digits CPython's correctly rounded decimal conversion
    produces for [x] at a fixed number of places. *)
Definition scaled_digits (k : Z) (x : float) : Z :=
  match Prim2SF x with
  | S754_finite s m e =>
      let n := ((if s then -1 else 1) * k * Zpos m)%Z in
      if (0 <=? e)%Z then (n * 2 ^ e)%Z else div_half_even n (2 ^ (- e))
  | _ => 0%Z
  end.

(** [round(x, 1)]: the double nearest to the one-decimal rounding of the
    exact value of [x]; zeros, infinities and NaN are returned as they are. *)
Definition round1 (x : float) : float :=
  match Prim2SF x with
  | S754_finite _ _ _ => PrimFloat.div (float_of_Z (scaled_digits 10 x)) 10
  | _ => x
  end.

(** [f'{x:.0%}'] for a non-negative [x]. *)
Definition format_percent0 (x : float) : string :=
  str_of_Z (scaled_digits 1 (PrimFloat.mul x 100)) ++ "%".

(** [f'{x:.1%}'] for a non-negative [x]. *)
Definition format_percent1 (x : float) : string :=
  let t := scaled_digits 10 (PrimFloat.mul x 100) in
  str_of_Z (t / 10) ++ "." ++ str_of_Z (t mod 10) ++ "%".

(** [max(x, 0)] and [min(x, 100)] on a float and an [int] literal: the
    first argument wins a tie, and the literal stands for its float. *)
Definition max0 (x : float) : float :=
  if PrimFloat.ltb x 0 then 0%float else x.

Definition min100 (x : float) : float :=
  if PrimFloat.ltb 100 x then 100%float else x.

End Py.

(* ================================================================= *)
(** ** Regular expressions: the fragment of [re] the program uses *)

Module Re.

Import Py.
Open Scope string_scope.

(** One-character classes. *)
Inductive cls : Type :=
| Any        (** [.]     : any character but a newline *)
| Space      (** [\s]    *)
| NotSpace   (** [[^\s]] *)
| Digit      (** [\d]    *)
| Word       (** [\w]    *).

Definition in_cls (k : cls) (c : ascii) : bool :=
  match k with
  | Any => negb (Ascii.eqb c (ascii_of_nat 10))
  | Space => isspace c
  | NotSpace => negb (isspace c)
  | Digit => isdigit c
  | Word => isword c
  end.

(** Patterns.  Repetition is only ever applied to a one-character class
    in the program's patterns. *)
Inductive re : Type :=
| Lit (s : string)           (** literal characters, in sequence *)
| Seq (r1 r2 : re)           (** [r1 r2]    *)
| Alt (r1 r2 : re)           (** [r1|r2]    *)
| Opt (r : re)               (** [r?]       *)
| Plus (k : cls)             (** [k+]       *)
| Star (k : cls)             (** [k*]       *)
| Bound                      (** [\b]       *)
| Group (i : nat) (r : re).  (** [(r)], the [i]-th group of the pattern *)

Infix ">>" := Seq (at level 61, right associativity).

(** [w|w1|...|wn] for literal words. *)
Fixpoint one_of (w : string) (ws : list string) : re :=
  match ws with
  | [] => Lit w
  | w' :: ws' => Alt (Lit w) (one_of w' ws')
  end.

(** A pattern as written: its body and whether it opens with [(?i)]. *)
Record pattern : Type := { inline_i : bool; body : re }.

(** A compiled pattern. *)
Record regex : Type := { icase : bool; ngroups : nat; prog : re }.

Fixpoint count_groups (r : re) : nat :=
  match r with
  | Seq r1 r2 | Alt r1 r2 => count_groups r1 + count_groups r2
  | Opt r1 => count_groups r1
  | Group _ r1 => S (count_groups r1)
  | Lit _ | Plus _ | Star _ | Bound => 0
  end.

(** [re.compile(p, re.IGNORECASE)] when [ignorecase], else [re.compile(p)]. *)
Definition compile (ignorecase : bool) (p : pattern) : regex :=
  {| icase := (ignorecase || inline_i p)%bool;
     ngroups := count_groups (body p);
     prog := body p |}.

(** A position in the subject: the character before it, if any, and the
    characters from it on. *)
Definition pos : Type := (option ascii * list ascii)%type.

(** The text the groups matched, latest first. *)
Definition caps : Type := list (nat * string).

(** A literal character of the pattern against a character of the
    subject.  The program's patterns hold ASCII only, and within
    U+0000..U+00FF ignoring case then equates exactly the two cases of an
    ASCII letter. *)
Definition char_matches (ic : bool) (p c : ascii) : bool :=
  if ic
  then (isascii_char c && Ascii.eqb (lower_char p) (lower_char c))%bool
  else Ascii.eqb p c.

Fixpoint match_lit (ic : bool) (l : string) (p : pos) : option pos :=
  match l with
  | EmptyString => Some p
  | String a l' =>
      match snd p with
      | c :: s' => if char_matches ic a c then match_lit ic l' (Some c, s') else None
      | [] => None
      end
  end.

Definition is_word_opt (c : option ascii) : bool :=
  match c with Some a => isword a | None => false end.

(** [\b]: exactly one side of the position is a word character. *)
Definition at_boundary (p : pos) : bool :=
  xorb (is_word_opt (fst p)) (is_word_opt (hd_error (snd p))).

(** The text between two positions of one subject. *)
Definition consumed (p p' : pos) : string :=
  str (firstn (List.length (snd p) - List.length (snd p')) (snd p)).

Section Matcher.

Variable R : Type.

(** Greedy [k*]: take one more character first, fall back on failure. *)
Fixpoint star (k : cls) (prev : option ascii) (s : list ascii)
         (cont : pos -> option R) : option R :=
  match s with
  | c :: s' =>
      if in_cls k c
      then match star k (Some c) s' cont with
           | Some x => Some x
           | None => cont (prev, s)
           end
      else cont (prev, s)
  | [] => cont (prev, s)
  end.

(** The backtracking matcher, in continuation-passing style: the first
    success in the order alternatives are written and repetitions are
    greedy, as [re] finds it. *)
Fixpoint run (ic : bool) (r : re) (p : pos) (g : caps)
         (cont : pos -> caps -> option R) : option R :=
  match r with
  | Lit l =>
      match match_lit ic l p with
      | Some p' => cont p' g
      | None => None
      end
  | Seq r1 r2 => run ic r1 p g (fun p' g' => run ic r2 p' g' cont)
  | Alt r1 r2 =>
      match run ic r1 p g cont with
      | Some x => Some x
      | None => run ic r2 p g cont
      end
  | Opt r1 =>
      match run ic r1 p g cont with
      | Some x => Some x
      | None => cont p g
      end
  | Plus k =>
      match snd p with
      | c :: s' =>
          if in_cls k c then star k (Some c) s' (fun p' => cont p' g) else None
      | [] => None
      end
  | Star k => star k (fst p) (snd p) (fun p' => cont p' g)
  | Bound => if at_boundary p then cont p g else None
  | Group i r1 =>
      run ic r1 p g (fun p' g' => cont p' ((i, consumed p p') :: g'))
  end.

End Matcher.

(** The least number of characters a match of [r] spans. *)
Fixpoint min_len (r : re) : nat :=
  match r with
  | Lit l => String.length l
  | Seq r1 r2 => min_len r1 + min_len r2
  | Alt r1 r2 => Nat.min (min_len r1) (min_len r2)
  | Plus _ => 1
  | Group _ r1 => min_len r1
  | Opt _ | Star _ | Bound => 0
  end.

(** A match starting exactly at [p]: where it ends and what the groups hold. *)
Definition match_at (rx : regex) (p : pos) : option (pos * caps) :=
  run (pos * caps) (icase rx) (prog rx) p [] (fun p' g => Some (p', g)).

(** An element of the list [findall] returns: a string when the pattern
    has at most one group, else the tuple of its groups (two or more). *)
Inductive found : Type :=
| MStr (s : string)
| MTuple (g1 : string) (gs : list string).

(** [isinstance(m, str)] *)
Definition is_str (m : found) : bool :=
  match m with
  | MStr _ => true
  | MTuple _ _ => false
  end.

Fixpoint group_text (i : nat) (g : caps) : string :=
  match g with
  | [] => ""
  | (j, s) :: g' => if Nat.eqb i j then s else group_text i g'
  end.

Definition found_of (n : nat) (whole : string) (g : caps) : found :=
  match n with
  | 0 => MStr whole
  | 1 => MStr (group_text 1 g)
  | S (S m) => MTuple (group_text 1 g) (map (fun i => group_text i g) (seq 2 (S m)))
  end.

(** The scan of [findall]: leftmost matches, none overlapping, each with
    the text it spans and what its groups hold.  [skip] counts the
    characters still inside the previous match.  (No pattern of the
    program matches the empty string, where [re] would look at the same
    position once more: see [program_patterns_span_a_character].) *)
Fixpoint scan (rx : regex) (prev : option ascii) (s : list ascii) (skip : nat)
  : list (string * caps) :=
  match skip with
  | S k =>
      match s with
      | [] => []
      | c :: s' => scan rx (Some c) s' k
      end
  | O =>
      match match_at rx (prev, s) with
      | Some (p', g) =>
          let m := List.length s - List.length (snd p') in
          (consumed (prev, s) p', g)
          :: match s with
             | [] => []
             | c :: s' => scan rx (Some c) s' (pred m)
             end
      | None =>
          match s with
          | [] => []
          | c :: s' => scan rx (Some c) s' 0
          end
      end
  end.

(** [rx.findall(text)] *)
Definition findall (rx : regex) (text : string) : list found :=
  map (fun m => found_of (ngroups rx) (fst m) (snd m))
      (scan rx None (chars text) 0).

(** [re.findall(p, text)] for a pattern [p] without groups: the list of
    the matched texts. *)
Definition findall_text (p : pattern) (text : string) : list string :=
  map fst (scan (compile false p) None (chars text) 0).

End Re.

(* ================================================================= *)
(** ** [urllib.parse.urlparse], as far as [netloc] goes *)

Module UrlParse.

Import Py.
Open Scope string_scope.

(** The characters of a URL scheme ([scheme_chars]). *)
Definition scheme_char (c : ascii) : bool :=
  let n := N_of_ascii c in
  (between 97 122 n || between 65 90 n || between 48 57 n
   || N.eqb n 43 || N.eqb n 45 || N.eqb n 46)%bool.

(** [url[i+1:]] when [url[:i]] is a scheme ([i = url.find(':')], [i > 0],
    a first character that is an ASCII letter, scheme characters up to
    the colon); else [url] itself. *)
Fixpoint after_scheme (s : string) : option string :=
  match s with
  | EmptyString => None
  | String c s' =>
      if Ascii.eqb c ":" then Some s'
      else if scheme_char c then after_scheme s' else None
  end.

Definition strip_scheme (url : string) : string :=
  match url with
  | EmptyString => url
  | String c _ =>
      if (isascii_alpha c)
      then match after_scheme url with Some rest => rest | None => url end
      else url
  end.

(** [_splitnetloc(url, 0)[0]] on the text after the two slashes: up to the
    first of [/], [?], [#]. *)
Fixpoint upto_delim (s : string) : string :=
  match s with
  | EmptyString => EmptyString
  | String c s' =>
      if (Ascii.eqb c "/" || Ascii.eqb c "?" || Ascii.eqb c "#")%bool
      then EmptyString
      else String c (upto_delim s')
  end.

(** [urlparse(url).netloc], or the [ValueError] of [urlsplit], for a [url]
    that starts with a letter and holds no whitespace, as every match of
    the extractor's URL pattern does (so [urlsplit] has no leading control
    character to strip and no tab or line break to remove).
    [bracketed_ok] is the interpreter's check of a host in brackets
    ([_check_bracketed_netloc]; interpreters before 3.11.4 have none:
    there it is constantly true).  [_checknetloc] never raises on
    U+0000..U+00FF: no character there normalises under NFKC to a text
    holding one of [/?#@:]. *)
Definition netloc (bracketed_ok : string -> bool) (url : string) : result string :=
  match strip_scheme url with
  | String "/" (String "/" rest) =>
      let nl := upto_delim rest in
      let lb := has_char "[" nl in
      let rb := has_char "]" nl in
      if ((lb && negb rb) || (rb && negb lb))%bool then Raise ValueError
      else if (lb && rb && negb (bracketed_ok nl))%bool then Raise ValueError
      else Ok nl
  | _ => Ok ""
  end.

End UrlParse.

(* ================================================================= *)
(** ** The interpreter-dependent part *)

Record PyRuntime : Type := {
  (** [list(set(l))] for a list of strings: the distinct elements, in the
      order the process's string hash puts them. *)
  set_iter : list string -> list string;
  set_iter_perm : forall l, Permutation (nodup string_dec l) (set_iter l);
  (** the host check of [urlsplit] for a netloc in brackets *)
  bracketed_ok : string -> bool
}.

(* ================================================================= *)
(** ** [class EngagementAnalyzer] *)

Module EngagementAnalyzer.

Import Py Re.
Open Scope string_scope.

(** *** Class constants *)

(** [r'\b(hate|stupid|idiot|dumb|trash|garbage|worst)\b']
    [r'\b(kill|die|death|hurt)\s+(you|yourself|them)']
    [r'\b(f\*ck|sh\*t|damn|hell)\s+(you|off)']
    [r'\b(loser|pathetic|disgusting|horrible)\b'] *)
Definition TOXIC_PATTERNS : list pattern :=
  [ {| inline_i := false;
       body := Bound
               >> Group 1 (one_of "hate" ["stupid"; "idiot"; "dumb"; "trash";
                                          "garbage"; "worst"])
               >> Bound |};
    {| inline_i := false;
       body := Bound
               >> Group 1 (one_of "kill" ["die"; "death"; "hurt"])
               >> Plus Space
               >> Group 2 (one_of "you" ["yourself"; "them"]) |};
    {| inline_i := false;
       body := Bound
               >> Group 1 (one_of "f*ck" ["sh*t"; "damn"; "hell"])
               >> Plus Space
               >> Group 2 (one_of "you" ["off"]) |};
    {| inline_i := false;
       body := Bound
               >> Group 1 (one_of "loser" ["pathetic"; "disgusting"; "horrible"])
               >> Bound |} ].

(** [r'(?i)(click here|follow for follow|f4f|l4l)']
    [r'(?i)(buy now|limited time|act now|offer expires)']
    [r'(?i)(make \$\d+|earn money fast|work from home)']
    [r'(?i)(crypto|bitcoin|nft).*(guaranteed|profit|returns)']
    [r'(?i)(dm for|check bio|link in bio).*(\$|money|cash|paid)'] *)
Definition SPAM_PATTERNS : list pattern :=
  [ {| inline_i := true;
       body := Group 1 (one_of "click here" ["follow for follow"; "f4f"; "l4l"]) |};
    {| inline_i := true;
       body := Group 1 (one_of "buy now" ["limited time"; "act now";
                                          "offer expires"]) |};
    {| inline_i := true;
       body := Group 1 (Alt (Lit "make $" >> Plus Digit)
                            (one_of "earn money fast" ["work from home"])) |};
    {| inline_i := true;
       body := Group 1 (one_of "crypto" ["bitcoin"; "nft"])
               >> Star Any
               >> Group 2 (one_of "guaranteed" ["profit"; "returns"]) |};
    {| inline_i := true;
       body := Group 1 (one_of "dm for" ["check bio"; "link in bio"])
               >> Star Any
               >> Group 2 (one_of "$" ["money"; "cash"; "paid"]) |} ].

(** [r'(?i)\b(sex|porn|xxx|nsfw|nude|naked)\b']
    [r'(?i)\b(sexual|explicit|adult content)\b'] *)
Definition NSFW_PATTERNS : list pattern :=
  [ {| inline_i := true;
       body := Bound
               >> Group 1 (one_of "sex" ["porn"; "xxx"; "nsfw"; "nude"; "naked"])
               >> Bound |};
    {| inline_i := true;
       body := Bound
               >> Group 1 (one_of "sexual" ["explicit"; "adult content"])
               >> Bound |} ].

Definition SUSPICIOUS_DOMAINS : list string :=
  [ "bit.ly"; "tinyurl.com"; "shorturl.at";
    "click"; "offer"; "promo"; "deals" ].

Definition OPTIMAL_LENGTH_MIN : nat := 50.
Definition OPTIMAL_LENGTH_MAX : nat := 280.
Definition SWEET_SPOT_MIN : nat := 100.
Definition SWEET_SPOT_MAX : nat := 200.

Definition MAX_CAPS_RATIO : float := 0.3.
Definition RECOMMENDED_CAPS_RATIO : float := 0.1.

(** *** [__init__] *)

Definition toxic_regex : list regex := map (compile true) TOXIC_PATTERNS.
Definition spam_regex : list regex := map (compile true) SPAM_PATTERNS.
Definition nsfw_regex : list regex := map (compile true) NSFW_PATTERNS.

(** The patterns [_extract_features] hands to [re.findall]:
    [r'https?://[^\s]+'], [r'@\w+'], [r'#\w+']. *)
Definition url_pattern : pattern :=
  {| inline_i := false;
     body := Lit "http" >> Opt (Lit "s") >> Lit "://" >> Plus NotSpace |}.
Definition mention_pattern : pattern :=
  {| inline_i := false; body := Lit "@" >> Plus Word |}.
Definition hashtag_pattern : pattern :=
  {| inline_i := false; body := Lit "#" >> Plus Word |}.

(** *** Data *)

(** The severity of a penalty and the risk level of a result: the four
    strings ['LOW'], ['MEDIUM'], ['HIGH'], ['CRITICAL']. *)
Inductive level : Type := LOW | MEDIUM | HIGH | CRITICAL.

Definition level_eqb (a b : level) : bool :=
  match a, b with
  | LOW, LOW | MEDIUM, MEDIUM | HIGH, HIGH | CRITICAL, CRITICAL => true
  | _, _ => false
  end.

(** A penalty: the dict with the keys ['type'], ['severity'], ['impact'],
    ['description'], ['details']. *)
Record Penalty : Type := {
  p_type : string;
  p_severity : level;
  p_impact : string;
  p_description : string;
  p_details : string
}.

(** A boost: the dict with the keys ['type'], ['impact'], ['description'],
    ['details']. *)
Record Boost : Type := {
  b_type : string;
  b_impact : string;
  b_description : string;
  b_details : string
}.

(** The dict [_extract_features] returns. *)
Record Features : Type := {
  text_length : nat;
  char_count : nat;
  caps_ratio : float;
  upper_count : nat;
  whitespace_count : nat;
  newline_count : nat;
  has_question : bool;
  question_count : nat;
  urls : list string;
  url_count : nat;
  suspicious_urls : list string;
  mentions : list string;
  mention_count : nat;
  hashtags : list string;
  hashtag_count : nat;
  has_media : bool;
  media_type : option string;
  is_reply : bool
}.

(** [@dataclass class AnalysisResult] *)
Record AnalysisResult : Type := {
  overall_score : float;
  risk_level : level;
  safety_score : float;
  quality_score : float;
  engagement_potential : float;
  penalties : list Penalty;
  boosts : list Boost;
  warnings : list string;
  recommendations : list string;
  feature_breakdown : Features
}.

Notation "x <- m ;; k" := (bind m (fun x => k))
  (at level 62, m at next level, right associativity).

(** [l.append(x)] *)
Definition push {A : Type} (l : list A) (x : A) : list A := (l ++ [x])%list.

Definition nonempty {A : Type} (l : list A) : bool :=
  match l with [] => false | _ :: _ => true end.

Definition newline : ascii := ascii_of_nat 10.

(** *** [_extract_features] *)

(** The body of the loop over [urls]: whether [url] is appended to
    [suspicious_urls], either by the test on its domain or by the bare
    [except]. *)
Definition is_suspicious (rt : PyRuntime) (url : string) : bool :=
  match UrlParse.netloc (bracketed_ok rt) url with
  | Ok nl =>
      let domain := lower nl in
      existsb (fun suspicious => contains suspicious domain) SUSPICIOUS_DOMAINS
  | Raise _ => true
  end.

Definition _extract_features (rt : PyRuntime) (text : string) (has_media : bool)
           (media_type : option string) (is_reply : bool) : result Features :=
  let text_length := len text in
  let char_count := count_if (fun c => negb (isspace c)) text in
  let upper_count := count_if isupper text in
  caps_ratio <- (if Nat.ltb 0 char_count
                 then truediv upper_count char_count
                 else Ok 0%float) ;;
  let whitespace_count := count_if isspace text in
  let newline_count := count_char newline text in
  let question_marks := count_char "?" text in
  let has_question := has_char "?" text in
  let urls := findall_text url_pattern text in
  let url_count := List.length urls in
  let mentions := findall_text mention_pattern text in
  let mention_count := List.length mentions in
  let hashtags := findall_text hashtag_pattern text in
  let hashtag_count := List.length hashtags in
  let suspicious_urls := filter (is_suspicious rt) urls in
  Ok
  {| text_length := text_length;
     char_count := char_count;
     caps_ratio := caps_ratio;
     upper_count := upper_count;
     whitespace_count := whitespace_count;
     newline_count := newline_count;
     has_question := has_question;
     question_count := question_marks;
     urls := urls;
     url_count := url_count;
     suspicious_urls := suspicious_urls;
     mentions := mentions;
     mention_count := mention_count;
     hashtags := hashtags;
     hashtag_count := hashtag_count;
     has_media := has_media;
     media_type := media_type;
     is_reply := is_reply |}.

(** *** [_analyze_safety] *)

(** The matches of a list of compiled patterns, pattern after pattern. *)
Definition all_matches (rxs : list regex) (text : string) : list found :=
  flat_map (fun rx => findall rx text) rxs.

(** The items of a list that [str.join] accepts: [TypeError] on the first
    one that is not a string. *)
Fixpoint str_items (l : list found) : result (list string) :=
  match l with
  | [] => Ok []
  | MStr s :: l' => ss <- str_items l' ;; Ok (s :: ss)
  | MTuple _ _ :: _ => Raise TypeError
  end.

(** [", ".join(set(l))] for a list of [findall] results *)
Definition join_set (rt : PyRuntime) (l : list found) : result string :=
  ss <- str_items l ;; Ok (join ", " (set_iter rt ss)).

(** [m[0] if isinstance(m, tuple) else m] *)
Definition first_group (m : found) : string :=
  match m with
  | MStr s => s
  | MTuple g1 _ => g1
  end.

Definition impact_minus (p : Z) : string := "-" ++ str_of_Z p ++ "%".
Definition impact_plus (p : Z) : string := "+" ++ str_of_Z p ++ "%".

Definition toxic_warning : string :=
  "🚨 CRITICAL: Toxic language detected - may be filtered or downranked to "
  ++ dq ++ "Abusive Quality" ++ dq ++ " section".
Definition spam_warning : string :=
  "🚨 CRITICAL: Spam indicators detected - may trigger GrokSpamFilter (hard filter)".
Definition nsfw_warning : string :=
  "🚨 CRITICAL: NSFW content detected - may trigger GrokNsfwFilter (hard filter)".
Definition url_warning : string :=
  "⚠️  HIGH: Suspicious URLs may trigger " ++ dq ++ "Abusive Quality" ++ dq
  ++ " downranking".

(** The state the safety and quality scorers update check after check: the
    locals [score], [warnings], [penalties]. *)
Definition acc : Type := (float * list string * list Penalty)%type.

(** [# Check toxicity patterns] *)
Definition check_toxicity (rt : PyRuntime) (text : string) (a : acc) : result acc :=
  let '(score, warnings, penalties) := a in
  let toxic_matches := all_matches toxic_regex text in
  if nonempty toxic_matches then
    let penalty_severity := Z.min (Z.of_nat (List.length toxic_matches) * 15) 60 in
    let score := PrimFloat.sub score (float_of_Z penalty_severity) in
    details <- join_set rt (slice_to 3 toxic_matches) ;;
    Ok (score,
        push warnings (toxic_warning),
        push penalties ({| p_type := "HIGH_TOXICITY";
              p_severity := if (40 <? penalty_severity)%Z then CRITICAL else HIGH;
              p_impact := impact_minus penalty_severity;
              p_description := "Toxic language detected: "
                               ++ str_of_nat (List.length toxic_matches)
                               ++ " pattern(s)";
              p_details := "Matched: " ++ details ++ "..." |}))
  else Ok a.

(** [# Check spam patterns] *)
Definition check_spam (rt : PyRuntime) (text : string) (a : acc) : result acc :=
  let '(score, warnings, penalties) := a in
  let spam_matches := all_matches spam_regex text in
  if nonempty spam_matches then
    let penalty_severity := Z.min (Z.of_nat (List.length spam_matches) * 20) 70 in
    let score := PrimFloat.sub score (float_of_Z penalty_severity) in
    let details :=
      join ", " (set_iter rt (map first_group (slice_to 3 spam_matches))) in
    Ok (score,
        push warnings (spam_warning),
        push penalties ({| p_type := "HIGH_SPAMMY_CONTENT";
              p_severity := if (50 <? penalty_severity)%Z then CRITICAL else HIGH;
              p_impact := impact_minus penalty_severity;
              p_description := "Spam patterns detected: "
                               ++ str_of_nat (List.length spam_matches)
                               ++ " indicator(s)";
              p_details := "Matched: " ++ details ++ "..." |}))
  else Ok a.

(** [# Check NSFW patterns] *)
Definition check_nsfw (rt : PyRuntime) (text : string) (a : acc) : result acc :=
  let '(score, warnings, penalties) := a in
  let nsfw_matches := all_matches nsfw_regex text in
  if nonempty nsfw_matches then
    let penalty_severity := 50%Z in
    let score := PrimFloat.sub score (float_of_Z penalty_severity) in
    details <- join_set rt (slice_to 3 nsfw_matches) ;;
    Ok (score,
        push warnings (nsfw_warning),
        push penalties ({| p_type := "NSFW_CONTENT";
              p_severity := CRITICAL;
              p_impact := impact_minus penalty_severity;
              p_description := "NSFW content detected";
              p_details := "Matched: " ++ details ++ "..." |}))
  else Ok a.

(** [# Check suspicious URLs] *)
Definition check_urls (features : Features) (a : acc) : acc :=
  let '(score, warnings, penalties) := a in
  if nonempty (suspicious_urls features) then
    let penalty_severity := 40%Z in
    let score := PrimFloat.sub score (float_of_Z penalty_severity) in
    (score,
     push warnings (url_warning),
     push penalties ({| p_type := "UNTRUSTED_URL";
           p_severity := HIGH;
           p_impact := impact_minus penalty_severity;
           p_description := "Suspicious URLs detected: "
                            ++ str_of_nat (List.length (suspicious_urls features));
           p_details := "URLs: "
                        ++ join ", " (slice_to 2 (suspicious_urls features)) |}))
  else a.

(** Returns [(score, warnings, penalties)], or the exception that leaves
    the method. *)
Definition _analyze_safety (rt : PyRuntime) (text : string) (features : Features)
  : result acc :=
  let a : acc := (100%float, [], []) in
  a <- check_toxicity rt text a ;;
  a <- check_spam rt text a ;;
  a <- check_nsfw rt text a ;;
  let '(score, warnings, penalties) := check_urls features a in
  Ok (max0 score, warnings, penalties).

(** *** [_analyze_quality] *)

(** [# Length analysis] *)
Definition check_length (features : Features) (a : acc) : acc :=
  let '(score, warnings, penalties) := a in
  let length := text_length features in
  if Nat.ltb length 10 then
    let penalty := 30%Z in
    (PrimFloat.sub score (float_of_Z penalty),
     push warnings ("⚠️  Tweet too short (" ++ str_of_nat length
                   ++ " chars) - low engagement expected"),
     push penalties ({| p_type := "TOO_SHORT";
           p_severity := MEDIUM;
           p_impact := impact_minus penalty;
           p_description := "Tweet too short (" ++ str_of_nat length ++ " chars)";
           p_details := "Very short tweets get less engagement" |}))
  else if Nat.ltb length OPTIMAL_LENGTH_MIN then
    let penalty := 10%Z in
    (PrimFloat.sub score (float_of_Z penalty),
     warnings,
     push penalties ({| p_type := "BELOW_OPTIMAL";
           p_severity := LOW;
           p_impact := impact_minus penalty;
           p_description := "Below optimal length (" ++ str_of_nat length
                            ++ " chars)";
           p_details := "Aim for " ++ str_of_nat OPTIMAL_LENGTH_MIN ++ "-"
                        ++ str_of_nat OPTIMAL_LENGTH_MAX ++ " chars" |}))
  else a.

(** [# Caps analysis] *)
Definition check_caps (features : Features) (a : acc) : acc :=
  let '(score, warnings, penalties) := a in
  let caps_ratio := caps_ratio features in
  if PrimFloat.ltb 0.5 caps_ratio then
    let penalty := 40%Z in
    (PrimFloat.sub score (float_of_Z penalty),
     push warnings ("⚠️  HIGH: Excessive caps (" ++ format_percent0 caps_ratio
                   ++ ") - looks like spam"),
     push penalties ({| p_type := "EXCESSIVE_CAPS";
           p_severity := HIGH;
           p_impact := impact_minus penalty;
           p_description := "Excessive capitalization ("
                            ++ format_percent1 caps_ratio ++ ")";
           p_details := "May be flagged as spam or low quality" |}))
  else if PrimFloat.ltb MAX_CAPS_RATIO caps_ratio then
    let penalty := 15%Z in
    (PrimFloat.sub score (float_of_Z penalty),
     push warnings ("⚠️  High caps ratio (" ++ format_percent0 caps_ratio
                   ++ ") - reduce for better quality"),
     push penalties ({| p_type := "HIGH_CAPS";
           p_severity := MEDIUM;
           p_impact := impact_minus penalty;
           p_description := "High capitalization ("
                            ++ format_percent1 caps_ratio ++ ")";
           p_details := "Reduces perceived quality" |}))
  else a.

(** [# Whitespace abuse] *)
Definition check_newlines (features : Features) (a : acc) : acc :=
  let '(score, warnings, penalties) := a in
  if Nat.ltb 10 (newline_count features) then
    let penalty := 20%Z in
    (PrimFloat.sub score (float_of_Z penalty),
     push warnings ("⚠️  Too many newlines (" ++ str_of_nat (newline_count features)
                   ++ ") - may appear spammy"),
     push penalties ({| p_type := "EXCESSIVE_NEWLINES";
           p_severity := MEDIUM;
           p_impact := impact_minus penalty;
           p_description := "Excessive newlines ("
                            ++ str_of_nat (newline_count features) ++ ")";
           p_details := "May be flagged as spam" |}))
  else a.

(** [# Hashtag spam] *)
Definition check_hashtags (features : Features) (a : acc) : acc :=
  let '(score, warnings, penalties) := a in
  if Nat.ltb 5 (hashtag_count features) then
    let penalty := 25%Z in
    (PrimFloat.sub score (float_of_Z penalty),
     push warnings ("⚠️  Too many hashtags (" ++ str_of_nat (hashtag_count features)
                   ++ ") - use 1-3 max"),
     push penalties ({| p_type := "HASHTAG_SPAM";
           p_severity := MEDIUM;
           p_impact := impact_minus penalty;
           p_description := "Too many hashtags ("
                            ++ str_of_nat (hashtag_count features) ++ ")";
           p_details := "Reduces engagement, looks spammy" |}))
  else a.

(** Returns [(score, warnings, penalties)]. *)
Definition _analyze_quality (features : Features) : acc :=
  let a : acc := (100%float, [], []) in
  let a := check_length features a in
  let a := check_caps features a in
  let a := check_newlines features a in
  let '(score, warnings, penalties) := check_hashtags features a in
  (max0 score, warnings, penalties).

(** *** [_analyze_engagement_potential] *)

(** The locals [score], [boosts] of the engagement scorer. *)
Definition bacc : Type := (float * list Boost)%type.

(** [features['media_type'] == s] *)
Definition media_is (features : Features) (s : string) : bool :=
  match media_type features with
  | Some m => String.eqb m s
  | None => false
  end.

(** [# Question boost (confirmed engagement signal)] *)
Definition boost_question (features : Features) (a : bacc) : bacc :=
  let '(score, boosts) := a in
  if has_question features then
    let boost := 15%Z in
    (PrimFloat.add score (float_of_Z boost),
     push boosts ({| b_type := "HAS_QUESTION";
           b_impact := impact_plus boost;
           b_description := "Question detected";
           b_details := "Questions increase reply likelihood" |}))
  else a.

(** [# Media boost (major engagement driver)] *)
Definition boost_media (features : Features) (a : bacc) : bacc :=
  let '(score, boosts) := a in
  if has_media features then
    if media_is features "video" then
      let boost := 30%Z in
      (PrimFloat.add score (float_of_Z boost),
       push boosts ({| b_type := "VIDEO_MEDIA";
             b_impact := impact_plus boost;
             b_description := "Video content";
             b_details := "Video gets highest engagement" |}))
    else if media_is features "gif" then
      let boost := 20%Z in
      (PrimFloat.add score (float_of_Z boost),
       push boosts ({| b_type := "GIF_MEDIA";
             b_impact := impact_plus boost;
             b_description := "GIF content";
             b_details := "GIFs boost engagement" |}))
    else if media_is features "image" then
      let boost := 25%Z in
      (PrimFloat.add score (float_of_Z boost),
       push boosts ({| b_type := "IMAGE_MEDIA";
             b_impact := impact_plus boost;
             b_description := "Image content";
             b_details := "Images significantly boost engagement" |}))
    else
      let boost := 20%Z in
      (PrimFloat.add score (float_of_Z boost),
       push boosts ({| b_type := "MEDIA";
             b_impact := impact_plus boost;
             b_description := "Media present";
             b_details := "Media content boosts engagement" |}))
  else a.

(** [# Optimal length boost] *)
Definition boost_length (features : Features) (a : bacc) : bacc :=
  let '(score, boosts) := a in
  let length := text_length features in
  if (Nat.leb SWEET_SPOT_MIN length && Nat.leb length SWEET_SPOT_MAX)%bool then
    let boost := 10%Z in
    (PrimFloat.add score (float_of_Z boost),
     push boosts ({| b_type := "OPTIMAL_LENGTH";
           b_impact := impact_plus boost;
           b_description := "Optimal length (" ++ str_of_nat length ++ " chars)";
           b_details := "Sweet spot: " ++ str_of_nat SWEET_SPOT_MIN ++ "-"
                        ++ str_of_nat SWEET_SPOT_MAX ++ " chars" |}))
  else a.

(** [# Good formatting (not too many caps)] *)
Definition boost_formatting (features : Features) (a : bacc) : bacc :=
  let '(score, boosts) := a in
  if PrimFloat.leb (caps_ratio features) RECOMMENDED_CAPS_RATIO then
    let boost := 5%Z in
    (PrimFloat.add score (float_of_Z boost),
     push boosts ({| b_type := "GOOD_FORMATTING";
           b_impact := impact_plus boost;
           b_description := "Clean formatting";
           b_details := "Appropriate capitalization" |}))
  else a.

(** Returns [(score, boosts)]. *)
Definition _analyze_engagement_potential (features : Features) : bacc :=
  let a : bacc := (50%float, []) in
  let a := boost_question features a in
  let a := boost_media features a in
  let a := boost_length features a in
  let '(score, boosts) := boost_formatting features a in
  (min100 score, boosts).

(** *** [_calculate_overall_score] *)

(** [features.get('is_from_followed_account', False)]: the dict
    [_extract_features] builds has no such key, so the default is what
    [get] returns. *)
Definition is_from_followed_account (features : Features) : bool := false.

Definition _calculate_overall_score (safety_score quality_score
                                     engagement_score : float)
           (features : Features) : float :=
  if PrimFloat.ltb safety_score 50 then
    PrimFloat.mul safety_score 0.5
  else
    let overall :=
      PrimFloat.add
        (PrimFloat.add (PrimFloat.mul safety_score 0.4)
                       (PrimFloat.mul quality_score 0.3))
        (PrimFloat.mul engagement_score 0.3) in
    let overall :=
      if negb (is_from_followed_account features)
      then PrimFloat.mul overall 0.85
      else overall in
    overall.

(** *** [_determine_risk_level] *)

Definition is_critical (p : Penalty) : bool := level_eqb (p_severity p) CRITICAL.

Definition _determine_risk_level (overall_score safety_score : float)
           (safety_penalties : list Penalty) : level :=
  let critical_penalties := filter is_critical safety_penalties in
  if nonempty critical_penalties then CRITICAL
  else if PrimFloat.ltb overall_score 40 then HIGH
  else if PrimFloat.ltb overall_score 60 then MEDIUM
  else LOW.

(** *** [_generate_recommendations] *)

(** [if b: recommendations.append(s)] *)
Definition when (b : bool) (s : string) (recommendations : list string)
  : list string :=
  if b then push recommendations (s) else recommendations.

Definition _generate_recommendations (features : Features)
           (safety_score quality_score engagement_score : float)
           (safety_penalties quality_penalties : list Penalty) : list string :=
  let r : list string := [] in
  let r := when (PrimFloat.ltb safety_score 70)
             "🚨 CRITICAL: Remove toxic/spam/NSFW language to avoid filters" r in
  let r := when (nonempty (suspicious_urls features))
             "🔗 Replace shortened/suspicious URLs with direct links" r in
  let r := when (Nat.ltb (text_length features) OPTIMAL_LENGTH_MIN)
             ("📝 Expand your tweet to " ++ str_of_nat OPTIMAL_LENGTH_MIN
              ++ "+ characters for better engagement") r in
  let r := when (PrimFloat.ltb MAX_CAPS_RATIO (caps_ratio features))
             "🔤 Reduce CAPITALIZATION - use sentence case instead" r in
  let r := when (Nat.ltb 3 (hashtag_count features))
             ("#️⃣ Reduce hashtags to 1-3 (currently "
              ++ str_of_nat (hashtag_count features) ++ ")") r in
  let r := when (Nat.ltb 5 (newline_count features))
             "📄 Reduce excessive line breaks" r in
  let r := when (negb (has_question features)
                 && Nat.ltb 50 (text_length features))%bool
             "❓ Consider adding a question to boost replies" r in
  let r := when (negb (has_media features))
             "📸 Add an image or video for +20-30% engagement boost" r in
  let r := when (Nat.ltb (text_length features) SWEET_SPOT_MIN
                 && Nat.leb OPTIMAL_LENGTH_MIN (text_length features))%bool
             ("💡 Sweet spot is " ++ str_of_nat SWEET_SPOT_MIN ++ "-"
              ++ str_of_nat SWEET_SPOT_MAX ++ " chars for maximum engagement") r in
  let r := when (negb (nonempty r))
             "✅ Looks good! This tweet should perform well." r in
  r.

(** *** [analyze] *)

Definition analyze (rt : PyRuntime) (text : string) (has_media : bool)
           (media_type : option string) (is_reply : bool)
  : result AnalysisResult :=
  features <- _extract_features rt text has_media media_type is_reply ;;
  s <- _analyze_safety rt text features ;;
  let '(safety_score, safety_warnings, safety_penalties) := s in
  let '(quality_score, quality_warnings, quality_penalties) :=
    _analyze_quality features in
  let '(engagement_score, engagement_boosts) :=
    _analyze_engagement_potential features in
  let overall_score :=
    _calculate_overall_score safety_score quality_score engagement_score
                             features in
  let risk_level :=
    _determine_risk_level overall_score safety_score safety_penalties in
  let all_warnings := (safety_warnings ++ quality_warnings)%list in
  let recommendations :=
    _generate_recommendations features safety_score quality_score
                              engagement_score safety_penalties
                              quality_penalties in
  let all_penalties := (safety_penalties ++ quality_penalties)%list in
  Ok {| overall_score := round1 overall_score;
        risk_level := risk_level;
        safety_score := round1 safety_score;
        quality_score := round1 quality_score;
        engagement_potential := round1 engagement_score;
        penalties := all_penalties;
        boosts := engagement_boosts;
        warnings := all_warnings;
        recommendations := recommendations;
        feature_breakdown := features |}.

End EngagementAnalyzer.

(* ================================================================= *)
(** ** Two interpreters *)

(** Two processes whose string hashes put the elements of a set in opposite
    orders; neither validates a bracketed host. *)
Module Runtimes.

Definition distinct (l : list string) : list string := nodup string_dec l.

Definition rt_fwd : PyRuntime :=
  {| set_iter := distinct;
     set_iter_perm := fun l => Permutation_refl (distinct l);
     bracketed_ok := fun _ => true |}.

Definition rt_bwd : PyRuntime :=
  {| set_iter := fun l => rev (distinct l);
     set_iter_perm := fun l => Permutation_rev (distinct l);
     bracketed_ok := fun _ => true |}.

End Runtimes.

(* ================================================================= *)
(** ** The values a score can take *)

Module Scores.

Import Py.

(** Every penalty and boost is a multiple of five, so every sub-score is
    one of the 21 floats [0, 5, ..., 100]. *)
Definition fives (k : nat) : float := float_of_Z (5 * Z.of_nat k).

Definition steps : list nat := seq 0 21.

(** A check over all triples of sub-scores. *)
Definition all_fives (P : float -> float -> float -> bool) : bool :=
  forallb (fun a =>
    forallb (fun b =>
      forallb (fun c => P (fives a) (fives b) (fives c)) steps) steps) steps.

(** [0 <= x <= 100] *)
Definition in_range (x : float) : bool :=
  (PrimFloat.leb 0 x && PrimFloat.leb x 100)%bool.

(** Which of the 21 values a float is, if any. *)
Definition step_of (x : float) : nat := Z.to_nat (scaled_digits 1 x / 5).

(** One check of a scorer: the score stays, or loses one of the amounts [ps]. *)
Definition stepped (ps : list Z) (sc sc' : float) : Prop :=
  sc' = sc \/ exists p, In p ps /\ sc' = PrimFloat.sub sc (float_of_Z p).

(** A closed float that is one of the 21 values: name its index. *)
Ltac solve_fives :=
  match goal with
  | |- exists k : nat, (k <= 20)%nat /\ ?x = fives k =>
      let k := eval vm_compute in (step_of x) in
      exists k; split; [ lia | vm_compute; reflexivity ]
  end.

(** Every way a sequence of checks can have gone. *)
Ltac split_steps :=
  repeat match goal with
         | H : stepped _ _ _ |- _ => unfold stepped in H; simpl in H
         | H : _ \/ _ |- _ => destruct H
         | H : exists _, _ |- _ => destruct H
         | H : _ /\ _ |- _ => destruct H
         | H : False |- _ => contradiction H
         end.

End Scores.

(* ================================================================= *)
(** ** Reading a result *)

Module Verdict.

Import Py EngagementAnalyzer.

(** The result [analyze] builds once the features and the outcome of the
    safety scorer are known. *)
Definition assemble (f : Features) (s : float) (w : list string)
           (ps : list Penalty) : AnalysisResult :=
  let q := _analyze_quality f in
  let e := _analyze_engagement_potential f in
  let o := _calculate_overall_score s (fst (fst q)) (fst e) f in
  {| overall_score := round1 o;
     risk_level := _determine_risk_level o s ps;
     safety_score := round1 s;
     quality_score := round1 (fst (fst q));
     engagement_potential := round1 (fst e);
     penalties := ps ++ snd q;
     boosts := snd e;
     warnings := w ++ snd (fst q);
     recommendations :=
       _generate_recommendations f s (fst (fst q)) (fst e) ps (snd q);
     feature_breakdown := f |}.

(** The risk level the thresholds give an overall score. *)
Definition by_thresholds (o : float) : level :=
  if PrimFloat.ltb o 40 then HIGH
  else if PrimFloat.ltb o 60 then MEDIUM
  else LOW.

(** Two results that agree on everything but [feature_breakdown]. *)
Definition same_verdict (r1 r2 : AnalysisResult) : Prop :=
  overall_score r1 = overall_score r2
  /\ risk_level r1 = risk_level r2
  /\ safety_score r1 = safety_score r2
  /\ quality_score r1 = quality_score r2
  /\ engagement_potential r1 = engagement_potential r2
  /\ penalties r1 = penalties r2
  /\ boosts r1 = boosts r2
  /\ warnings r1 = warnings r2
  /\ recommendations r1 = recommendations r2.

(** Two feature dicts that agree on every entry but ['mentions'],
    ['mention_count'] and ['is_reply']. *)
Definition same_but_mentions_and_reply (f1 f2 : Features) : Prop :=
  text_length f1 = text_length f2
  /\ char_count f1 = char_count f2
  /\ caps_ratio f1 = caps_ratio f2
  /\ upper_count f1 = upper_count f2
  /\ whitespace_count f1 = whitespace_count f2
  /\ newline_count f1 = newline_count f2
  /\ has_question f1 = has_question f2
  /\ question_count f1 = question_count f2
  /\ urls f1 = urls f2
  /\ url_count f1 = url_count f2
  /\ suspicious_urls f1 = suspicious_urls f2
  /\ hashtags f1 = hashtags f2
  /\ hashtag_count f1 = hashtag_count f2
  /\ has_media f1 = has_media f2
  /\ media_type f1 = media_type f2.

(** Two texts in which the safety patterns find the same matches. *)
Definition same_pattern_matches (text1 text2 : string) : Prop :=
  all_matches toxic_regex text1 = all_matches toxic_regex text2
  /\ all_matches spam_regex text1 = all_matches spam_regex text2
  /\ all_matches nsfw_regex text1 = all_matches nsfw_regex text2.

(** Two outcomes of [analyze] that agree: the same exception, or results
    with the same verdict. *)
Definition same_outcome (o1 o2 : result AnalysisResult) : Prop :=
  match o1, o2 with
  | Ok r1, Ok r2 => same_verdict r1 r2
  | Raise e1, Raise e2 => e1 = e2
  | _, _ => False
  end.

(** A penalty without its details string. *)
Definition strip_details (p : Penalty) : Penalty :=
  {| p_type := p_type p;
     p_severity := p_severity p;
     p_impact := p_impact p;
     p_description := p_description p;
     p_details := "" |}.

(** Two states of a scorer that agree up to the details strings. *)
Definition acc_sim (a b : acc) : Prop :=
  fst (fst a) = fst (fst b)
  /\ snd (fst a) = snd (fst b)
  /\ map strip_details (snd a) = map strip_details (snd b).

Definition result_sim (x y : result acc) : Prop :=
  match x, y with
  | Ok a, Ok b => acc_sim a b
  | Raise e1, Raise e2 => e1 = e2
  | _, _ => False
  end.

(** Two results that agree on every field, the penalties up to their
    details strings. *)
Definition same_but_details (r1 r2 : AnalysisResult) : Prop :=
  overall_score r1 = overall_score r2
  /\ risk_level r1 = risk_level r2
  /\ safety_score r1 = safety_score r2
  /\ quality_score r1 = quality_score r2
  /\ engagement_potential r1 = engagement_potential r2
  /\ map strip_details (penalties r1) = map strip_details (penalties r2)
  /\ boosts r1 = boosts r2
  /\ warnings r1 = warnings r2
  /\ recommendations r1 = recommendations r2
  /\ feature_breakdown r1 = feature_breakdown r2.

(** The text of the repository's own example "SUSPICIOUS URL - Should
    Trigger Warning". *)
Definition example_11 : string :=
  "Check out this amazing deal! Click here for more info: bit.ly/123abc Limited time only! Visit: tinyurl.com/xyz789".

End Verdict.

(* ================================================================= *)
(** ** What a pattern can match, and where *)

Module Shapes.

Import Py Re.

(** The texts a pattern matches, read off its syntax ([\b] consumes
    nothing; which side of it holds a word character is the matcher's
    business). *)
Fixpoint lang (ic : bool) (r : re) (w : list ascii) : Prop :=
  match r with
  | Lit l => Forall2 (fun a c => char_matches ic a c = true) (chars l) w
  | Seq r1 r2 => exists w1 w2, w = (w1 ++ w2)%list /\ lang ic r1 w1 /\ lang ic r2 w2
  | Alt r1 r2 => lang ic r1 w \/ lang ic r2 w
  | Opt r1 => w = [] \/ lang ic r1 w
  | Plus k => w <> [] /\ Forall (fun c => in_cls k c = true) w
  | Star k => Forall (fun c => in_cls k c = true) w
  | Bound => w = []
  | Group _ r1 => lang ic r1 w
  end.

(** The pieces [ms] lie in [s] one after the other, none overlapping. *)
Fixpoint in_order (ms : list (list ascii)) (s : list ascii) : Prop :=
  match ms with
  | [] => True
  | m :: ms' => exists a b, s = (a ++ m ++ b)%list /\ in_order ms' b
  end.

(** The same for strings. *)
Fixpoint pieces_in_order (ms : list string) (text : string) : Prop :=
  match ms with
  | [] => True
  | m :: ms' =>
      exists a b, text = (a ++ m ++ b)%string /\ pieces_in_order ms' b
  end.

(** Every character of [s] satisfies [p]. *)
Definition every (p : ascii -> bool) (s : string) : bool := forallb p (chars s).

End Shapes.

(* ================================================================= *)
(** ** Points, rows and the grid of sub-scores *)

Module Tally.

Import Py Re EngagementAnalyzer.

(** What each detector of the safety scorer takes off, from the number of
    matches (or of suspicious URLs) it has. *)
Definition toxicity_points (n : nat) : Z :=
  if Nat.eqb n 0 then 0 else Z.min (Z.of_nat n * 15) 60.
Definition spam_points (n : nat) : Z :=
  if Nat.eqb n 0 then 0 else Z.min (Z.of_nat n * 20) 70.
Definition nsfw_points (n : nat) : Z := if Nat.eqb n 0 then 0 else 50.
Definition url_points (n : nat) : Z := if Nat.eqb n 0 then 0 else 40.

(** One row per detector, in the order they run: the type of the penalty,
    its severity, the points and the warning. *)
Definition row : Type := (string * level * Z * string)%type.

Definition safety_rows (t s n u : nat) : list row :=
  [ ("HIGH_TOXICITY"%string,
     if (40 <? toxicity_points t)%Z then CRITICAL else HIGH,
     toxicity_points t, toxic_warning);
    ("HIGH_SPAMMY_CONTENT"%string,
     if (50 <? spam_points s)%Z then CRITICAL else HIGH,
     spam_points s, spam_warning);
    ("NSFW_CONTENT"%string, CRITICAL, nsfw_points n, nsfw_warning);
    ("UNTRUSTED_URL"%string, HIGH, url_points u, url_warning) ].

(** The rows of the detectors that fired. *)
Definition fired (rows : list row) : list row :=
  filter (fun r => negb (Z.eqb (snd (fst r)) 0)) rows.

Definition total (rows : list row) : Z :=
  fold_right (fun r acc => (snd (fst r) + acc)%Z) 0%Z rows.

(** A detector taking its points off the score, when it has any. *)
Definition take (sc : float) (pts : Z) : float :=
  if Z.eqb pts 0 then sc else PrimFloat.sub sc (float_of_Z pts).

(** What a detector adds to a list, when it has points. *)
Definition add_if {A : Type} (pts : Z) (l : list A) (x : A) : list A :=
  if Z.eqb pts 0 then l else push l x.

(** What a penalty record shows of its row. *)
Definition shown (p : Penalty) : string * level * string :=
  (p_type p, p_severity p, p_impact p).

Definition row_shown (r : row) : string * level * string :=
  (fst (fst (fst r)), snd (fst (fst r)), impact_minus (snd (fst r))).

(** What each check of the quality scorer takes off, with the type and the
    severity of its penalty. *)
Definition length_points (f : Features) : Z :=
  if Nat.ltb (text_length f) 10 then 30
  else if Nat.ltb (text_length f) OPTIMAL_LENGTH_MIN then 10 else 0.
Definition caps_points (f : Features) : Z :=
  if PrimFloat.ltb 0.5 (caps_ratio f) then 40
  else if PrimFloat.ltb MAX_CAPS_RATIO (caps_ratio f) then 15 else 0.
Definition newline_points (f : Features) : Z :=
  if Nat.ltb 10 (newline_count f) then 20 else 0.
Definition hashtag_points (f : Features) : Z :=
  if Nat.ltb 5 (hashtag_count f) then 25 else 0.

Definition quality_points (f : Features) : Z :=
  (length_points f + caps_points f + newline_points f + hashtag_points f)%Z.

(** The rows of the quality scorer, in the order of its checks: type,
    severity and points. *)
Definition quality_rows (f : Features) : list (string * level * Z) :=
  [ (if Nat.ltb (text_length f) 10 then "TOO_SHORT"%string
     else "BELOW_OPTIMAL"%string,
     if Nat.ltb (text_length f) 10 then MEDIUM else LOW,
     length_points f);
    (if PrimFloat.ltb 0.5 (caps_ratio f) then "EXCESSIVE_CAPS"%string
     else "HIGH_CAPS"%string,
     if PrimFloat.ltb 0.5 (caps_ratio f) then HIGH else MEDIUM,
     caps_points f);
    ("EXCESSIVE_NEWLINES"%string, MEDIUM, newline_points f);
    ("HASHTAG_SPAM"%string, MEDIUM, hashtag_points f) ].

Definition fired3 (rows : list (string * level * Z))
  : list (string * level * Z) :=
  filter (fun r => negb (Z.eqb (snd r) 0)) rows.

Definition row3_shown (r : string * level * Z) : string * level * string :=
  (fst (fst r), snd (fst r), impact_minus (snd r)).

(** What each check of the engagement scorer adds, with the type of its
    boost. *)
Definition question_points (f : Features) : Z :=
  if has_question f then 15 else 0.
Definition media_points (f : Features) : Z :=
  if has_media f then
    if media_is f "video" then 30
    else if media_is f "gif" then 20
    else if media_is f "image" then 25
    else 20
  else 0.
Definition media_boost_type (f : Features) : string :=
  if media_is f "video" then "VIDEO_MEDIA"
  else if media_is f "gif" then "GIF_MEDIA"
  else if media_is f "image" then "IMAGE_MEDIA"
  else "MEDIA".
Definition sweet_spot_points (f : Features) : Z :=
  if (Nat.leb SWEET_SPOT_MIN (text_length f)
      && Nat.leb (text_length f) SWEET_SPOT_MAX)%bool then 10 else 0.
Definition formatting_points (f : Features) : Z :=
  if PrimFloat.leb (caps_ratio f) RECOMMENDED_CAPS_RATIO then 5 else 0.

Definition engagement_points (f : Features) : Z :=
  (question_points f + media_points f + sweet_spot_points f
   + formatting_points f)%Z.

Definition engagement_rows (f : Features) : list (string * Z) :=
  [ ("HAS_QUESTION"%string, question_points f);
    (media_boost_type f, media_points f);
    ("OPTIMAL_LENGTH"%string, sweet_spot_points f);
    ("GOOD_FORMATTING"%string, formatting_points f) ].

Definition fired2 (rows : list (string * Z)) : list (string * Z) :=
  filter (fun r => negb (Z.eqb (snd r) 0)) rows.

Definition boost_shown (b : Boost) : string * string := (b_type b, b_impact b).

Definition row2_shown (r : string * Z) : string * string :=
  (fst r, impact_plus (snd r)).

(** Two of the recommendations. *)
Definition looks_good : string :=
  "✅ Looks good! This tweet should perform well.".
Definition add_media : string :=
  "📸 Add an image or video for +20-30% engagement boost".

(** The conditions under which no recommendation but the last is made. *)
Definition nothing_to_recommend (f : Features) (safety_score : float) : bool :=
  (negb (PrimFloat.ltb safety_score 70)
   && negb (nonempty (suspicious_urls f))
   && negb (Nat.ltb (text_length f) SWEET_SPOT_MIN)
   && negb (PrimFloat.ltb MAX_CAPS_RATIO (caps_ratio f))
   && negb (Nat.ltb 3 (hashtag_count f))
   && negb (Nat.ltb 5 (newline_count f))
   && has_question f
   && has_media f)%bool.

(** The compiled toxic patterns, by position in [TOXIC_PATTERNS]. *)
Definition toxic_pattern (i : nat) : regex :=
  nth i toxic_regex (Re.compile true {| inline_i := false; body := Bound |}).



(** A text on which every check of the quality scorer that can fire
    together fires. *)
Definition noisy_text : string :=
  "#AB#AB#AB#AB#AB#AB" ++ str (repeat newline 11).

End Tally.

Module Grid.

Import Py EngagementAnalyzer Scores.

(** The overall score the result carries, for the sub-scores [5a], [5b],
    [5c]. *)
Definition carried (f : Features) (a b c : nat) : float :=
  round1 (_calculate_overall_score (fives a) (fives b) (fives c) f).

(** A line of the grid of sub-scores: the sub-score that moves, with the
    overall score it gives. *)
Definition line (g : nat -> float) (lo n : nat) : list (float * float) :=
  map (fun k => (fives k, g k)) (seq lo n).

(** Along a line, a sub-score that is no lower gives an overall score that
    is no lower. *)
Definition rising (l : list (float * float)) : bool :=
  forallb (fun p =>
    forallb (fun p' =>
      implb (PrimFloat.leb (fst p) (fst p'))
            (PrimFloat.leb (snd p) (snd p'))) l) l.

End Grid.

(* ================================================================= *)
(** ** [main], up to its call of [analyze] *)

(** The standard input is the list of the lines still to be read, each
    without its line break; [input()] takes the first, and raises
    [EOFError] when there is none ([None] below).  What [main] prints is
    left out: it has no effect on what it reads or passes on. *)
Module Cli.

Import Py EngagementAnalyzer.

(** [while True: ...] of the interactive mode, with the local [lines]:
    the lines read when the loop breaks and the input that is left. *)
Fixpoint read_lines (stdin : list string) (lines : list string)
  : option (list string * list string) :=
  match stdin with
  | [] => None
  | line :: stdin' =>
      if (String.eqb line "" && nonempty lines
          && String.eqb (last lines "") "")%bool
      then Some (removelast lines, stdin')
      else read_lines stdin' (push lines line)
  end.

(** [s.startswith(p)] *)
Definition startswith (p s : string) : bool := String.prefix p s.

(** [input(...).lower().startswith('y')] on the line read *)
Definition says_yes (line : string) : bool := startswith "y" (lower line).

(** The text to analyse: the arguments joined by spaces when there are
    any, else the lines of the interactive mode joined by line breaks. *)
Definition read_text (argv stdin : list string)
  : option (string * list string) :=
  if Nat.ltb 1 (List.length argv) then Some (join " " (tl argv), stdin)
  else match read_lines stdin [] with
       | Some (lines, stdin') => Some (join (String newline "") lines, stdin')
       | None => None
       end.

(** [media_type = input(...).lower()], replaced by ['image'] when it is
    not in [['image', 'video', 'gif']]. *)
Definition read_media_type (line : string) : string :=
  let media_type := lower line in
  if existsb (String.eqb media_type) ["image"; "video"; "gif"]
  then media_type else "image".

(** The arguments [main] passes to [analyze], with the input left for the
    question that follows the report. *)
Definition main_call (argv stdin : list string)
  : option (string * bool * option string * bool * list string) :=
  match read_text argv stdin with
  | None => None
  | Some (text, stdin) =>
      match stdin with
      | [] => None
      | answer :: stdin =>
          let has_media := says_yes answer in
          match (if has_media
                 then match stdin with
                      | [] => None
                      | line :: stdin => Some (Some (read_media_type line), stdin)
                      end
                 else Some (None, stdin)) with
          | None => None
          | Some (media_type, stdin) =>
              match stdin with
              | [] => None
              | answer :: stdin =>
                  Some (text, has_media, media_type, says_yes answer, stdin)
              end
          end
      end
  end.

(** No two consecutive empty lines. *)
Fixpoint no_blank_pair (l : list string) : bool :=
  match l with
  | a :: t =>
      match t with
      | b :: _ => (negb (String.eqb a "" && String.eqb b "") && no_blank_pair t)%bool
      | [] => true
      end
  | [] => true
  end.

End Cli.

(* ================================================================= *)
(** ** A text in lower case, and what is found in it *)

Module Folding.

Import Py Re.




End Folding.

(* ================================================================= *)
(** ** Penalties and the advice that answers them *)

Module Advice.

Import Py EngagementAnalyzer.

(** The recommendations that answer a penalty. *)
Definition url_advice : string :=
  "🔗 Replace shortened/suspicious URLs with direct links".
Definition length_advice : string :=
  "📝 Expand your tweet to " ++ str_of_nat OPTIMAL_LENGTH_MIN
  ++ "+ characters for better engagement".
Definition caps_advice : string :=
  "🔤 Reduce CAPITALIZATION - use sentence case instead".
Definition hashtag_advice (n : nat) : string :=
  "#️⃣ Reduce hashtags to 1-3 (currently " ++ str_of_nat n ++ ")".
Definition newline_advice : string := "📄 Reduce excessive line breaks".

(** [any(p['type'] == t for p in result.penalties)] *)
Definition has_type (t : string) (r : AnalysisResult) : bool :=
  existsb (fun p => String.eqb t (p_type p)) (penalties r).

(** [x in result.recommendations] *)
Definition advised (x : string) (r : AnalysisResult) : bool :=
  existsb (String.eqb x) (recommendations r).

End Advice.

(* ================================================================= *)
(** * Properties of the analyzer *)

Import Py Re EngagementAnalyzer Runtimes Scores Verdict.
Open Scope string_scope.

(** ** The result monad *)

Lemma bind_ok {A B : Type} (m : result A) (k : A -> result B) (b : B) :
  bind m k = Ok b -> exists a, m = Ok a /\ k a = Ok b.
Proof.
  destruct m as [a | e]; simpl; intros H.
  - exists a; split; [reflexivity | exact H].
  - discriminate H.
Qed.

(** ** Enumerating the sub-scores *)

Lemma all_fives_spec (P : float -> float -> float -> bool) :
  all_fives P = true ->
  forall a b c : nat,
    (a <= 20)%nat -> (b <= 20)%nat -> (c <= 20)%nat ->
    P (fives a) (fives b) (fives c) = true.
Proof.
  unfold all_fives, steps. intros H a b c Ha Hb Hc.
  rewrite forallb_forall in H.
  specialize (H a). rewrite in_seq in H.
  assert (Ha' : (0 <= a < 0 + 21)%nat) by lia.
  specialize (H Ha'). rewrite forallb_forall in H.
  specialize (H b). rewrite in_seq in H.
  assert (Hb' : (0 <= b < 0 + 21)%nat) by lia.
  specialize (H Hb'). rewrite forallb_forall in H.
  apply H. rewrite in_seq. lia.
Qed.

(** ** The matcher: no pattern of the program matches the empty string *)

Lemma match_lit_length (ic : bool) (l : string) (p p' : pos) :
  match_lit ic l p = Some p' ->
  (List.length (snd p') + String.length l = List.length (snd p))%nat.
Proof.
  revert p. induction l as [| a l IH]; intros [prev s]; simpl.
  - intros H. injection H as <-. simpl. lia.
  - destruct s as [| c s']; [discriminate |].
    destruct (char_matches ic a c); [| discriminate].
    intros H. apply IH in H. simpl in H |- *. lia.
Qed.

Lemma star_consumes (R : Type) (k : cls) (prev : option ascii) (s : list ascii)
      (cont : pos -> option R) (x : R) :
  star R k prev s cont = Some x ->
  exists p', cont p' = Some x /\ (List.length (snd p') <= List.length s)%nat.
Proof.
  revert prev. induction s as [| c s' IH]; intros prev; simpl.
  - intros H. exists (prev, []). split; [exact H | simpl; lia].
  - destruct (in_cls k c).
    + destruct (star R k (Some c) s' cont) as [y |] eqn:E.
      * intros H. injection H as <-.
        destruct (IH _ E) as (p' & Hp & Hl). exists p'. split; [exact Hp | lia].
      * intros H. exists (prev, c :: s'). split; [exact H | simpl; lia].
    + intros H. exists (prev, c :: s'). split; [exact H | simpl; lia].
Qed.

(** A successful run hands its continuation a position at least [min_len]
    characters further on. *)
Lemma run_consumes (R : Type) (ic : bool) (r : re) :
  forall (p : pos) (g : caps) (cont : pos -> caps -> option R) (x : R),
    run R ic r p g cont = Some x ->
    exists p' g',
      cont p' g' = Some x
      /\ (List.length (snd p') + min_len r <= List.length (snd p))%nat.
Proof.
  induction r as [l | r1 IH1 r2 IH2 | r1 IH1 r2 IH2 | r1 IH1 | k | k | | i r1 IH1];
    intros p g cont x; simpl.
  - destruct (match_lit ic l p) as [p' |] eqn:E; [| discriminate].
    intros H. exists p', g. split; [exact H |].
    apply match_lit_length in E. lia.
  - intros H. apply IH1 in H. destruct H as (p1 & g1 & H & L1).
    apply IH2 in H. destruct H as (p2 & g2 & H & L2).
    exists p2, g2. split; [exact H | lia].
  - destruct (run R ic r1 p g cont) as [y |] eqn:E.
    + intros H. injection H as <-. apply IH1 in E.
      destruct E as (p' & g' & H & L). exists p', g'. split; [exact H | lia].
    + intros H. apply IH2 in H.
      destruct H as (p' & g' & H & L). exists p', g'. split; [exact H | lia].
  - destruct (run R ic r1 p g cont) as [y |] eqn:E.
    + intros H. injection H as <-. apply IH1 in E.
      destruct E as (p' & g' & H & L). exists p', g'. split; [exact H | lia].
    + intros H. exists p, g. split; [exact H | lia].
  - destruct p as [prev [| c s']]; simpl; [discriminate |].
    destruct (in_cls k c); [| discriminate].
    intros H. apply star_consumes in H. destruct H as (p' & H & L).
    exists p', g. split; [exact H | simpl; lia].
  - intros H. apply star_consumes in H. destruct H as (p' & H & L).
    exists p', g. split; [exact H | lia].
  - destruct (at_boundary p); [| discriminate].
    intros H. exists p, g. split; [exact H | lia].
  - intros H. apply IH1 in H. destruct H as (p' & g' & H & L).
    exists p', ((i, consumed p p') :: g'). split; [exact H | exact L].
Qed.

Lemma match_at_consumes (rx : regex) (p p' : pos) (g : caps) :
  match_at rx p = Some (p', g) ->
  (List.length (snd p') + min_len (prog rx) <= List.length (snd p))%nat.
Proof.
  unfold match_at. intros H. apply run_consumes in H.
  destruct H as (q & g' & H & L). injection H as <- _. exact L.
Qed.

(** Every pattern the program compiles spans at least one character, so
    [findall] never meets an empty match. *)
Lemma program_patterns_span_a_character :
  Forall (fun rx => (1 <= min_len (prog rx))%nat)
         (toxic_regex ++ spam_regex ++ nsfw_regex
          ++ map (compile false) [url_pattern; mention_pattern; hashtag_pattern]).
Proof.
  cbv [toxic_regex spam_regex nsfw_regex TOXIC_PATTERNS SPAM_PATTERNS
       NSFW_PATTERNS map app].
  repeat (apply Forall_cons; [vm_compute; lia |]). apply Forall_nil.
Qed.

(** ** The feature extractor *)

(** [_extract_features] returns, whatever the text: the division is guarded. *)
Lemma extract_features_total (rt : PyRuntime) (text : string) (hm : bool)
      (mt : option string) (ir : bool) :
  exists f, _extract_features rt text hm mt ir = Ok f.
Proof.
  unfold _extract_features.
  destruct (count_if (fun c => negb (isspace c)) text) as [| n] eqn:E; simpl.
  - eexists; reflexivity.
  - eexists; reflexivity.
Qed.

(** What each entry of the returned dict holds. *)
Lemma extract_features_inv (rt : PyRuntime) (text : string) (hm : bool)
      (mt : option string) (ir : bool) (f : Features) :
  _extract_features rt text hm mt ir = Ok f ->
  text_length f = len text
  /\ char_count f = count_if (fun c => negb (isspace c)) text
  /\ upper_count f = count_if isupper text
  /\ (if Nat.ltb 0 (char_count f)
      then truediv (upper_count f) (char_count f)
      else Ok 0%float) = Ok (caps_ratio f)
  /\ newline_count f = count_char newline text
  /\ has_question f = has_char "?" text
  /\ urls f = findall_text url_pattern text
  /\ suspicious_urls f = filter (is_suspicious rt) (urls f)
  /\ mentions f = findall_text mention_pattern text
  /\ mention_count f = List.length (mentions f)
  /\ hashtags f = findall_text hashtag_pattern text
  /\ hashtag_count f = List.length (hashtags f)
  /\ has_media f = hm
  /\ media_type f = mt
  /\ is_reply f = ir.
Proof.
  unfold _extract_features. intros H.
  apply bind_ok in H. destruct H as [cr [Hcr H]].
  injection H as <-. simpl.
  repeat split; try reflexivity. exact Hcr.
Qed.

(** ** The sub-scores are multiples of five between 0 and 100 *)

Lemma toxic_penalty_cases (n : nat) :
  n <> 0%nat -> In (Z.min (Z.of_nat n * 15) 60) [15; 30; 45; 60]%Z.
Proof.
  intros Hn. simpl.
  destruct n as [| [| [| [| n]]]]; [congruence | | | | ].
  - left; reflexivity.
  - right; left; reflexivity.
  - right; right; left; reflexivity.
  - right; right; right; left. lia.
Qed.

Lemma spam_penalty_cases (n : nat) :
  n <> 0%nat -> In (Z.min (Z.of_nat n * 20) 70) [20; 40; 60; 70]%Z.
Proof.
  intros Hn. simpl.
  destruct n as [| [| [| [| n]]]]; [congruence | | | | ].
  - left; reflexivity.
  - right; left; reflexivity.
  - right; right; left; reflexivity.
  - right; right; right; left. lia.
Qed.

Lemma nonempty_length {A : Type} (l : list A) :
  nonempty l = true -> List.length l <> 0%nat.
Proof. destruct l; simpl; [discriminate | intros _; discriminate]. Qed.

Lemma check_toxicity_score rt text sc w ps sc' w' ps' :
  check_toxicity rt text (sc, w, ps) = Ok (sc', w', ps') ->
  stepped [15; 30; 45; 60]%Z sc sc'.
Proof.
  unfold check_toxicity, stepped.
  destruct (nonempty (all_matches toxic_regex text)) eqn:E.
  - intros H. apply bind_ok in H. destruct H as [d [_ H]].
    injection H as <- _ _. right.
    eexists; split; [| reflexivity].
    apply toxic_penalty_cases, nonempty_length, E.
  - intros H. injection H as <- _ _. left; reflexivity.
Qed.

Lemma check_spam_score rt text sc w ps sc' w' ps' :
  check_spam rt text (sc, w, ps) = Ok (sc', w', ps') ->
  stepped [20; 40; 60; 70]%Z sc sc'.
Proof.
  unfold check_spam, stepped.
  destruct (nonempty (all_matches spam_regex text)) eqn:E.
  - intros H. injection H as <- _ _. right.
    eexists; split; [| reflexivity].
    apply spam_penalty_cases, nonempty_length, E.
  - intros H. injection H as <- _ _. left; reflexivity.
Qed.

Lemma check_nsfw_score rt text sc w ps sc' w' ps' :
  check_nsfw rt text (sc, w, ps) = Ok (sc', w', ps') ->
  stepped [50]%Z sc sc'.
Proof.
  unfold check_nsfw, stepped.
  destruct (nonempty (all_matches nsfw_regex text)) eqn:E.
  - intros H. apply bind_ok in H. destruct H as [d [_ H]].
    injection H as <- _ _. right.
    eexists; split; [left; reflexivity | reflexivity].
  - intros H. injection H as <- _ _. left; reflexivity.
Qed.

Lemma check_urls_score f sc w ps :
  stepped [40]%Z sc (fst (fst (check_urls f (sc, w, ps)))).
Proof.
  unfold check_urls, stepped.
  destruct (nonempty (suspicious_urls f)); simpl.
  - right. eexists; split; [left; reflexivity | reflexivity].
  - left; reflexivity.
Qed.

(** The four checks of the safety scorer, one after the other. *)
Lemma analyze_safety_inv rt text f s w ps :
  _analyze_safety rt text f = Ok (s, w, ps) ->
  exists a1 a2 a3,
    check_toxicity rt text (100%float, [], []) = Ok a1
    /\ check_spam rt text a1 = Ok a2
    /\ check_nsfw rt text a2 = Ok a3
    /\ s = max0 (fst (fst (check_urls f a3)))
    /\ w = snd (fst (check_urls f a3))
    /\ ps = snd (check_urls f a3).
Proof.
  unfold _analyze_safety. intros H.
  apply bind_ok in H. destruct H as [a1 [H1 H]].
  apply bind_ok in H. destruct H as [a2 [H2 H]].
  apply bind_ok in H. destruct H as [a3 [H3 H]].
  exists a1, a2, a3.
  destruct (check_urls f a3) as [[sc ws] pn].
  injection H as <- <- <-. simpl. repeat split; assumption.
Qed.

Lemma safety_score_fives rt text f s w ps :
  _analyze_safety rt text f = Ok (s, w, ps) ->
  exists k : nat, (k <= 20)%nat /\ s = fives k.
Proof.
  intros H. apply analyze_safety_inv in H.
  destruct H as [[[s1 w1] p1] [[[s2 w2] p2] [[[s3 w3] p3] (H1 & H2 & H3 & Hs & _ & _)]]].
  apply check_toxicity_score in H1.
  apply check_spam_score in H2.
  apply check_nsfw_score in H3.
  pose proof (check_urls_score f s3 w3 p3) as H4.
  set (s4 := fst (fst (check_urls f (s3, w3, p3)))) in *. clearbody s4.
  split_steps; subst; solve_fives.
Qed.

Lemma quality_score_fives f :
  exists k : nat, (k <= 20)%nat /\ fst (fst (_analyze_quality f)) = fives k.
Proof.
  unfold _analyze_quality, check_length, check_caps, check_newlines, check_hashtags.
  cbv zeta.
  destruct (Nat.ltb (text_length f) 10);
    [| destruct (Nat.ltb (text_length f) OPTIMAL_LENGTH_MIN)];
    (destruct (PrimFloat.ltb 0.5 (caps_ratio f));
     [| destruct (PrimFloat.ltb MAX_CAPS_RATIO (caps_ratio f))]);
    destruct (Nat.ltb 10 (newline_count f));
    destruct (Nat.ltb 5 (hashtag_count f));
    cbn [fst snd]; solve_fives.
Qed.

Lemma engagement_score_fives f :
  exists k : nat, (k <= 20)%nat /\ fst (_analyze_engagement_potential f) = fives k.
Proof.
  unfold _analyze_engagement_potential, boost_question, boost_media,
    boost_length, boost_formatting.
  cbv zeta.
  destruct (has_question f);
    (destruct (has_media f);
     [ destruct (media_is f "video");
       [| destruct (media_is f "gif"); [| destruct (media_is f "image")]] |]);
    destruct (Nat.leb SWEET_SPOT_MIN (text_length f) && Nat.leb (text_length f) SWEET_SPOT_MAX)%bool;
    destruct (PrimFloat.leb (caps_ratio f) RECOMMENDED_CAPS_RATIO);
    cbn [fst snd]; solve_fives.
Qed.

(** ** The entry point *)

Lemma analyze_inv rt text hm mt ir r :
  analyze rt text hm mt ir = Ok r ->
  exists f s w ps,
    _extract_features rt text hm mt ir = Ok f
    /\ _analyze_safety rt text f = Ok (s, w, ps)
    /\ r = assemble f s w ps.
Proof.
  unfold analyze, assemble. intros H.
  apply bind_ok in H. destruct H as [f [Hf H]].
  apply bind_ok in H. destruct H as [[[s w] ps] [Hs H]].
  exists f, s, w, ps. split; [exact Hf |]. split; [exact Hs |].
  destruct (_analyze_quality f) as [[q qw] qp].
  destruct (_analyze_engagement_potential f) as [e eb].
  injection H as <-. reflexivity.
Qed.

Lemma analyze_intro rt text hm mt ir f s w ps :
  _extract_features rt text hm mt ir = Ok f ->
  _analyze_safety rt text f = Ok (s, w, ps) ->
  analyze rt text hm mt ir = Ok (assemble f s w ps).
Proof.
  unfold analyze, assemble. intros -> . simpl. intros ->. simpl.
  destruct (_analyze_quality f) as [[q qw] qp].
  destruct (_analyze_engagement_potential f) as [e eb].
  reflexivity.
Qed.

(** Rounding to one decimal leaves each of the 21 values as it is. *)
Lemma round1_fives (k : nat) : (k <= 20)%nat -> round1 (fives k) = fives k.
Proof.
  intros Hk.
  do 21 (destruct k as [| k]; [vm_compute; reflexivity |]).
  lia.
Qed.

(** The three sub-scores of a returned result are among the 21 values. *)
Lemma analyze_scores rt text hm mt ir r :
  analyze rt text hm mt ir = Ok r ->
  exists (f : Features) (ps : list Penalty) (a b c : nat),
    (a <= 20)%nat /\ (b <= 20)%nat /\ (c <= 20)%nat
    /\ _extract_features rt text hm mt ir = Ok f
    /\ (exists w, _analyze_safety rt text f = Ok (fives a, w, ps))
    /\ fst (fst (_analyze_quality f)) = fives b
    /\ fst (_analyze_engagement_potential f) = fives c
    /\ overall_score r = round1 (_calculate_overall_score (fives a) (fives b) (fives c) f)
    /\ risk_level r =
       _determine_risk_level
         (_calculate_overall_score (fives a) (fives b) (fives c) f) (fives a) ps
    /\ safety_score r = fives a
    /\ quality_score r = fives b
    /\ engagement_potential r = fives c.
Proof.
  intros H. apply analyze_inv in H.
  destruct H as (f & s & w & ps & Hf & Hs & ->).
  destruct (safety_score_fives _ _ _ _ _ _ Hs) as (a & Ha & ->).
  destruct (quality_score_fives f) as (b & Hb & Eb).
  destruct (engagement_score_fives f) as (c & Hc & Ec).
  exists f, ps, a, b, c. unfold assemble. simpl. rewrite Eb, Ec.
  rewrite !round1_fives by assumption.
  repeat split; try assumption. exists w; exact Hs.
Qed.

(** ** C1: which inputs make [analyze] raise *)

Lemma forallb_firstn {A : Type} (p : A -> bool) (n : nat) (l : list A) :
  forallb p l = true -> forallb p (firstn n l) = true.
Proof.
  revert l. induction n as [| n IH]; intros [| x l]; simpl; try reflexivity.
  intros H. apply andb_true_iff in H. destruct H as [Hx Hl].
  rewrite Hx. simpl. exact (IH l Hl).
Qed.

(** A pattern with one group finds strings, never tuples. *)
Lemma findall_one_group (rx : regex) (text : string) :
  ngroups rx = 1%nat -> forallb is_str (findall rx text) = true.
Proof.
  intros Hn. unfold findall. rewrite Hn.
  induction (scan rx None (chars text) 0) as [| m l IH]; simpl.
  - reflexivity.
  - exact IH.
Qed.

Lemma nsfw_matches_are_strings (text : string) :
  forallb is_str (all_matches nsfw_regex text) = true.
Proof.
  unfold all_matches, nsfw_regex. simpl.
  rewrite !forallb_app. simpl.
  rewrite !findall_one_group by reflexivity. reflexivity.
Qed.

Lemma str_items_strings (l : list found) :
  forallb is_str l = true -> exists ss, str_items l = Ok ss.
Proof.
  induction l as [| m l IH]; simpl; intros H.
  - eexists; reflexivity.
  - destruct m as [s | g gs]; simpl in H; [| discriminate H].
    destruct (IH H) as [ss ->]. simpl. eexists; reflexivity.
Qed.

Lemma str_items_tuple (l : list found) :
  forallb is_str l = false -> str_items l = Raise TypeError.
Proof.
  induction l as [| m l IH]; simpl; intros H.
  - discriminate H.
  - destruct m as [s | g gs]; simpl in H; [| reflexivity].
    rewrite (IH H). reflexivity.
Qed.

(** The spam and NSFW checks and the URL check never raise. *)
Lemma check_spam_total rt text a : exists a', check_spam rt text a = Ok a'.
Proof.
  unfold check_spam. destruct a as [[sc w] ps].
  destruct (nonempty (all_matches spam_regex text)); eexists; reflexivity.
Qed.

Lemma check_nsfw_total rt text a : exists a', check_nsfw rt text a = Ok a'.
Proof.
  unfold check_nsfw, join_set. destruct a as [[sc w] ps].
  destruct (nonempty (all_matches nsfw_regex text)); [| eexists; reflexivity].
  destruct (str_items_strings (slice_to 3 (all_matches nsfw_regex text)))
    as [ss Hss].
  { apply forallb_firstn, nsfw_matches_are_strings. }
  rewrite Hss. simpl. eexists; reflexivity.
Qed.

Lemma check_toxicity_strings rt text a :
  forallb is_str (slice_to 3 (all_matches toxic_regex text)) = true ->
  exists a', check_toxicity rt text a = Ok a'.
Proof.
  intros E. unfold check_toxicity, join_set. destruct a as [[sc w] ps].
  destruct (nonempty (all_matches toxic_regex text)); [| eexists; reflexivity].
  destruct (str_items_strings _ E) as [ss ->]. simpl. eexists; reflexivity.
Qed.

Lemma check_toxicity_tuple rt text a :
  forallb is_str (slice_to 3 (all_matches toxic_regex text)) = false ->
  check_toxicity rt text a = Raise TypeError.
Proof.
  intros E. unfold check_toxicity, join_set. destruct a as [[sc w] ps].
  destruct (nonempty (all_matches toxic_regex text)) eqn:N.
  - rewrite (str_items_tuple _ E). reflexivity.
  - destruct (all_matches toxic_regex text); [discriminate E | discriminate N].
Qed.

(** The only exception: [str.join] meeting a tuple among the first three
    toxic matches, which the second and third toxic patterns (two groups
    each) produce.  On every other input [analyze] returns a result. *)
Lemma analyze_outcome rt text hm mt ir :
  if forallb is_str (slice_to 3 (all_matches toxic_regex text))
  then exists r, analyze rt text hm mt ir = Ok r
  else analyze rt text hm mt ir = Raise TypeError.
Proof.
  destruct (extract_features_total rt text hm mt ir) as [f Hf].
  destruct (forallb is_str (slice_to 3 (all_matches toxic_regex text))) eqn:E.
  - destruct (check_toxicity_strings rt text (100%float, [], []) E) as [a1 H1].
    destruct (check_spam_total rt text a1) as [a2 H2].
    destruct (check_nsfw_total rt text a2) as [a3 H3].
    unfold analyze. rewrite Hf. cbn [bind].
    unfold _analyze_safety. rewrite H1. cbn [bind].
    rewrite H2. cbn [bind]. rewrite H3. cbn [bind].
    destruct (check_urls f a3) as [[sc w] ps]. cbn [bind].
    destruct (_analyze_quality f) as [[q qw] qp].
    destruct (_analyze_engagement_potential f) as [e eb].
    eexists; reflexivity.
  - unfold analyze. rewrite Hf. cbn [bind].
    unfold _analyze_safety.
    rewrite (check_toxicity_tuple rt text _ E). reflexivity.
Qed.

(** A URL whose parsing raises is classified as suspicious. *)
Lemma parse_failure_is_suspicious rt text hm mt ir f url e :
  _extract_features rt text hm mt ir = Ok f ->
  In url (urls f) ->
  UrlParse.netloc (bracketed_ok rt) url = Raise e ->
  In url (suspicious_urls f).
Proof.
  intros Hf Hin Hr. apply extract_features_inv in Hf.
  destruct Hf as (_ & _ & _ & _ & _ & _ & _ & Hs & _).
  rewrite Hs. apply filter_In. split; [exact Hin |].
  unfold is_suspicious. rewrite Hr. reflexivity.
Qed.

(** C1 fails on the code.  The text [kill you] matches the second toxic
    pattern, whose two groups make [findall] return a tuple; building the
    details string of the toxicity penalty then raises [TypeError], which
    leaves [analyze], under every interpreter. *)
Theorem analyze_raises_on_kill_you (rt : PyRuntime) :
  all_matches toxic_regex "kill you" = [MTuple "kill" ["you"]]
  /\ analyze rt "kill you" false None false = Raise TypeError.
Proof.
  split; [vm_compute; reflexivity |].
  exact (analyze_outcome rt "kill you" false None false).
Qed.

(** ** C2: the overall score when safety fails *)

Lemma half_fives_rounds_to_itself (k : nat) :
  (k <= 20)%nat ->
  PrimFloat.ltb (fives k) 50 = true ->
  round1 (PrimFloat.mul (fives k) 0.5) = PrimFloat.mul (fives k) 0.5.
Proof.
  intros Hk H.
  do 10 (destruct k as [| k]; [vm_compute; reflexivity |]).
  do 11 (destruct k as [| k]; [vm_compute in H; discriminate H |]).
  lia.
Qed.

(** C2, as amended.  For every input on which the safety sub-score is below
    50, the overall score of the returned result equals the safety score
    times 0.5, exactly: the 0.85 adjustment is not applied on this branch,
    and the one-decimal rounding leaves the value as it is. *)
Theorem overall_is_half_safety_below_50 rt text hm mt ir r :
  analyze rt text hm mt ir = Ok r ->
  PrimFloat.ltb (safety_score r) 50 = true ->
  overall_score r = PrimFloat.mul (safety_score r) 0.5.
Proof.
  intros H Hlt. apply analyze_scores in H.
  destruct H as (f & ps & a & b & c & Ha & Hb & Hc & _ & _ & _ & _
                 & -> & _ & Hs & _ & _).
  rewrite Hs in *.
  unfold _calculate_overall_score. rewrite Hlt.
  apply half_fives_rounds_to_itself; assumption.
Qed.

Lemma overall_is_half_safety_below_50_witness :
  match analyze rt_fwd "stupid http://bit.ly/x" false None false with
  | Ok r =>
      PrimFloat.ltb (safety_score r) 50 = true
      /\ overall_score r = PrimFloat.mul (safety_score r) 0.5
  | Raise _ => False
  end.
Proof.
  destruct (analyze rt_fwd "stupid http://bit.ly/x" false None false)
    as [r | e] eqn:E.
  - assert (Hs : PrimFloat.ltb (safety_score r) 50 = true).
    { vm_compute in E. injection E as <-. vm_compute. reflexivity. }
    split; [exact Hs |].
    exact (overall_is_half_safety_below_50 rt_fwd _ false None false r E Hs).
  - vm_compute in E. discriminate E.
Defined.

(** C2, as stated, fails: one toxic word and one short link leave a safety
    score of 45, and the overall score returned is 22.5, not the 19.1 that
    45 x 0.5 x 0.85 rounds to. *)
Lemma overall_below_50_not_times_085 :
  exists r,
    analyze rt_fwd "stupid http://bit.ly/x" false None false = Ok r
    /\ safety_score r = 45%float
    /\ PrimFloat.ltb (safety_score r) 50 = true
    /\ overall_score r = 22.5%float
    /\ round1 (PrimFloat.mul (PrimFloat.mul (safety_score r) 0.5) 0.85)
       = PrimFloat.div 191 10
    /\ overall_score r
       <> round1 (PrimFloat.mul (PrimFloat.mul (safety_score r) 0.5) 0.85).
Proof.
  eexists. split; [vm_compute; reflexivity |]. cbn [safety_score overall_score].
  repeat split; try (vm_compute; reflexivity).
  intros H. apply (f_equal (fun x => PrimFloat.ltb x 20)) in H.
  vm_compute in H. discriminate H.
Qed.

(** ** C3: the scores are bounded *)

(** C3.  For every input on which [analyze] returns a result, the safety,
    quality and engagement sub-scores and the overall score of that result
    all lie in the closed interval from 0 to 100. *)
Theorem scores_within_0_100 rt text hm mt ir r :
  analyze rt text hm mt ir = Ok r ->
  in_range (safety_score r) = true
  /\ in_range (quality_score r) = true
  /\ in_range (engagement_potential r) = true
  /\ in_range (overall_score r) = true.
Proof.
  intros H. apply analyze_scores in H.
  destruct H as (f & ps & a & b & c & Ha & Hb & Hc & _ & _ & _ & _
                 & -> & _ & -> & -> & ->).
  assert (HP : all_fives (fun s q e =>
                in_range s && in_range q && in_range e
                && in_range (round1 (_calculate_overall_score s q e f)))%bool = true)
    by (vm_compute; reflexivity).
  pose proof (all_fives_spec _ HP a b c Ha Hb Hc) as H. cbv beta in H.
  repeat rewrite andb_true_iff in H. tauto.
Qed.

Lemma scores_within_0_100_witness :
  match analyze rt_fwd "ok" false None false with
  | Ok r =>
      in_range (safety_score r) = true
      /\ in_range (quality_score r) = true
      /\ in_range (engagement_potential r) = true
      /\ in_range (overall_score r) = true
  | Raise _ => False
  end.
Proof.
  destruct (analyze rt_fwd "ok" false None false) as [r | e] eqn:E.
  - exact (scores_within_0_100 rt_fwd "ok" false None false r E).
  - vm_compute in E. discriminate E.
Defined.

(** ** C4: the risk level *)

Lemma level_eqb_eq (a b : level) : level_eqb a b = true -> a = b.
Proof. destruct a, b; simpl; intros H; (reflexivity || discriminate H). Qed.

Lemma critical_present (ps : list Penalty) :
  (exists p, In p ps /\ p_severity p = CRITICAL) ->
  nonempty (filter is_critical ps) = true.
Proof.
  intros (p & Hin & Hp).
  assert (Hf : In p (filter is_critical ps)).
  { apply filter_In. split; [exact Hin |]. unfold is_critical. rewrite Hp. reflexivity. }
  destruct (filter is_critical ps); [contradiction Hf | reflexivity].
Qed.

Lemma critical_absent (ps : list Penalty) :
  (forall p, In p ps -> p_severity p <> CRITICAL) ->
  nonempty (filter is_critical ps) = false.
Proof.
  intros H.
  destruct (filter is_critical ps) as [| p l] eqn:E; [reflexivity |].
  assert (Hf : In p (filter is_critical ps)) by (rewrite E; left; reflexivity).
  apply filter_In in Hf. destruct Hf as [Hin Hc].
  exfalso. apply (H p Hin). apply level_eqb_eq. exact Hc.
Qed.

(** C4.  For every input on which [analyze] returns a result: if the safety
    scorer emitted a penalty of severity CRITICAL, the risk level of the
    result is CRITICAL whatever the overall score; otherwise it is HIGH
    when the overall score is below 40, MEDIUM when it is below 60 and LOW
    otherwise -- both for the score as computed and for the rounded score
    the result carries. *)
Theorem risk_level_rule rt text hm mt ir r :
  analyze rt text hm mt ir = Ok r ->
  exists f s w ps,
    _extract_features rt text hm mt ir = Ok f
    /\ _analyze_safety rt text f = Ok (s, w, ps)
    /\ ((exists p, In p ps /\ p_severity p = CRITICAL) ->
        risk_level r = CRITICAL)
    /\ ((forall p, In p ps -> p_severity p <> CRITICAL) ->
        risk_level r = by_thresholds (overall_score r)
        /\ risk_level r =
           by_thresholds
             (_calculate_overall_score s (fst (fst (_analyze_quality f)))
                                       (fst (_analyze_engagement_potential f)) f)).
Proof.
  intros H. apply analyze_scores in H.
  destruct H as (f & ps & a & b & c & Ha & Hb & Hc & Hf & (w & Hs) & Hq & He
                 & Ho & Hr & _ & _ & _).
  exists f, (fives a), w, ps.
  split; [exact Hf |]. split; [exact Hs |].
  rewrite Hr, Ho, Hq, He. unfold _determine_risk_level.
  split.
  - intros Hc'. rewrite (critical_present _ Hc'). reflexivity.
  - intros Hn. rewrite (critical_absent _ Hn).
    fold (by_thresholds (_calculate_overall_score (fives a) (fives b) (fives c) f)).
    split; [| reflexivity].
    assert (HP : all_fives (fun s q e =>
              level_eqb (by_thresholds (_calculate_overall_score s q e f))
                        (by_thresholds (round1 (_calculate_overall_score s q e f))))
            = true)
      by (vm_compute; reflexivity).
    exact (level_eqb_eq _ _ (all_fives_spec _ HP a b c Ha Hb Hc)).
Qed.

Lemma risk_level_rule_witness :
  match analyze rt_fwd "ok" false None false with
  | Ok r => risk_level r = by_thresholds (overall_score r) /\ risk_level r = LOW
  | Raise _ => False
  end
  /\ match analyze rt_fwd "nsfw" false None false with
     | Ok r => risk_level r = CRITICAL
               /\ by_thresholds (overall_score r) = MEDIUM
     | Raise _ => False
     end.
Proof.
  split.
  - destruct (analyze rt_fwd "ok" false None false) as [r | e] eqn:E.
    + destruct (risk_level_rule rt_fwd "ok" false None false r E)
        as (f & s & w & ps & Hf & Hs & _ & Hn).
      vm_compute in Hf. injection Hf as <-.
      vm_compute in Hs. injection Hs as <- <- <-.
      split.
      * apply Hn. intros p [].
      * vm_compute in E. injection E as <-. reflexivity.
    + vm_compute in E. discriminate E.
  - destruct (analyze rt_fwd "nsfw" false None false) as [r | e] eqn:E.
    + destruct (risk_level_rule rt_fwd "nsfw" false None false r E)
        as (f & s & w & ps & Hf & Hs & Hc & _).
      vm_compute in Hf. injection Hf as <-.
      vm_compute in Hs. injection Hs as <- <- <-.
      split.
      * apply Hc. eexists. split; [left; reflexivity | reflexivity].
      * vm_compute in E. injection E as <-. vm_compute. reflexivity.
    + vm_compute in E. discriminate E.
Defined.

(** ** C5: the text [ok] *)

(** C5, as amended.  For the text [ok] without media and not a reply, under
    every interpreter: the quality scorer fires the TOO_SHORT penalty of 30
    (and nothing else), so quality is 70; the engagement score is the
    baseline 50 plus the GOOD_FORMATTING boost of 5, which fires because
    the caps ratio 0 is at most 0.1, and that boost is the whole boost
    list; the overall score is 65.9 and the risk level is LOW. *)
Theorem ok_scenario (rt : PyRuntime) :
  exists r,
    analyze rt "ok" false None false = Ok r
    /\ penalties r =
       [{| p_type := "TOO_SHORT";
           p_severity := MEDIUM;
           p_impact := "-30%";
           p_description := "Tweet too short (2 chars)";
           p_details := "Very short tweets get less engagement" |}]
    /\ safety_score r = 100%float
    /\ quality_score r = 70%float
    /\ engagement_potential r = 55%float
    /\ boosts r =
       [{| b_type := "GOOD_FORMATTING";
           b_impact := "+5%";
           b_description := "Clean formatting";
           b_details := "Appropriate capitalization" |}]
    /\ overall_score r = PrimFloat.div 659 10
    /\ risk_level r = LOW.
Proof.
  eexists. split; [vm_compute; reflexivity |].
  repeat split; vm_compute; reflexivity.
Qed.

(** C5, as stated, fails: on [ok] the engagement score is not the bare
    baseline, the boost list is not empty, and the risk level is LOW. *)
Lemma ok_scenario_not_as_stated :
  exists r,
    analyze rt_fwd "ok" false None false = Ok r
    /\ engagement_potential r <> 50%float
    /\ boosts r <> []
    /\ risk_level r = LOW
    /\ ~ (risk_level r = HIGH \/ risk_level r = MEDIUM).
Proof.
  eexists. split; [vm_compute; reflexivity |].
  cbn [engagement_potential boosts risk_level].
  split; [| split; [| split]].
  - intros H. apply (f_equal (fun x => PrimFloat.ltb x 52)) in H.
    vm_compute in H. discriminate H.
  - discriminate.
  - reflexivity.
  - intros [H | H]; discriminate H.
Qed.

(** ** C6: short links *)

(** C6 fails on the code.  In the repository's example the short link
    [bit.ly/123abc] is written without a scheme, and the URL pattern only
    finds [http://] and [https://] URLs: nothing is extracted, nothing is
    suspicious, the safety scorer emits neither the UNTRUSTED_URL penalty
    nor its warning (the only penalty is for the two spam phrases). *)
Theorem bare_short_link_is_not_flagged (rt : PyRuntime) :
  exists r,
    analyze rt example_11 false None false = Ok r
    /\ urls (feature_breakdown r) = []
    /\ suspicious_urls (feature_breakdown r) = []
    /\ map p_type (penalties r) = ["HIGH_SPAMMY_CONTENT"]
    /\ warnings r = [spam_warning]
    /\ safety_score r = 60%float.
Proof.
  eexists. split; [vm_compute; reflexivity |].
  repeat split; vm_compute; reflexivity.
Qed.

(** With its scheme the same link is found and flagged, and the safety
    scorer, when it returns, has applied the penalty of exactly 40 with
    severity HIGH and emitted the warning. *)
Lemma short_link_with_scheme_is_flagged rt text hm mt ir f url :
  _extract_features rt text hm mt ir = Ok f ->
  In url ["http://bit.ly/123abc"; "https://bit.ly/123abc"] ->
  In url (urls f) ->
  In url (suspicious_urls f)
  /\ forall s w ps,
      _analyze_safety rt text f = Ok (s, w, ps) ->
      (exists before, s = max0 (PrimFloat.sub before 40))
      /\ (exists p, In p ps /\ p_type p = "UNTRUSTED_URL"
                    /\ p_severity p = HIGH /\ p_impact p = "-40%")
      /\ In url_warning w.
Proof.
  intros Hf Hu Hin.
  assert (Hsusp : is_suspicious rt url = true).
  { destruct Hu as [<- | [<- | []]]; reflexivity. }
  assert (Hs : In url (suspicious_urls f)).
  { apply extract_features_inv in Hf.
    destruct Hf as (_ & _ & _ & _ & _ & _ & _ & Hs & _).
    rewrite Hs. apply filter_In. split; assumption. }
  split; [exact Hs |].
  intros s w ps Ha. apply analyze_safety_inv in Ha.
  destruct Ha as (a1 & a2 & [[s3 w3] p3] & _ & _ & _ & -> & -> & ->).
  unfold check_urls.
  destruct (suspicious_urls f) as [| u l]; [contradiction Hs |].
  cbn [nonempty fst snd]. unfold push.
  split; [exists s3; reflexivity |]. split.
  - eexists. split; [apply in_or_app; right; left; reflexivity |].
    repeat split; reflexivity.
  - apply in_or_app; right; left; reflexivity.
Qed.

(** ** Two processes differ in the details strings only *)

Lemma acc_sim_push (s : float) (w : list string) (ps qs : list Penalty)
      (x : string) (p q : Penalty) :
  map strip_details ps = map strip_details qs ->
  strip_details p = strip_details q ->
  acc_sim (s, push w x, push ps p) (s, push w x, push qs q).
Proof.
  intros Hps Hp. unfold acc_sim, push. cbn [fst snd].
  rewrite !map_app. cbn [map]. rewrite Hps, Hp. repeat split.
Qed.

Lemma check_toxicity_sim rt1 rt2 text a b :
  acc_sim a b ->
  result_sim (check_toxicity rt1 text a) (check_toxicity rt2 text b).
Proof.
  destruct a as [[s w] ps], b as [[s' w'] qs].
  intros (Hs & Hw & Hp). cbn [fst snd] in Hs, Hw, Hp. subst s' w'.
  unfold check_toxicity, join_set.
  destruct (nonempty (all_matches toxic_regex text)).
  - destruct (str_items (slice_to 3 (all_matches toxic_regex text))); cbn.
    + apply acc_sim_push; [exact Hp | reflexivity].
    + reflexivity.
  - cbn. repeat split. exact Hp.
Qed.

Lemma check_spam_sim rt1 rt2 text a b :
  acc_sim a b ->
  result_sim (check_spam rt1 text a) (check_spam rt2 text b).
Proof.
  destruct a as [[s w] ps], b as [[s' w'] qs].
  intros (Hs & Hw & Hp). cbn [fst snd] in Hs, Hw, Hp. subst s' w'.
  unfold check_spam.
  destruct (nonempty (all_matches spam_regex text)); cbn.
  - apply acc_sim_push; [exact Hp | reflexivity].
  - repeat split. exact Hp.
Qed.

Lemma check_nsfw_sim rt1 rt2 text a b :
  acc_sim a b ->
  result_sim (check_nsfw rt1 text a) (check_nsfw rt2 text b).
Proof.
  destruct a as [[s w] ps], b as [[s' w'] qs].
  intros (Hs & Hw & Hp). cbn [fst snd] in Hs, Hw, Hp. subst s' w'.
  unfold check_nsfw, join_set.
  destruct (nonempty (all_matches nsfw_regex text)).
  - destruct (str_items (slice_to 3 (all_matches nsfw_regex text))); cbn.
    + apply acc_sim_push; [exact Hp | reflexivity].
    + reflexivity.
  - cbn. repeat split. exact Hp.
Qed.

Lemma check_urls_sim f a b :
  acc_sim a b -> acc_sim (check_urls f a) (check_urls f b).
Proof.
  destruct a as [[s w] ps], b as [[s' w'] qs].
  intros (Hs & Hw & Hp). cbn [fst snd] in Hs, Hw, Hp. subst s' w'.
  unfold check_urls.
  destruct (nonempty (suspicious_urls f)).
  - apply acc_sim_push; [exact Hp | reflexivity].
  - repeat split. exact Hp.
Qed.

Lemma bind_sim (x y : result acc) (k1 k2 : acc -> result acc) :
  result_sim x y ->
  (forall a b, acc_sim a b -> result_sim (k1 a) (k2 b)) ->
  result_sim (bind x k1) (bind y k2).
Proof.
  destruct x as [a | e], y as [b | e']; cbn; intros H Hk;
    try contradiction H.
  - exact (Hk a b H).
  - exact H.
Qed.

Lemma analyze_safety_sim rt1 rt2 text f :
  result_sim (_analyze_safety rt1 text f) (_analyze_safety rt2 text f).
Proof.
  unfold _analyze_safety.
  apply bind_sim.
  { apply check_toxicity_sim. repeat split. }
  intros a1 b1 H1. apply bind_sim; [apply check_spam_sim, H1 |].
  intros a2 b2 H2. apply bind_sim; [apply check_nsfw_sim, H2 |].
  intros a3 b3 H3. apply (check_urls_sim f) in H3.
  destruct (check_urls f a3) as [[s w] ps], (check_urls f b3) as [[s' w'] qs].
  destruct H3 as (Hs & Hw & Hp). cbn [fst snd] in Hs, Hw, Hp. subst s' w'.
  cbn. repeat split. exact Hp.
Qed.

Lemma critical_filter_strip (ps qs : list Penalty) :
  map strip_details ps = map strip_details qs ->
  nonempty (filter is_critical ps) = nonempty (filter is_critical qs).
Proof.
  revert qs. induction ps as [| p ps IH]; intros [| q qs] H;
    try discriminate H; [reflexivity |].
  cbn [map] in H. injection H as Hp Hs Hi Hd Hrest.
  cbn [filter].
  assert (Hc : is_critical p = is_critical q)
    by (unfold is_critical; rewrite Hs; reflexivity).
  rewrite Hc.
  destruct (is_critical q); [reflexivity |].
  apply IH. exact Hrest.
Qed.

(** Two processes of one interpreter version agree on the outcome of
    [analyze] in everything but the details strings of the penalties. *)
Lemma runs_agree_up_to_details rt1 rt2 text hm mt ir :
  (forall host, bracketed_ok rt1 host = bracketed_ok rt2 host) ->
  match analyze rt1 text hm mt ir, analyze rt2 text hm mt ir with
  | Ok r1, Ok r2 => same_but_details r1 r2
  | Raise e1, Raise e2 => e1 = e2
  | _, _ => False
  end.
Proof.
  intros Hb.
  assert (Hf : _extract_features rt1 text hm mt ir
               = _extract_features rt2 text hm mt ir).
  { unfold _extract_features.
    rewrite (filter_ext (is_suspicious rt1) (is_suspicious rt2)); [reflexivity |].
    intros url. unfold is_suspicious, UrlParse.netloc.
    destruct (UrlParse.strip_scheme url) as [| c1 [| c2 rest]]; try reflexivity.
    destruct (Ascii.eqb c1 "/") eqn:E1; [| destruct c1 as [[] [] [] [] [] [] [] []]; try reflexivity; discriminate E1].
    apply Ascii.eqb_eq in E1. subst c1.
    destruct (Ascii.eqb c2 "/") eqn:E2; [| destruct c2 as [[] [] [] [] [] [] [] []]; try reflexivity; discriminate E2].
    apply Ascii.eqb_eq in E2. subst c2.
    rewrite Hb. reflexivity. }
  destruct (extract_features_total rt2 text hm mt ir) as [f Hf2].
  rewrite Hf2 in Hf.
  pose proof (analyze_safety_sim rt1 rt2 text f) as Hsim.
  destruct (_analyze_safety rt1 text f) as [[[s w] ps] | e] eqn:E1;
    destruct (_analyze_safety rt2 text f) as [[[s' w'] qs] | e'] eqn:E2;
    cbn in Hsim; try contradiction Hsim.
  - destruct Hsim as (Hs & Hw & Hp). cbn [fst snd] in Hs, Hw, Hp. subst s' w'.
    rewrite (analyze_intro _ _ _ _ _ _ _ _ _ Hf E1).
    rewrite (analyze_intro _ _ _ _ _ _ _ _ _ Hf2 E2).
    unfold same_but_details, assemble. cbn.
    rewrite !map_app, Hp.
    unfold _determine_risk_level. rewrite (critical_filter_strip _ _ Hp).
    repeat split.
  - unfold analyze. rewrite Hf, Hf2. cbn [bind]. rewrite E1, E2. exact Hsim.
Qed.

(** ** C7: two runs *)

(** C7 fails on the code.  The details string of a penalty is built by
    joining a [set], whose order follows the string hash of the process:
    two runs on the text [stupid idiot], in processes whose hashes order
    the two matches differently, return results that differ in that
    string (and in nothing else). *)
Theorem details_depend_on_the_process :
  exists r1 r2,
    analyze rt_fwd "stupid idiot" false None false = Ok r1
    /\ analyze rt_bwd "stupid idiot" false None false = Ok r2
    /\ map p_details (penalties r1)
       = ["Matched: stupid, idiot..."; "Aim for 50-280 chars"]
    /\ map p_details (penalties r2)
       = ["Matched: idiot, stupid..."; "Aim for 50-280 chars"]
    /\ r1 <> r2
    /\ same_but_details r1 r2.
Proof.
  eexists. eexists.
  split; [vm_compute; reflexivity |].
  split; [vm_compute; reflexivity |].
  split; [vm_compute; reflexivity |].
  split; [vm_compute; reflexivity |].
  split.
  - intros H. apply (f_equal (fun r => map p_details (penalties r))) in H.
    vm_compute in H. discriminate H.
  - unfold same_but_details. cbn. repeat split.
Qed.

(** ** C8: the caps ratio *)

Lemma count_nonspace_zero (text : string) :
  forallb isspace (chars text) = true ->
  count_if (fun c => negb (isspace c)) text = 0%nat.
Proof.
  induction text as [| c text IH]; simpl; intros H.
  - reflexivity.
  - apply andb_true_iff in H. destruct H as [Hc Ht].
    rewrite Hc. simpl. exact (IH Ht).
Qed.

Lemma count_nonspace_pos (text : string) :
  forallb isspace (chars text) = false ->
  count_if (fun c => negb (isspace c)) text <> 0%nat.
Proof.
  induction text as [| c text IH]; simpl; intros H.
  - discriminate H.
  - destruct (isspace c); simpl in *.
    + exact (IH H).
    + discriminate.
Qed.

(** C8.  For every text the extractor returns (no exception, so no division
    by zero), the counts it records are the number of uppercase letters and
    the number of non-whitespace characters, the caps ratio is the first
    divided by the second whenever the text has a non-whitespace character,
    and the caps ratio is 0 for the empty text and for a text of whitespace
    only. *)
Theorem caps_ratio_rule rt text hm mt ir :
  exists f,
    _extract_features rt text hm mt ir = Ok f
    /\ upper_count f = count_if isupper text
    /\ char_count f = count_if (fun c => negb (isspace c)) text
    /\ (forallb isspace (chars text) = false ->
        char_count f <> 0%nat
        /\ caps_ratio f
           = PrimFloat.div (float_of_nat (upper_count f))
                           (float_of_nat (char_count f)))
    /\ (forallb isspace (chars text) = true ->
        char_count f = 0%nat /\ caps_ratio f = 0%float).
Proof.
  destruct (extract_features_total rt text hm mt ir) as [f Hf].
  exists f. split; [exact Hf |].
  apply extract_features_inv in Hf.
  destruct Hf as (_ & Hc & Hu & Hr & _).
  split; [exact Hu |]. split; [exact Hc |].
  split.
  - intros Hns. apply count_nonspace_pos in Hns. rewrite <- Hc in Hns.
    split; [exact Hns |].
    destruct (char_count f) as [| n] eqn:E; [congruence |].
    simpl in Hr. injection Hr as <-. reflexivity.
  - intros Hs. apply count_nonspace_zero in Hs. rewrite <- Hc in Hs.
    split; [exact Hs |].
    rewrite Hs in Hr. simpl in Hr. injection Hr as <-. reflexivity.
Qed.

Lemma caps_ratio_rule_witness :
  (exists f,
      _extract_features rt_fwd "Hi THERE" false None false = Ok f
      /\ caps_ratio f = PrimFloat.div 6 7)
  /\ (exists f,
         _extract_features rt_fwd "   " false None false = Ok f
         /\ caps_ratio f = 0%float)
  /\ (exists f,
         _extract_features rt_fwd "" false None false = Ok f
         /\ caps_ratio f = 0%float).
Proof.
  split; [| split].
  - destruct (caps_ratio_rule rt_fwd "Hi THERE" false None false)
      as (f & Hf & Hu & Hc & Hpos & _).
    exists f. split; [exact Hf |].
    destruct (Hpos eq_refl) as [_ ->]. rewrite Hu, Hc. vm_compute. reflexivity.
  - destruct (caps_ratio_rule rt_fwd "   " false None false)
      as (f & Hf & _ & _ & _ & Hz).
    exists f. split; [exact Hf | exact (proj2 (Hz eq_refl))].
  - destruct (caps_ratio_rule rt_fwd "" false None false)
      as (f & Hf & _ & _ & _ & Hz).
    exists f. split; [exact Hf | exact (proj2 (Hz eq_refl))].
Defined.

(** ** C9: the overall score never exceeds 85 *)

(** C9.  For every input on which [analyze] returns a result, the overall
    score of that result is at most 85: when the safety score is below 50
    it is below 25, and otherwise it is the (rounded) weighted average of
    the three sub-scores, itself at most 100, times 0.85 -- the
    multiplication is never skipped. *)
Theorem overall_at_most_85 rt text hm mt ir r :
  analyze rt text hm mt ir = Ok r ->
  PrimFloat.leb (overall_score r) 85 = true
  /\ (PrimFloat.ltb (safety_score r) 50 = true ->
      PrimFloat.ltb (overall_score r) 25 = true)
  /\ (PrimFloat.ltb (safety_score r) 50 = false ->
      let average :=
        PrimFloat.add
          (PrimFloat.add (PrimFloat.mul (safety_score r) 0.4)
                         (PrimFloat.mul (quality_score r) 0.3))
          (PrimFloat.mul (engagement_potential r) 0.3) in
      PrimFloat.leb average 100 = true
      /\ overall_score r = round1 (PrimFloat.mul average 0.85)).
Proof.
  intros H. apply analyze_scores in H.
  destruct H as (f & ps & a & b & c & Ha & Hb & Hc & _ & _ & _ & _
                 & -> & _ & -> & -> & ->).
  assert (HP : all_fives (fun s q e =>
            let o := round1 (_calculate_overall_score s q e f) in
            PrimFloat.leb o 85
            && (if PrimFloat.ltb s 50
                then PrimFloat.ltb o 25
                else PrimFloat.leb
                       (PrimFloat.add
                          (PrimFloat.add (PrimFloat.mul s 0.4) (PrimFloat.mul q 0.3))
                          (PrimFloat.mul e 0.3)) 100))%bool
          = true)
    by (vm_compute; reflexivity).
  pose proof (all_fives_spec _ HP a b c Ha Hb Hc) as H. cbv beta zeta in H.
  apply andb_true_iff in H. destruct H as [H85 H].
  split; [exact H85 |].
  destruct (PrimFloat.ltb (fives a) 50) eqn:E.
  - split; [intros _; exact H | intros D; discriminate D].
  - split; [intros D; discriminate D |]. intros _. cbv zeta.
    split; [exact H |].
    unfold _calculate_overall_score. rewrite E. reflexivity.
Qed.

Lemma overall_at_most_85_witness :
  match analyze rt_fwd "stupid http://bit.ly/x" false None false with
  | Ok r =>
      PrimFloat.ltb (safety_score r) 50 = true
      /\ PrimFloat.leb (overall_score r) 85 = true
      /\ PrimFloat.ltb (overall_score r) 25 = true
  | Raise _ => False
  end.
Proof.
  destruct (analyze rt_fwd "stupid http://bit.ly/x" false None false)
    as [r | e] eqn:E.
  - pose proof (overall_at_most_85 rt_fwd _ false None false r E) as (H85 & H25 & _).
    assert (Hs : PrimFloat.ltb (safety_score r) 50 = true).
    { vm_compute in E. injection E as <-. vm_compute. reflexivity. }
    split; [exact Hs |]. split; [exact H85 | exact (H25 Hs)].
  - vm_compute in E. discriminate E.
Defined.

(** ** C10: what the scorers read *)

(** The scorers read the text only through the matches of the three
    pattern lists, and the features only through entries other than
    ['mentions'], ['mention_count'] and ['is_reply']. *)
Lemma scorers_ignore_mentions_and_reply rt text1 text2 f1 f2 :
  same_but_mentions_and_reply f1 f2 ->
  same_pattern_matches text1 text2 ->
  _analyze_safety rt text1 f1 = _analyze_safety rt text2 f2
  /\ _analyze_quality f1 = _analyze_quality f2
  /\ _analyze_engagement_potential f1 = _analyze_engagement_potential f2
  /\ (forall s q e,
        _calculate_overall_score s q e f1 = _calculate_overall_score s q e f2)
  /\ (forall s q e ps qs,
        _generate_recommendations f1 s q e ps qs
        = _generate_recommendations f2 s q e ps qs).
Proof.
  intros (Hlen & Hcc & Hcaps & Hup & Hws & Hnl & Hq & Hqc & Hurls & Huc & Hsus
          & Hh & Hhc & Hm & Hmt)
         (Htox & Hspam & Hnsfw).
  split; [| split; [| split; [| split]]].
  - unfold _analyze_safety, check_toxicity, check_spam, check_nsfw, check_urls.
    rewrite Htox, Hspam, Hnsfw, Hsus. reflexivity.
  - unfold _analyze_quality, check_length, check_caps, check_newlines,
      check_hashtags.
    rewrite Hlen, Hcaps, Hnl, Hhc. reflexivity.
  - unfold _analyze_engagement_potential, boost_question, boost_media,
      boost_length, boost_formatting, media_is.
    rewrite Hlen, Hcaps, Hq, Hm, Hmt. reflexivity.
  - intros s q e. reflexivity.
  - intros s q e ps qs. unfold _generate_recommendations.
    rewrite Hlen, Hcaps, Hq, Hm, Hsus, Hhc, Hnl. reflexivity.
Qed.

Lemma same_outcome_of_features rt text1 text2 hm1 hm2 mt1 mt2 ir1 ir2 f1 f2 :
  _extract_features rt text1 hm1 mt1 ir1 = Ok f1 ->
  _extract_features rt text2 hm2 mt2 ir2 = Ok f2 ->
  same_but_mentions_and_reply f1 f2 ->
  same_pattern_matches text1 text2 ->
  same_outcome (analyze rt text1 hm1 mt1 ir1) (analyze rt text2 hm2 mt2 ir2).
Proof.
  intros Hf1 Hf2 Hsame Hpat.
  destruct (scorers_ignore_mentions_and_reply rt text1 text2 f1 f2 Hsame Hpat)
    as (Hs & Hq & He & Ho & Hr).
  destruct (_analyze_safety rt text2 f2) as [[[s w] ps] | e] eqn:E2.
  - rewrite (analyze_intro _ _ _ _ _ _ _ _ _ Hf1 Hs).
    rewrite (analyze_intro _ _ _ _ _ _ _ _ _ Hf2 E2).
    unfold same_outcome, same_verdict, assemble. cbn.
    rewrite Hq, He, Ho, Hr. repeat split.
  - unfold analyze. rewrite Hf1, Hf2. cbn [bind]. rewrite Hs, E2.
    reflexivity.
Qed.

Lemma features_differ_in_reply_only rt text hm mt ir1 ir2 f1 f2 :
  _extract_features rt text hm mt ir1 = Ok f1 ->
  _extract_features rt text hm mt ir2 = Ok f2 ->
  same_but_mentions_and_reply f1 f2 /\ mentions f1 = mentions f2
  /\ mention_count f1 = mention_count f2.
Proof.
  unfold _extract_features. intros H1 H2.
  apply bind_ok in H1. destruct H1 as [c1 [Hc1 H1]].
  apply bind_ok in H2. destruct H2 as [c2 [Hc2 H2]].
  rewrite Hc1 in Hc2. injection Hc2 as <-.
  injection H1 as <-. injection H2 as <-.
  unfold same_but_mentions_and_reply. cbn. repeat split.
Qed.

(** C10, as amended.  The [is_reply] flag and the entries ['mentions'] and
    ['mention_count'] of the features have no effect on any score or
    advice.  Two calls that differ only in [is_reply] have the same
    outcome, and the flag shows in [feature_breakdown] only.  Two calls on
    texts whose extracted features agree on every entry but the mentions
    (and [is_reply]) have the same outcome provided the toxicity, spam and
    NSFW patterns find the same matches in the two texts: the safety scorer
    reads the raw text, handles included. *)
Theorem reply_and_mentions_are_unused (rt : PyRuntime) :
  (forall text hm mt ir1 ir2,
      same_outcome (analyze rt text hm mt ir1) (analyze rt text hm mt ir2))
  /\ (forall text hm mt ir r,
         analyze rt text hm mt ir = Ok r ->
         is_reply (feature_breakdown r) = ir
         /\ mentions (feature_breakdown r) = findall_text mention_pattern text)
  /\ (forall text1 text2 hm mt ir1 ir2 f1 f2,
         _extract_features rt text1 hm mt ir1 = Ok f1 ->
         _extract_features rt text2 hm mt ir2 = Ok f2 ->
         same_but_mentions_and_reply f1 f2 ->
         same_pattern_matches text1 text2 ->
         same_outcome (analyze rt text1 hm mt ir1) (analyze rt text2 hm mt ir2)).
Proof.
  split; [| split].
  - intros text hm mt ir1 ir2.
    destruct (extract_features_total rt text hm mt ir1) as [f1 Hf1].
    destruct (extract_features_total rt text hm mt ir2) as [f2 Hf2].
    apply (same_outcome_of_features rt text text hm hm mt mt ir1 ir2 f1 f2 Hf1 Hf2).
    + exact (proj1 (features_differ_in_reply_only _ _ _ _ _ _ _ _ Hf1 Hf2)).
    + unfold same_pattern_matches. repeat split.
  - intros text hm mt ir r H. apply analyze_inv in H.
    destruct H as (f & s & w & ps & Hf & _ & ->). cbn.
    apply extract_features_inv in Hf.
    destruct Hf as (_ & _ & _ & _ & _ & _ & _ & _ & Hm & _ & _ & _ & _ & _ & Hr).
    split; [exact Hr | exact Hm].
  - intros text1 text2 hm mt ir1 ir2 f1 f2.
    apply same_outcome_of_features.
Qed.

Lemma reply_and_mentions_are_unused_witness :
  same_outcome (analyze rt_fwd "hi @alice" false None false)
               (analyze rt_fwd "hi @bobby" false None true)
  /\ same_outcome (analyze rt_fwd "kill you" false None false)
                  (analyze rt_fwd "kill you" false None true).
Proof.
  destruct (reply_and_mentions_are_unused rt_fwd) as (Hreply & _ & Hmentions).
  split.
  - destruct (extract_features_total rt_fwd "hi @alice" false None false)
      as [f1 Hf1].
    destruct (extract_features_total rt_fwd "hi @bobby" false None true)
      as [f2 Hf2].
    apply (Hmentions _ _ _ _ _ _ f1 f2 Hf1 Hf2).
    + vm_compute in Hf1. injection Hf1 as <-.
      vm_compute in Hf2. injection Hf2 as <-.
      unfold same_but_mentions_and_reply. cbn. repeat split.
    + unfold same_pattern_matches. repeat split; vm_compute; reflexivity.
  - apply Hreply.
Defined.

(** C10, as stated, fails.  The texts [hi @stupid] and [hi @friend] differ
    only in the handle mentioned, and their features agree on every entry
    but ['mentions']; yet the toxicity pattern matches inside the first
    handle, so the safety scores (85 and 100) and the overall scores
    differ. *)
Lemma a_mention_can_change_the_scores :
  exists f1 f2 r1 r2,
    _extract_features rt_fwd "hi @stupid" false None false = Ok f1
    /\ _extract_features rt_fwd "hi @friend" false None false = Ok f2
    /\ same_but_mentions_and_reply f1 f2
    /\ mentions f1 = ["@stupid"] /\ mentions f2 = ["@friend"]
    /\ mention_count f1 = mention_count f2
    /\ is_reply f1 = is_reply f2
    /\ analyze rt_fwd "hi @stupid" false None false = Ok r1
    /\ analyze rt_fwd "hi @friend" false None false = Ok r2
    /\ safety_score r1 = 85%float
    /\ safety_score r2 = 100%float
    /\ map p_type (penalties r1) = ["HIGH_TOXICITY"; "BELOW_OPTIMAL"]
    /\ map p_type (penalties r2) = ["BELOW_OPTIMAL"]
    /\ ~ same_verdict r1 r2.
Proof.
  do 4 eexists.
  split; [vm_compute; reflexivity |].
  split; [vm_compute; reflexivity |].
  split; [unfold same_but_mentions_and_reply; cbn; repeat split |].
  do 4 (split; [reflexivity |]).
  split; [vm_compute; reflexivity |].
  split; [vm_compute; reflexivity |].
  do 4 (split; [vm_compute; reflexivity |]).
  unfold same_verdict. cbn. intros (_ & _ & _ & _ & _ & H & _).
  discriminate H.
Qed.

(* ================================================================= *)
(** * Further properties *)

From Stdlib Require Import Btauto.
Import Shapes Tally Grid Cli Folding Advice.

(** ** The matcher is sound for the syntax of the pattern *)

Lemma match_lit_sound (ic : bool) (l : string) (p p' : pos) :
  match_lit ic l p = Some p' ->
  exists w, snd p = (w ++ snd p')%list
            /\ Forall2 (fun a c => char_matches ic a c = true) (chars l) w.
Proof.
  revert p. induction l as [| a l IH]; intros [prev s]; simpl.
  - intros H. injection H as <-. exists []. split; [reflexivity | constructor].
  - destruct s as [| c s']; [discriminate |].
    destruct (char_matches ic a c) eqn:E; [| discriminate].
    intros H. apply IH in H. destruct H as (w & Hw & HF). simpl in Hw.
    exists (c :: w). split.
    + simpl. rewrite Hw. reflexivity.
    + constructor; assumption.
Qed.

Lemma star_sound (R : Type) (k : cls) (prev : option ascii) (s : list ascii)
      (cont : pos -> option R) (x : R) :
  star R k prev s cont = Some x ->
  exists p' w, cont p' = Some x /\ s = (w ++ snd p')%list
               /\ Forall (fun c => in_cls k c = true) w.
Proof.
  revert prev. induction s as [| c s' IH]; intros prev; simpl.
  - intros H. exists (prev, []), []. repeat split; [exact H | constructor].
  - destruct (in_cls k c) eqn:Ek.
    + destruct (star R k (Some c) s' cont) as [y |] eqn:E.
      * intros H. injection H as <-.
        destruct (IH _ E) as (p' & w & Hp & Hs & HF).
        exists p', (c :: w). repeat split; [exact Hp | | ].
        -- simpl. rewrite Hs at 1. reflexivity.
        -- constructor; assumption.
      * intros H. exists (prev, c :: s'), [].
        repeat split; [exact H | constructor].
    + intros H. exists (prev, c :: s'), [].
      repeat split; [exact H | constructor].
Qed.

Lemma run_sound (R : Type) (ic : bool) (r : re) :
  forall (p : pos) (g : caps) (cont : pos -> caps -> option R) (x : R),
    run R ic r p g cont = Some x ->
    exists p' g' w,
      cont p' g' = Some x /\ snd p = (w ++ snd p')%list /\ lang ic r w.
Proof.
  induction r as [l | r1 IH1 r2 IH2 | r1 IH1 r2 IH2 | r1 IH1 | k | k | | i r1 IH1];
    intros p g cont x; simpl.
  - destruct (match_lit ic l p) as [p' |] eqn:E; [| discriminate].
    intros H. apply match_lit_sound in E. destruct E as (w & Hw & HF).
    exists p', g, w. repeat split; assumption.
  - intros H. apply IH1 in H. destruct H as (p1 & g1 & w1 & H & Hs1 & L1).
    apply IH2 in H. destruct H as (p2 & g2 & w2 & H & Hs2 & L2).
    exists p2, g2, (w1 ++ w2)%list. repeat split; [exact H | | ].
    + rewrite Hs1, Hs2. rewrite app_assoc. reflexivity.
    + exists w1, w2. repeat split; assumption.
  - destruct (run R ic r1 p g cont) as [y |] eqn:E.
    + intros H. injection H as <-. apply IH1 in E.
      destruct E as (p' & g' & w & H & Hs & L).
      exists p', g', w. repeat split; [exact H | exact Hs | left; exact L].
    + intros H. apply IH2 in H.
      destruct H as (p' & g' & w & H & Hs & L).
      exists p', g', w. repeat split; [exact H | exact Hs | right; exact L].
  - destruct (run R ic r1 p g cont) as [y |] eqn:E.
    + intros H. injection H as <-. apply IH1 in E.
      destruct E as (p' & g' & w & H & Hs & L).
      exists p', g', w. repeat split; [exact H | exact Hs | right; exact L].
    + intros H. exists p, g, []. repeat split; [exact H | left; reflexivity].
  - destruct p as [prev [| c s']]; simpl; [discriminate |].
    destruct (in_cls k c) eqn:Ek; [| discriminate].
    intros H. apply star_sound in H. destruct H as (p' & w & H & Hs & HF).
    exists p', g, (c :: w). repeat split; [exact H | | discriminate | ].
    + simpl. rewrite Hs at 1. reflexivity.
    + constructor; assumption.
  - intros H. apply star_sound in H. destruct H as (p' & w & H & Hs & HF).
    exists p', g, w. repeat split; assumption.
  - destruct (at_boundary p); [| discriminate].
    intros H. exists p, g, []. repeat split; exact H.
  - intros H. apply IH1 in H. destruct H as (p' & g' & w & H & Hs & L).
    exists p', ((i, consumed p p') :: g'), w. repeat split; assumption.
Qed.

Lemma firstn_app_exact {A : Type} (w s : list A) :
  firstn (List.length (w ++ s) - List.length s) (w ++ s) = w.
Proof.
  rewrite length_app.
  replace (List.length w + List.length s - List.length s)%nat
    with (List.length w + 0)%nat by lia.
  rewrite firstn_app_2. simpl. apply app_nil_r.
Qed.

(** A match at a position spans a word of the pattern's language. *)
Lemma match_at_sound (rx : regex) (p p' : pos) (g : caps) :
  match_at rx p = Some (p', g) ->
  exists w, snd p = (w ++ snd p')%list
            /\ lang (icase rx) (prog rx) w
            /\ consumed p p' = str w.
Proof.
  unfold match_at. intros H. apply run_sound in H.
  destruct H as (q & g' & w & H & Hs & L). injection H as <- _.
  exists w. repeat split; [exact Hs | exact L |].
  unfold consumed. rewrite Hs. rewrite firstn_app_exact. reflexivity.
Qed.

(** ** Where [findall] finds its matches *)

Lemma in_order_prepend (ms : list (list ascii)) (a s : list ascii) :
  in_order ms s -> in_order ms (a ++ s)%list.
Proof.
  destruct ms as [| m ms]; simpl; [trivial |].
  intros (a' & b & -> & H). exists (a ++ a')%list, b.
  split; [rewrite app_assoc; reflexivity | exact H].
Qed.

Lemma skipn_app_exact {A : Type} (w s : list A) :
  skipn (List.length w) (w ++ s) = s.
Proof. induction w as [| x w IH]; simpl; [reflexivity | exact IH]. Qed.

Lemma scan_at (rx : regex) (prev : option ascii) (c : ascii) (s' : list ascii) :
  scan rx prev (c :: s') 0 =
  match match_at rx (prev, c :: s') with
  | Some (p', g) =>
      (consumed (prev, c :: s') p', g)
      :: scan rx (Some c) s'
              (pred (List.length (c :: s') - List.length (snd p')))
  | None => scan rx (Some c) s' 0
  end.
Proof. reflexivity. Qed.

Lemma scan_skip (rx : regex) (prev : option ascii) (c : ascii) (s' : list ascii)
      (k : nat) :
  scan rx prev (c :: s') (S k) = scan rx (Some c) s' k.
Proof. reflexivity. Qed.

(** The matches of a scan lie in the text one after the other, each a word
    of the pattern's language, and [min_len] characters apart at least. *)
Lemma scan_sound (rx : regex) :
  (1 <= min_len (prog rx))%nat ->
  forall (s : list ascii) (prev : option ascii) (skip : nat),
    (skip <= List.length s)%nat ->
    in_order (map (fun m => chars (fst m)) (scan rx prev s skip)) (skipn skip s)
    /\ Forall (fun m => exists w, fst m = str w /\ lang (icase rx) (prog rx) w)
              (scan rx prev s skip)
    /\ (min_len (prog rx) * List.length (scan rx prev s skip)
        <= List.length s - skip)%nat.
Proof.
  intros Hmin. induction s as [| c s' IH]; intros prev skip Hskip.
  - simpl in Hskip. assert (skip = 0%nat) by lia. subst skip. simpl.
    destruct (match_at rx (prev, [])) as [[p' g] |] eqn:E.
    + apply match_at_consumes in E. simpl in E. lia.
    + simpl. repeat split; [constructor | lia].
  - destruct skip as [| k].
    + rewrite scan_at.
      destruct (match_at rx (prev, c :: s')) as [[p' g] |] eqn:E.
      * pose proof (match_at_consumes _ _ _ _ E) as Hlen.
        apply match_at_sound in E. destruct E as (w & Hs & HL & Hc).
        cbn [snd] in Hs, Hlen.
        destruct w as [| c0 w]; [simpl in Hs; rewrite <- Hs in Hlen; lia |].
        simpl in Hs. injection Hs as <- Hs'.
        assert (Hm : (List.length (c :: s') - List.length (snd p') = S (List.length w))%nat).
        { rewrite Hs'. cbn [List.length]. rewrite length_app. lia. }
        rewrite Hm. cbn [pred].
        assert (Hk : (List.length w <= List.length s')%nat)
          by (rewrite Hs', length_app; lia).
        destruct (IH (Some c) (List.length w) Hk) as (Ho & HF & Hn).
        rewrite Hs' in Ho at 2. rewrite skipn_app_exact in Ho.
        repeat split.
        -- cbn [map fst skipn in_order]. rewrite Hc.
           unfold chars, str. rewrite list_ascii_of_string_of_list_ascii.
           exists [], (snd p'). split; [| exact Ho].
           simpl. rewrite Hs'. reflexivity.
        -- constructor; [| exact HF]. exists (c :: w). split; [exact Hc | exact HL].
        -- cbn [List.length]. rewrite Hs' in Hlen. cbn [List.length] in Hlen.
           rewrite length_app in Hlen.
           rewrite Nat.mul_succ_r. rewrite Hs' in Hn. rewrite length_app in Hn.
           rewrite Hs', length_app. lia.
      * destruct (IH (Some c) 0%nat (Nat.le_0_l _)) as (Ho & HF & Hn).
        cbn [skipn] in Ho |- *. repeat split.
        -- apply (in_order_prepend _ [c]). exact Ho.
        -- exact HF.
        -- cbn [List.length]. lia.
    + rewrite scan_skip. cbn [List.length] in Hskip.
      assert (Hk : (k <= List.length s')%nat) by lia.
      destruct (IH (Some c) k Hk) as (Ho & HF & Hn).
      cbn [skipn List.length]. repeat split; [exact Ho | exact HF | lia].
Qed.

Lemma str_app (a b : list ascii) : str (a ++ b) = str a ++ str b.
Proof.
  unfold str. induction a as [| c a IH]; simpl; [reflexivity |].
  rewrite IH. reflexivity.
Qed.

Lemma str_chars (s : string) : str (chars s) = s.
Proof. apply string_of_list_ascii_of_string. Qed.

Lemma chars_str (l : list ascii) : chars (str l) = l.
Proof. apply list_ascii_of_string_of_list_ascii. Qed.

Lemma in_order_strings (ms : list string) :
  forall l : list ascii,
    in_order (map chars ms) l -> pieces_in_order ms (str l).
Proof.
  induction ms as [| m ms IH]; intros l; simpl; [trivial |].
  intros (a & b & -> & H). exists (str a), (str b).
  split; [| exact (IH b H)].
  rewrite !str_app, str_chars. reflexivity.
Qed.

(** The matches [re.findall] returns for a pattern without groups lie in
    the text in their order of occurrence, none overlapping; each is a
    word of the pattern's language. *)
Lemma findall_text_sound (p : pattern) (text : string) :
  (1 <= min_len (body p))%nat ->
  pieces_in_order (findall_text p text) text
  /\ Forall (fun m => exists w, m = str w /\ lang (inline_i p) (body p) w)
            (findall_text p text)
  /\ (min_len (body p) * List.length (findall_text p text) <= len text)%nat.
Proof.
  intros Hmin. unfold findall_text.
  destruct (scan_sound (compile false p) Hmin (chars text) None 0 (Nat.le_0_l _))
    as (Ho & HF & Hn).
  repeat split.
  - rewrite <- (str_chars text) at 2. apply in_order_strings.
    rewrite map_map. cbn [skipn] in Ho. exact Ho.
  - rewrite Forall_map. exact HF.
  - rewrite length_map. cbn [compile prog] in Hn.
    replace (len text) with (List.length (chars text) - 0)%nat; [exact Hn |].
    unfold len, chars. rewrite Nat.sub_0_r.
    clear. induction text as [| c t IH]; simpl; [reflexivity | rewrite IH; reflexivity].
Qed.

Lemma lit_exact (l : list ascii) (w : list ascii) :
  Forall2 (fun a c => char_matches false a c = true) l w -> w = l.
Proof.
  induction 1 as [| a c l w H _ IH]; [reflexivity |].
  simpl in H. apply Ascii.eqb_eq in H. subst. reflexivity.
Qed.

Lemma every_str (p : ascii -> bool) (w : list ascii) :
  Forall (fun c => p c = true) w -> every p (str w) = true.
Proof.
  unfold every. rewrite chars_str. intros H. apply forallb_forall.
  rewrite Forall_forall in H. exact H.
Qed.

Lemma str_nonempty (w : list ascii) : w <> [] -> str w <> "".
Proof. destruct w; [congruence | discriminate]. Qed.

(** What the URL pattern can match. *)
Lemma url_lang (w : list ascii) :
  lang false (body url_pattern) w ->
  exists rest,
    rest <> "" /\ every (fun c => negb (isspace c)) rest = true
    /\ (str w = "http://" ++ rest \/ str w = "https://" ++ rest).
Proof.
  simpl. intros (w1 & w' & -> & H1 & w2 & w'' & -> & H2 & w3 & w4 & -> & H3 & Hne & H4).
  apply lit_exact in H1. apply lit_exact in H3. subst w1 w3.
  exists (str w4). split; [apply str_nonempty; exact Hne |].
  split; [apply every_str; exact H4 |].
  destruct H2 as [-> | H2].
  - left. rewrite !str_app. reflexivity.
  - apply lit_exact in H2. subst w2. right. rewrite !str_app. reflexivity.
Qed.

(** What the mention and hashtag patterns can match. *)
Lemma handle_lang (mark : string) (w : list ascii) :
  lang false (Lit mark >> Plus Word) w ->
  exists name,
    name <> "" /\ every isword name = true /\ str w = mark ++ name.
Proof.
  simpl. intros (w1 & w2 & -> & H1 & Hne & H2).
  apply lit_exact in H1. subst w1.
  exists (str w2). split; [apply str_nonempty; exact Hne |].
  split; [apply every_str; exact H2 |].
  rewrite str_app, str_chars. reflexivity.
Qed.

(** ** The extracted features *)

(** Every entry of the dict [_extract_features] returns. *)
Lemma extract_features_fields (rt : PyRuntime) (text : string) (hm : bool)
      (mt : option string) (ir : bool) (f : Features) :
  _extract_features rt text hm mt ir = Ok f ->
  text_length f = len text
  /\ char_count f = count_if (fun c => negb (isspace c)) text
  /\ upper_count f = count_if isupper text
  /\ whitespace_count f = count_if isspace text
  /\ newline_count f = count_char newline text
  /\ has_question f = has_char "?" text
  /\ question_count f = count_char "?" text
  /\ urls f = findall_text url_pattern text
  /\ url_count f = List.length (urls f)
  /\ suspicious_urls f = filter (is_suspicious rt) (urls f)
  /\ mentions f = findall_text mention_pattern text
  /\ mention_count f = List.length (mentions f)
  /\ hashtags f = findall_text hashtag_pattern text
  /\ hashtag_count f = List.length (hashtags f).
Proof.
  unfold _extract_features. intros H.
  apply bind_ok in H. destruct H as [cr [Hcr H]].
  injection H as <-. simpl. repeat split.
Qed.

Lemma count_if_split (p : ascii -> bool) (s : string) :
  len s = (count_if (fun c => negb (p c)) s + count_if p s)%nat.
Proof.
  unfold len. induction s as [| c s IH]; simpl; [reflexivity |].
  rewrite IH. destruct (p c); simpl; lia.
Qed.

Lemma count_if_le (p q : ascii -> bool) (s : string) :
  (forall c, p c = true -> q c = true) ->
  (count_if p s <= count_if q s)%nat.
Proof.
  intros Hpq. induction s as [| c s IH]; simpl; [lia |].
  destruct (p c) eqn:Ep.
  - rewrite (Hpq c Ep). simpl. lia.
  - destruct (q c); simpl; lia.
Qed.

Lemma upper_is_not_space (c : ascii) :
  isupper c = true -> negb (isspace c) = true.
Proof.
  destruct c as [[] [] [] [] [] [] [] []]; vm_compute; intros H;
    (reflexivity || discriminate H).
Qed.

Lemma newline_is_space (c : ascii) :
  Ascii.eqb newline c = true -> isspace c = true.
Proof. intros H. apply Ascii.eqb_eq in H. subst c. reflexivity. Qed.

Lemma has_char_count (c : ascii) (s : string) :
  has_char c s = negb (Nat.eqb (count_char c s) 0).
Proof.
  unfold count_char. induction s as [| d s IH]; simpl; [reflexivity |].
  destruct (Ascii.eqb c d); simpl; [reflexivity | exact IH].
Qed.

Lemma filter_length_le {A : Type} (p : A -> bool) (l : list A) :
  (List.length (filter p l) <= List.length l)%nat.
Proof.
  induction l as [| x l IH]; simpl; [lia |].
  destruct (p x); simpl; lia.
Qed.

(** X1.  The counts the extractor records are consistent, for every text:
    the length is the number of non-whitespace characters plus the number
    of whitespace characters; there are no more uppercase letters than
    non-whitespace characters and no more newlines than whitespace
    characters; [has_question] says whether the count of question marks is
    positive; and the three stored counts of URLs, mentions and hashtags
    are the lengths of the stored lists, with at most as many suspicious
    URLs as URLs, each of them one of the URLs. *)
Theorem feature_counts_are_consistent rt text hm mt ir :
  exists f,
    _extract_features rt text hm mt ir = Ok f
    /\ text_length f = (char_count f + whitespace_count f)%nat
    /\ (upper_count f <= char_count f)%nat
    /\ (newline_count f <= whitespace_count f)%nat
    /\ has_question f = negb (Nat.eqb (question_count f) 0)
    /\ url_count f = List.length (urls f)
    /\ mention_count f = List.length (mentions f)
    /\ hashtag_count f = List.length (hashtags f)
    /\ (List.length (suspicious_urls f) <= url_count f)%nat
    /\ incl (suspicious_urls f) (urls f).
Proof.
  destruct (extract_features_total rt text hm mt ir) as [f Hf].
  exists f. split; [exact Hf |].
  apply extract_features_fields in Hf.
  destruct Hf as (Hlen & Hcc & Hup & Hws & Hnl & Hq & Hqc & Hu & Huc & Hsu
                  & Hm & Hmc & Hh & Hhc).
  repeat split; try assumption.
  - rewrite Hlen, Hcc, Hws. apply count_if_split.
  - rewrite Hup, Hcc. apply count_if_le. exact upper_is_not_space.
  - rewrite Hnl, Hws. apply count_if_le. exact newline_is_space.
  - rewrite Hq, Hqc. apply has_char_count.
  - rewrite Hsu, Huc. apply filter_length_le.
  - rewrite Hsu. intros u Hin. apply filter_In in Hin. exact (proj1 Hin).
Qed.

(** X2.  The URLs the extractor records are pieces of the text, in their
    order of occurrence and without overlap (a URL that occurs twice is
    recorded twice); each starts with [http://] or [https://], in lower
    case, and goes on with at least one character, none of them
    whitespace; so a text has at most one URL per 8 characters. *)
Theorem extracted_urls_shape rt text hm mt ir :
  exists f,
    _extract_features rt text hm mt ir = Ok f
    /\ pieces_in_order (urls f) text
    /\ (forall u, In u (urls f) ->
        exists rest,
          rest <> "" /\ every (fun c => negb (isspace c)) rest = true
          /\ (u = "http://" ++ rest \/ u = "https://" ++ rest))
    /\ (8 * url_count f <= text_length f)%nat.
Proof.
  destruct (extract_features_total rt text hm mt ir) as [f Hf].
  exists f. split; [exact Hf |].
  apply extract_features_fields in Hf.
  destruct Hf as (Hlen & _ & _ & _ & _ & _ & _ & Hu & Huc & _).
  assert (Hmin : (1 <= min_len (body url_pattern))%nat) by (vm_compute; lia).
  destruct (findall_text_sound url_pattern text Hmin) as (Ho & HF & Hn).
  rewrite Huc, Hu, Hlen. repeat split.
  - exact Ho.
  - intros u Hin. rewrite Forall_forall in HF.
    destruct (HF u Hin) as (w & -> & HL). apply url_lang. exact HL.
  - exact Hn.
Qed.

(** X3.  The mentions and the hashtags the extractor records are pieces of
    the text, in their order of occurrence and without overlap; a mention
    is an [@] and a hashtag a [#] followed by at least one word character
    (letters, digits, underscore) and nothing else; so a text of [n]
    characters has at most [n / 2] of either. *)
Theorem extracted_handles_shape rt text hm mt ir :
  exists f,
    _extract_features rt text hm mt ir = Ok f
    /\ pieces_in_order (mentions f) text
    /\ pieces_in_order (hashtags f) text
    /\ (forall m, In m (mentions f) ->
        exists name, name <> "" /\ every isword name = true /\ m = "@" ++ name)
    /\ (forall h, In h (hashtags f) ->
        exists name, name <> "" /\ every isword name = true /\ h = "#" ++ name)
    /\ (2 * mention_count f <= text_length f)%nat
    /\ (2 * hashtag_count f <= text_length f)%nat.
Proof.
  destruct (extract_features_total rt text hm mt ir) as [f Hf].
  exists f. split; [exact Hf |].
  apply extract_features_fields in Hf.
  destruct Hf as (Hlen & _ & _ & _ & _ & _ & _ & _ & _ & _ & Hm & Hmc & Hh & Hhc).
  assert (Hmin1 : (1 <= min_len (body mention_pattern))%nat) by (vm_compute; lia).
  assert (Hmin2 : (1 <= min_len (body hashtag_pattern))%nat) by (vm_compute; lia).
  destruct (findall_text_sound mention_pattern text Hmin1) as (Ho1 & HF1 & Hn1).
  destruct (findall_text_sound hashtag_pattern text Hmin2) as (Ho2 & HF2 & Hn2).
  rewrite Hmc, Hhc, Hm, Hh, Hlen. repeat split.
  - exact Ho1.
  - exact Ho2.
  - intros m Hin. rewrite Forall_forall in HF1.
    destruct (HF1 m Hin) as (w & -> & HL). apply (handle_lang "@"). exact HL.
  - intros h Hin. rewrite Forall_forall in HF2.
    destruct (HF2 h Hin) as (w & -> & HL). apply (handle_lang "#"). exact HL.
  - exact Hn1.
  - exact Hn2.
Qed.

(** ** The safety scorer, detector by detector *)

Lemma check_toxicity_exact rt text sc w ps a' :
  check_toxicity rt text (sc, w, ps) = Ok a' ->
  let pts := toxicity_points (List.length (all_matches toxic_regex text)) in
  exists p,
    shown p = ("HIGH_TOXICITY",
               if (40 <? pts)%Z then CRITICAL else HIGH, impact_minus pts)
    /\ a' = (take sc pts, add_if pts w toxic_warning, add_if pts ps p).
Proof.
  unfold check_toxicity, toxicity_points, take, add_if. cbv zeta.
  destruct (all_matches toxic_regex text) as [| m l] eqn:E;
    cbn [nonempty List.length Nat.eqb].
  - intros H. injection H as <-.
    exists {| p_type := "HIGH_TOXICITY"; p_severity := HIGH;
              p_impact := impact_minus 0; p_description := ""; p_details := "" |}.
    split; reflexivity.
  - intros H. apply bind_ok in H. destruct H as [d [_ H]].
    injection H as <-.
    replace (Z.min (Z.of_nat (S (List.length l)) * 15) 60 =? 0)%Z with false
      by (symmetry; apply Z.eqb_neq; lia).
    eexists. split; [| reflexivity]. reflexivity.
Qed.

Lemma check_spam_exact rt text sc w ps a' :
  check_spam rt text (sc, w, ps) = Ok a' ->
  let pts := spam_points (List.length (all_matches spam_regex text)) in
  exists p,
    shown p = ("HIGH_SPAMMY_CONTENT",
               if (50 <? pts)%Z then CRITICAL else HIGH, impact_minus pts)
    /\ a' = (take sc pts, add_if pts w spam_warning, add_if pts ps p).
Proof.
  unfold check_spam, spam_points, take, add_if. cbv zeta.
  destruct (all_matches spam_regex text) as [| m l] eqn:E;
    cbn [nonempty List.length Nat.eqb].
  - intros H. injection H as <-.
    exists {| p_type := "HIGH_SPAMMY_CONTENT"; p_severity := HIGH;
              p_impact := impact_minus 0; p_description := ""; p_details := "" |}.
    split; reflexivity.
  - intros H. injection H as <-.
    replace (Z.min (Z.of_nat (S (List.length l)) * 20) 70 =? 0)%Z with false
      by (symmetry; apply Z.eqb_neq; lia).
    eexists. split; [| reflexivity]. reflexivity.
Qed.

Lemma check_nsfw_exact rt text sc w ps a' :
  check_nsfw rt text (sc, w, ps) = Ok a' ->
  let pts := nsfw_points (List.length (all_matches nsfw_regex text)) in
  exists p,
    shown p = ("NSFW_CONTENT", CRITICAL, impact_minus pts)
    /\ a' = (take sc pts, add_if pts w nsfw_warning, add_if pts ps p).
Proof.
  unfold check_nsfw, nsfw_points, take, add_if. cbv zeta.
  destruct (all_matches nsfw_regex text) as [| m l] eqn:E;
    cbn [nonempty List.length Nat.eqb].
  - intros H. injection H as <-.
    exists {| p_type := "NSFW_CONTENT"; p_severity := CRITICAL;
              p_impact := impact_minus 0; p_description := ""; p_details := "" |}.
    split; reflexivity.
  - intros H. apply bind_ok in H. destruct H as [d [_ H]].
    injection H as <-. eexists. split; [| reflexivity]. reflexivity.
Qed.

Lemma check_urls_exact f sc w ps :
  let pts := url_points (List.length (suspicious_urls f)) in
  exists p,
    shown p = ("UNTRUSTED_URL", HIGH, impact_minus pts)
    /\ check_urls f (sc, w, ps)
       = (take sc pts, add_if pts w url_warning, add_if pts ps p).
Proof.
  unfold check_urls, url_points, take, add_if. cbv zeta.
  destruct (suspicious_urls f) as [| x l]; cbn [nonempty List.length Nat.eqb].
  - exists {| p_type := "UNTRUSTED_URL"; p_severity := HIGH;
              p_impact := impact_minus 0; p_description := ""; p_details := "" |}.
    split; reflexivity.
  - eexists. split; [| reflexivity]. reflexivity.
Qed.

Lemma toxicity_points_cases (t : nat) :
  toxicity_points t = 0%Z \/ toxicity_points t = 15%Z
  \/ toxicity_points t = 30%Z \/ toxicity_points t = 45%Z
  \/ toxicity_points t = 60%Z.
Proof.
  unfold toxicity_points.
  destruct t as [| [| [| [| t]]]]; cbn [Nat.eqb]; try tauto.
  right; right; right; right. lia.
Qed.

Lemma spam_points_cases (s : nat) :
  spam_points s = 0%Z \/ spam_points s = 20%Z
  \/ spam_points s = 40%Z \/ spam_points s = 60%Z
  \/ spam_points s = 70%Z.
Proof.
  unfold spam_points.
  destruct s as [| [| [| [| s]]]]; cbn [Nat.eqb]; try tauto.
  right; right; right; right. lia.
Qed.

Lemma nsfw_points_cases (n : nat) : nsfw_points n = 0%Z \/ nsfw_points n = 50%Z.
Proof. unfold nsfw_points. destruct n; cbn [Nat.eqb]; tauto. Qed.

Lemma url_points_cases (u : nat) : url_points u = 0%Z \/ url_points u = 40%Z.
Proof. unfold url_points. destruct u; cbn [Nat.eqb]; tauto. Qed.

(** The four detectors one after the other, from their points. *)
Lemma safety_fold (pt ps pn pu : Z) (q1 q2 q3 q4 : Penalty) :
  (pt = 0 \/ pt = 15 \/ pt = 30 \/ pt = 45 \/ pt = 60)%Z ->
  (ps = 0 \/ ps = 20 \/ ps = 40 \/ ps = 60 \/ ps = 70)%Z ->
  (pn = 0 \/ pn = 50)%Z ->
  (pu = 0 \/ pu = 40)%Z ->
  shown q1 = ("HIGH_TOXICITY", if (40 <? pt)%Z then CRITICAL else HIGH,
              impact_minus pt) ->
  shown q2 = ("HIGH_SPAMMY_CONTENT", if (50 <? ps)%Z then CRITICAL else HIGH,
              impact_minus ps) ->
  shown q3 = ("NSFW_CONTENT", CRITICAL, impact_minus pn) ->
  shown q4 = ("UNTRUSTED_URL", HIGH, impact_minus pu) ->
  let rows :=
    fired [ ("HIGH_TOXICITY", if (40 <? pt)%Z then CRITICAL else HIGH,
             pt, toxic_warning);
            ("HIGH_SPAMMY_CONTENT", if (50 <? ps)%Z then CRITICAL else HIGH,
             ps, spam_warning);
            ("NSFW_CONTENT", CRITICAL, pn, nsfw_warning);
            ("UNTRUSTED_URL", HIGH, pu, url_warning) ] in
  max0 (take (take (take (take 100 pt) ps) pn) pu)
  = float_of_Z (Z.max 0 (100 - total rows))
  /\ map shown (add_if pu (add_if pn (add_if ps (add_if pt [] q1) q2) q3) q4)
     = map row_shown rows
  /\ add_if pu (add_if pn (add_if ps (add_if pt [] toxic_warning) spam_warning)
                       nsfw_warning) url_warning
     = map snd rows.
Proof.
  intros Ht Hs Hn Hu H1 H2 H3 H4.
  destruct Ht as [-> | [-> | [-> | [-> | ->]]]];
  destruct Hs as [-> | [-> | [-> | [-> | ->]]]];
  destruct Hn as [-> | ->]; destruct Hu as [-> | ->];
  cbv zeta; unfold fired, add_if, push;
  cbn [filter Z.eqb negb fst snd map app];
  rewrite ?H1, ?H2, ?H3, ?H4;
  (split; [vm_compute; reflexivity | split; reflexivity]).
Qed.

(** The whole result of the safety scorer, from the four counts. *)
Lemma analyze_safety_exact rt text f sc w ps :
  _analyze_safety rt text f = Ok (sc, w, ps) ->
  let rows :=
    fired (safety_rows (List.length (all_matches toxic_regex text))
                       (List.length (all_matches spam_regex text))
                       (List.length (all_matches nsfw_regex text))
                       (List.length (suspicious_urls f))) in
  sc = float_of_Z (Z.max 0 (100 - total rows))
  /\ map shown ps = map row_shown rows
  /\ w = map snd rows.
Proof.
  intros H. apply analyze_safety_inv in H.
  destruct H as ([[s1 w1] p1] & [[s2 w2] p2] & [[s3 w3] p3]
                 & H1 & H2 & H3 & -> & -> & ->).
  apply check_toxicity_exact in H1. destruct H1 as (q1 & Hq1 & H1).
  apply check_spam_exact in H2. destruct H2 as (q2 & Hq2 & H2).
  apply check_nsfw_exact in H3. destruct H3 as (q3 & Hq3 & H3).
  destruct (check_urls_exact f s3 w3 p3) as (q4 & Hq4 & H4).
  rewrite H4. clear H4.
  pose proof (toxicity_points_cases (List.length (all_matches toxic_regex text))) as Ct.
  pose proof (spam_points_cases (List.length (all_matches spam_regex text))) as Cs.
  pose proof (nsfw_points_cases (List.length (all_matches nsfw_regex text))) as Cn.
  pose proof (url_points_cases (List.length (suspicious_urls f))) as Cu.
  unfold safety_rows.
  set (pt := toxicity_points _) in *.
  set (psp := spam_points _) in *.
  set (pn := nsfw_points _) in *.
  set (pu := url_points _) in *.
  clearbody pt psp pn pu.
  cbv zeta in Hq1, Hq2, Hq3, Hq4, H1, H2, H3.
  injection H3 as -> -> ->. injection H2 as -> -> ->. injection H1 as -> -> ->.
  cbn [fst snd].
  exact (safety_fold pt psp pn pu q1 q2 q3 q4 Ct Cs Cn Cu Hq1 Hq2 Hq3 Hq4).
Qed.

(** ** The quality scorer *)

Lemma analyze_quality_exact (f : Features) :
  fst (fst (_analyze_quality f))
  = float_of_Z (Z.max 0 (100 - quality_points f))
  /\ map shown (snd (_analyze_quality f))
     = map row3_shown (fired3 (quality_rows f)).
Proof.
  unfold _analyze_quality, check_length, check_caps, check_newlines,
    check_hashtags, quality_points, quality_rows, length_points, caps_points,
    newline_points, hashtag_points, fired3.
  cbv zeta.
  destruct (Nat.ltb (text_length f) 10);
    [| destruct (Nat.ltb (text_length f) OPTIMAL_LENGTH_MIN)];
    (destruct (PrimFloat.ltb 0.5 (caps_ratio f));
     [| destruct (PrimFloat.ltb MAX_CAPS_RATIO (caps_ratio f))]);
    destruct (Nat.ltb 10 (newline_count f));
    destruct (Nat.ltb 5 (hashtag_count f));
    cbn [fst snd filter Z.eqb negb map app push];
    (split; [vm_compute; reflexivity | reflexivity]).
Qed.

(** What the text bounds of the counts the quality scorer reads. *)
Lemma extracted_counts_bounded rt text hm mt ir f :
  _extract_features rt text hm mt ir = Ok f ->
  (newline_count f <= text_length f)%nat
  /\ (2 * hashtag_count f <= text_length f)%nat.
Proof.
  intros Hf. apply extract_features_fields in Hf.
  destruct Hf as (Hlen & _ & _ & _ & Hnl & _ & _ & _ & _ & _ & _ & _ & Hh & Hhc).
  split.
  - rewrite Hnl, Hlen.
    pose proof (count_if_le (Ascii.eqb newline) isspace text newline_is_space) as H1.
    pose proof (count_if_split isspace text) as H2.
    unfold count_char. lia.
  - assert (Hmin : (1 <= min_len (body hashtag_pattern))%nat) by (vm_compute; lia).
    destruct (findall_text_sound hashtag_pattern text Hmin) as (_ & _ & Hn).
    rewrite Hhc, Hh, Hlen. exact Hn.
Qed.

Lemma quality_points_bounds (f : Features) :
  (newline_count f <= text_length f)%nat ->
  (2 * hashtag_count f <= text_length f)%nat ->
  (0 <= quality_points f <= 95)%Z.
Proof.
  intros Hn Hh.
  unfold quality_points, length_points, caps_points, newline_points,
    hashtag_points, OPTIMAL_LENGTH_MIN.
  destruct (Nat.ltb_spec (text_length f) 10);
    [| destruct (Nat.ltb_spec (text_length f) 50)];
    destruct (PrimFloat.ltb 0.5 (caps_ratio f));
    destruct (PrimFloat.ltb MAX_CAPS_RATIO (caps_ratio f));
    destruct (Nat.ltb_spec 10 (newline_count f));
    destruct (Nat.ltb_spec 5 (hashtag_count f)); lia.
Qed.

(** X6.  The quality score of an analysed text is 100 minus the points of
    the penalties listed, which show them as their impact, in the order of
    the checks; the score is never below 5, for a text too short to be in
    the first length class cannot hold more than ten newlines or more than
    five hashtags, so the floor [max(score, 0)] of the code is never
    reached; and 5 is reached. *)
Theorem quality_score_is_at_least_5 rt text hm mt ir :
  exists f,
    _extract_features rt text hm mt ir = Ok f
    /\ fst (fst (_analyze_quality f)) = float_of_Z (100 - quality_points f)
    /\ (5 <= 100 - quality_points f <= 100)%Z
    /\ map shown (snd (_analyze_quality f))
       = map row3_shown (fired3 (quality_rows f))
    /\ exists f0,
         _extract_features rt noisy_text hm mt ir = Ok f0
         /\ fst (fst (_analyze_quality f0)) = 5%float.
Proof.
  destruct (extract_features_total rt text hm mt ir) as [f Hf].
  exists f. split; [exact Hf |].
  destruct (extracted_counts_bounded _ _ _ _ _ _ Hf) as [Hn Hh].
  pose proof (quality_points_bounds f Hn Hh) as Hb.
  destruct (analyze_quality_exact f) as [Hs Hp].
  split; [| split; [lia | split; [exact Hp |]]].
  - rewrite Hs. f_equal. lia.
  - eexists. split; [vm_compute; reflexivity |]. vm_compute. reflexivity.
Qed.

(** ** The engagement scorer *)

Lemma analyze_engagement_exact (f : Features) :
  fst (_analyze_engagement_potential f)
  = float_of_Z (Z.min 100 (50 + engagement_points f))
  /\ map boost_shown (snd (_analyze_engagement_potential f))
     = map row2_shown (fired2 (engagement_rows f)).
Proof.
  unfold _analyze_engagement_potential, boost_question, boost_media,
    boost_length, boost_formatting, engagement_points, engagement_rows,
    question_points, media_points, media_boost_type, sweet_spot_points,
    formatting_points, fired2.
  cbv zeta.
  destruct (has_question f);
    (destruct (has_media f);
     [ destruct (media_is f "video");
       [| destruct (media_is f "gif"); [| destruct (media_is f "image")]] |]);
    destruct (Nat.leb SWEET_SPOT_MIN (text_length f)
              && Nat.leb (text_length f) SWEET_SPOT_MAX)%bool;
    destruct (PrimFloat.leb (caps_ratio f) RECOMMENDED_CAPS_RATIO);
    cbn [fst snd filter Z.eqb negb map app push];
    (split; [vm_compute; reflexivity | reflexivity]).
Qed.

Lemma engagement_points_bounds (f : Features) :
  (0 <= engagement_points f <= 60)%Z
  /\ (has_media f = false -> (engagement_points f <= 30)%Z).
Proof.
  unfold engagement_points, question_points, media_points, sweet_spot_points,
    formatting_points.
  destruct (has_question f); destruct (has_media f);
    destruct (media_is f "video"); destruct (media_is f "gif");
    destruct (media_is f "image");
    destruct (Nat.leb SWEET_SPOT_MIN (text_length f)
              && Nat.leb (text_length f) SWEET_SPOT_MAX)%bool;
    destruct (PrimFloat.leb (caps_ratio f) RECOMMENDED_CAPS_RATIO);
    split; try lia; intros; try discriminate; lia.
Qed.

(** The engagement score is one of [50, 55, ..., 100]. *)
Lemma engagement_score_upper_fives (f : Features) :
  exists k : nat,
    (10 <= k <= 20)%nat /\ fst (_analyze_engagement_potential f) = fives k.
Proof.
  unfold _analyze_engagement_potential, boost_question, boost_media,
    boost_length, boost_formatting.
  cbv zeta.
  destruct (has_question f);
    (destruct (has_media f);
     [ destruct (media_is f "video");
       [| destruct (media_is f "gif"); [| destruct (media_is f "image")]] |]);
    destruct (Nat.leb SWEET_SPOT_MIN (text_length f)
              && Nat.leb (text_length f) SWEET_SPOT_MAX)%bool;
    destruct (PrimFloat.leb (caps_ratio f) RECOMMENDED_CAPS_RATIO);
    cbn [fst snd];
    match goal with
    | |- exists k : nat, _ /\ ?x = fives k =>
        let k := eval vm_compute in (step_of x) in
        exists k; split; [ lia | vm_compute; reflexivity ]
    end.
Qed.

(** X7.  The engagement score is 50 plus the points of the boosts listed,
    which show them as their impact, in the order of the checks, capped at
    100: it lies between 50 and 100 for every input, is at most 80 without
    media, and there is one media boost when the tweet has media, of the
    type its media type selects, and none otherwise. *)
Theorem engagement_score_is_50_plus_boosts (f : Features) :
  fst (_analyze_engagement_potential f)
  = float_of_Z (Z.min 100 (50 + engagement_points f))
  /\ (50 <= Z.min 100 (50 + engagement_points f) <= 100)%Z
  /\ (has_media f = false -> (50 + engagement_points f <= 80)%Z)
  /\ map boost_shown (snd (_analyze_engagement_potential f))
     = map row2_shown (fired2 (engagement_rows f))
  /\ (In (media_boost_type f)
         (map b_type (snd (_analyze_engagement_potential f)))
      <-> has_media f = true).
Proof.
  destruct (analyze_engagement_exact f) as [Hs Hb].
  destruct (engagement_points_bounds f) as [Hr Hm].
  split; [exact Hs |]. split; [lia |].
  split; [intros H; specialize (Hm H); lia |].
  split; [exact Hb |].
  assert (Ht : map b_type (snd (_analyze_engagement_potential f))
               = map fst (fired2 (engagement_rows f))).
  { transitivity (map fst (map boost_shown (snd (_analyze_engagement_potential f)))).
    - rewrite map_map. reflexivity.
    - rewrite Hb, map_map. reflexivity. }
  rewrite Ht. clear Ht Hs Hb Hr Hm.
  unfold engagement_rows, fired2, question_points, media_points,
    media_boost_type, sweet_spot_points, formatting_points.
  destruct (has_question f); destruct (has_media f);
    (destruct (media_is f "video");
     [| destruct (media_is f "gif"); [| destruct (media_is f "image")]]);
    destruct (Nat.leb SWEET_SPOT_MIN (text_length f)
              && Nat.leb (text_length f) SWEET_SPOT_MAX)%bool;
    destruct (PrimFloat.leb (caps_ratio f) RECOMMENDED_CAPS_RATIO);
    cbn [filter snd fst Z.eqb negb map In];
    (split; [intros H; try reflexivity;
             repeat (destruct H as [H | H]; [discriminate H |]);
             contradiction H
            | intros H; try discriminate H; tauto]).
Qed.

(** ** The result, from the counts *)

(** X4.  In a returned result the safety score is 100 minus the points of
    the detectors that fired, floored at 0, the points being those of the
    four counts: 15 a toxic match up to 60, 20 a spam match up to 70, 50
    for any NSFW match, 40 for any suspicious URL.  The penalties are one
    per detector that fired, in the order toxicity, spam, NSFW, URL, each
    showing its points as its impact, followed by the penalties of the
    quality scorer; and the warnings are one per safety penalty, in the
    same order, followed by the warnings of the quality scorer. *)
Theorem safety_score_is_100_minus_points rt text hm mt ir r :
  analyze rt text hm mt ir = Ok r ->
  let f := feature_breakdown r in
  let rows :=
    fired (safety_rows (List.length (all_matches toxic_regex text))
                       (List.length (all_matches spam_regex text))
                       (List.length (all_matches nsfw_regex text))
                       (List.length (suspicious_urls f))) in
  _extract_features rt text hm mt ir = Ok f
  /\ safety_score r = float_of_Z (Z.max 0 (100 - total rows))
  /\ map shown (penalties r)
     = (map row_shown rows ++ map row3_shown (fired3 (quality_rows f)))%list
  /\ warnings r = (map snd rows ++ snd (fst (_analyze_quality f)))%list.
Proof.
  intros H. apply analyze_inv in H.
  destruct H as (f & s & w & ps & Hf & Hs & ->).
  cbv zeta. unfold assemble. cbn [feature_breakdown safety_score penalties warnings].
  destruct (safety_score_fives _ _ _ _ _ _ Hs) as (a & Ha & Ea).
  destruct (analyze_safety_exact _ _ _ _ _ _ Hs) as (Hsc & Hps & Hw).
  split; [exact Hf |]. split; [| split].
  - rewrite Ea, (round1_fives a Ha), <- Ea. exact Hsc.
  - rewrite map_app, Hps. f_equal. exact (proj2 (analyze_quality_exact f)).
  - rewrite Hw. reflexivity.
Qed.

Lemma safety_score_is_100_minus_points_witness :
  match analyze rt_fwd "stupid http://bit.ly/x" false None false with
  | Ok r =>
      safety_score r = 45%float
      /\ map shown (penalties r)
         = [ ("HIGH_TOXICITY", HIGH, "-15%"); ("UNTRUSTED_URL", HIGH, "-40%");
             ("BELOW_OPTIMAL", LOW, "-10%") ]
      /\ warnings r = [toxic_warning; url_warning]
  | Raise _ => False
  end.
Proof.
  destruct (analyze rt_fwd "stupid http://bit.ly/x" false None false)
    as [r | e] eqn:E.
  - destruct (safety_score_is_100_minus_points rt_fwd _ false None false r E)
      as (Hf & Hs & Hp & Hw).
    rewrite Hs, Hp, Hw. clear Hs Hp Hw Hf.
    vm_compute in E. injection E as <-.
    repeat split; vm_compute; reflexivity.
  - vm_compute in E. discriminate E.
Defined.

(** Whether a row of the safety scorer that fired is of severity CRITICAL. *)
Lemma critical_rows (pt ps pn pu : Z) :
  (pt = 0 \/ pt = 15 \/ pt = 30 \/ pt = 45 \/ pt = 60)%Z ->
  (ps = 0 \/ ps = 20 \/ ps = 40 \/ ps = 60 \/ ps = 70)%Z ->
  (pn = 0 \/ pn = 50)%Z ->
  (pu = 0 \/ pu = 40)%Z ->
  existsb (fun x : string * level * string =>
             level_eqb (snd (fst x)) CRITICAL)
    (map row_shown
       (fired [ ("HIGH_TOXICITY", if (40 <? pt)%Z then CRITICAL else HIGH,
                 pt, toxic_warning);
                ("HIGH_SPAMMY_CONTENT",
                 if (50 <? ps)%Z then CRITICAL else HIGH, ps, spam_warning);
                ("NSFW_CONTENT", CRITICAL, pn, nsfw_warning);
                ("UNTRUSTED_URL", HIGH, pu, url_warning) ]))
  = ((40 <? pt)%Z || (50 <? ps)%Z || negb (pn =? 0)%Z)%bool.
Proof.
  intros Ht Hs Hn Hu.
  destruct Ht as [-> | [-> | [-> | [-> | ->]]]];
  destruct Hs as [-> | [-> | [-> | [-> | ->]]]];
  destruct Hn as [-> | ->]; destruct Hu as [-> | ->];
  reflexivity.
Qed.

Lemma nonempty_filter {A : Type} (p : A -> bool) (l : list A) :
  nonempty (filter p l) = existsb p l.
Proof.
  induction l as [| x l IH]; simpl; [reflexivity |].
  destruct (p x); simpl; [reflexivity | exact IH].
Qed.

Lemma existsb_map {A B : Type} (g : A -> B) (p : B -> bool) (l : list A) :
  existsb p (map g l) = existsb (fun x => p (g x)) l.
Proof.
  induction l as [| x l IH]; simpl; [reflexivity |]. rewrite IH. reflexivity.
Qed.

Lemma toxicity_is_critical (t : nat) :
  (40 <? toxicity_points t)%Z = Nat.leb 3 t.
Proof.
  unfold toxicity_points.
  destruct t as [| [| [| t]]]; try reflexivity.
  cbn [Nat.eqb Nat.leb]. apply Z.ltb_lt. lia.
Qed.

Lemma spam_is_critical (s : nat) :
  (50 <? spam_points s)%Z = Nat.leb 3 s.
Proof.
  unfold spam_points.
  destruct s as [| [| [| s]]]; try reflexivity.
  cbn [Nat.eqb Nat.leb]. apply Z.ltb_lt. lia.
Qed.

Lemma nsfw_is_critical (n : nat) :
  negb (nsfw_points n =? 0)%Z = Nat.leb 1 n.
Proof. destruct n; reflexivity. Qed.

(** Whether the safety scorer emitted a penalty of severity CRITICAL. *)
Lemma critical_penalty_counts rt text f sc w ps :
  _analyze_safety rt text f = Ok (sc, w, ps) ->
  nonempty (filter is_critical ps)
  = (Nat.leb 3 (List.length (all_matches toxic_regex text))
     || Nat.leb 3 (List.length (all_matches spam_regex text))
     || Nat.leb 1 (List.length (all_matches nsfw_regex text)))%bool.
Proof.
  intros H. destruct (analyze_safety_exact _ _ _ _ _ _ H) as (_ & Hps & _).
  rewrite nonempty_filter.
  transitivity (existsb (fun x : string * level * string =>
                           level_eqb (snd (fst x)) CRITICAL) (map shown ps)).
  { rewrite existsb_map. reflexivity. }
  rewrite Hps. unfold safety_rows.
  rewrite critical_rows.
  - rewrite toxicity_is_critical, spam_is_critical, nsfw_is_critical.
    reflexivity.
  - apply toxicity_points_cases.
  - apply spam_points_cases.
  - apply nsfw_points_cases.
  - apply url_points_cases.
Qed.

(** X5.  The risk level of a returned result is CRITICAL exactly when the
    text has three or more toxic matches, or three or more spam matches,
    or an NSFW match; suspicious URLs never make it CRITICAL, nor does the
    overall score, however low. *)
Theorem critical_risk_iff_counts rt text hm mt ir r :
  analyze rt text hm mt ir = Ok r ->
  risk_level r = CRITICAL
  <-> (3 <= List.length (all_matches toxic_regex text)
       \/ 3 <= List.length (all_matches spam_regex text)
       \/ 1 <= List.length (all_matches nsfw_regex text))%nat.
Proof.
  intros H. apply analyze_inv in H.
  destruct H as (f & s & w & ps & Hf & Hs & ->).
  unfold assemble. cbn [risk_level]. unfold _determine_risk_level.
  rewrite (critical_penalty_counts _ _ _ _ _ _ Hs).
  destruct (Nat.leb_spec 3 (List.length (all_matches toxic_regex text)));
    destruct (Nat.leb_spec 3 (List.length (all_matches spam_regex text)));
    destruct (Nat.leb_spec 1 (List.length (all_matches nsfw_regex text)));
    cbn [orb]; try (split; [intros _; lia | reflexivity]).
  split; [| intros; lia].
  destruct (PrimFloat.ltb _ 40); [discriminate |].
  destruct (PrimFloat.ltb _ 60); discriminate.
Qed.

Lemma critical_risk_iff_counts_witness :
  match analyze rt_fwd "nsfw" false None false with
  | Ok r => risk_level r = CRITICAL
  | Raise _ => False
  end
  /\ match analyze rt_fwd "stupid http://bit.ly/x" false None false with
     | Ok r => risk_level r <> CRITICAL
     | Raise _ => False
     end.
Proof.
  split.
  - destruct (analyze rt_fwd "nsfw" false None false) as [r | e] eqn:E.
    + apply (critical_risk_iff_counts rt_fwd "nsfw" false None false r E).
      right. right. vm_compute. lia.
    + vm_compute in E. discriminate E.
  - destruct (analyze rt_fwd "stupid http://bit.ly/x" false None false)
      as [r | e] eqn:E.
    + intros Hc.
      apply (critical_risk_iff_counts rt_fwd _ false None false r E) in Hc.
      vm_compute in Hc. lia.
    + vm_compute in E. discriminate E.
Defined.

(** ** The overall score *)

Lemma forallb_seq (P : nat -> bool) (lo n k : nat) :
  forallb P (seq lo n) = true -> (lo <= k < lo + n)%nat -> P k = true.
Proof.
  intros H Hk. rewrite forallb_forall in H. apply H. apply in_seq. exact Hk.
Qed.

Lemma rising_spec (g : nat -> float) (lo n k k' : nat) :
  rising (line g lo n) = true ->
  (lo <= k < lo + n)%nat -> (lo <= k' < lo + n)%nat ->
  PrimFloat.leb (fives k) (fives k') = true ->
  PrimFloat.leb (g k) (g k') = true.
Proof.
  unfold rising, line. intros H Hk Hk' Hle.
  rewrite forallb_forall in H.
  specialize (H (fives k, g k)).
  rewrite forallb_forall in H.
  assert (Hin : forall j, (lo <= j < lo + n)%nat ->
                In (fives j, g j) (map (fun k => (fives k, g k)) (seq lo n))).
  { intros j Hj. apply in_map_iff. exists j. split; [reflexivity |].
    apply in_seq. exact Hj. }
  specialize (H (Hin k Hk) (fives k', g k') (Hin k' Hk')).
  cbn [fst snd] in H. rewrite Hle in H. exact H.
Qed.

(** The check over every line of the grid in each of the three directions,
    for an engagement score of 50 or more. *)
Lemma rising_in_safety_holds (f : Features) :
  forallb (fun b => forallb (fun c =>
    rising (line (fun a => carried f a b c) 0 21)) (seq 10 11)) (seq 0 21)
  = true.
Proof. vm_cast_no_check (eq_refl true). Qed.

Lemma rising_in_quality_holds (f : Features) :
  forallb (fun a => forallb (fun c =>
    rising (line (fun b => carried f a b c) 0 21)) (seq 10 11)) (seq 0 21)
  = true.
Proof. vm_cast_no_check (eq_refl true). Qed.

Lemma rising_in_engagement_holds (f : Features) :
  forallb (fun a => forallb (fun b =>
    rising (line (fun c => carried f a b c) 10 11)) (seq 0 21)) (seq 0 21)
  = true.
Proof. vm_cast_no_check (eq_refl true). Qed.

Lemma scores_of_a_result rt text hm mt ir r :
  analyze rt text hm mt ir = Ok r ->
  exists (f : Features) (ps : list Penalty) (a b c : nat),
    (a <= 20)%nat /\ (b <= 20)%nat /\ (10 <= c <= 20)%nat
    /\ safety_score r = fives a
    /\ quality_score r = fives b
    /\ engagement_potential r = fives c
    /\ overall_score r = carried f a b c
    /\ risk_level r =
       _determine_risk_level
         (_calculate_overall_score (fives a) (fives b) (fives c) f) (fives a) ps.
Proof.
  intros H. apply analyze_inv in H.
  destruct H as (f & s & w & ps & Hf & Hs & ->).
  destruct (safety_score_fives _ _ _ _ _ _ Hs) as (a & Ha & ->).
  destruct (quality_score_fives f) as (b & Hb & Eb).
  destruct (engagement_score_upper_fives f) as (c & Hc & Ec).
  exists f, ps, a, b, c. unfold assemble, carried.
  cbn [safety_score quality_score engagement_potential overall_score risk_level].
  rewrite Eb, Ec. rewrite !round1_fives by lia.
  repeat split; try lia.
Qed.

Lemma step_of_fives (k : nat) : (k <= 20)%nat -> step_of (fives k) = k.
Proof.
  intros Hk.
  do 21 (destruct k as [| k]; [vm_compute; reflexivity |]).
  lia.
Qed.

Lemma fives_inj (a b : nat) :
  (a <= 20)%nat -> (b <= 20)%nat -> fives a = fives b -> a = b.
Proof.
  intros Ha Hb H.
  rewrite <- (step_of_fives a Ha), <- (step_of_fives b Hb), H. reflexivity.
Qed.

(** The features passed to [_calculate_overall_score] have no key it
    reads. *)
Lemma carried_ignores_features (f1 f2 : Features) (a b c : nat) :
  carried f1 a b c = carried f2 a b c.
Proof. reflexivity. Qed.

Lemma rising_in_safety_spec (f : Features) (a a' b c : nat) :
  (a <= 20)%nat -> (a' <= 20)%nat -> (b <= 20)%nat -> (10 <= c <= 20)%nat ->
  PrimFloat.leb (fives a) (fives a') = true ->
  PrimFloat.leb (carried f a b c) (carried f a' b c) = true.
Proof.
  intros Ha Ha' Hb Hc Hle.
  pose proof (rising_in_safety_holds f) as H.
  apply (forallb_seq
           (fun b => forallb (fun c => rising (line (fun a => carried f a b c) 0 21))
                             (seq 10 11)) 0 21 b) in H; [| lia].
  apply (forallb_seq
           (fun c => rising (line (fun a => carried f a b c) 0 21)) 10 11 c)
    in H; [| lia].
  apply (rising_spec (fun a => carried f a b c) 0 21 a a' H); [lia | lia | exact Hle].
Qed.

Lemma rising_in_quality_spec (f : Features) (a b b' c : nat) :
  (a <= 20)%nat -> (b <= 20)%nat -> (b' <= 20)%nat -> (10 <= c <= 20)%nat ->
  PrimFloat.leb (fives b) (fives b') = true ->
  PrimFloat.leb (carried f a b c) (carried f a b' c) = true.
Proof.
  intros Ha Hb Hb' Hc Hle.
  pose proof (rising_in_quality_holds f) as H.
  apply (forallb_seq
           (fun a => forallb (fun c => rising (line (fun b => carried f a b c) 0 21))
                             (seq 10 11)) 0 21 a) in H; [| lia].
  apply (forallb_seq
           (fun c => rising (line (fun b => carried f a b c) 0 21)) 10 11 c)
    in H; [| lia].
  apply (rising_spec (fun b => carried f a b c) 0 21 b b' H); [lia | lia | exact Hle].
Qed.

Lemma rising_in_engagement_spec (f : Features) (a b c c' : nat) :
  (a <= 20)%nat -> (b <= 20)%nat -> (10 <= c <= 20)%nat -> (10 <= c' <= 20)%nat ->
  PrimFloat.leb (fives c) (fives c') = true ->
  PrimFloat.leb (carried f a b c) (carried f a b c') = true.
Proof.
  intros Ha Hb Hc Hc' Hle.
  pose proof (rising_in_engagement_holds f) as H.
  apply (forallb_seq
           (fun a => forallb (fun b => rising (line (fun c => carried f a b c) 10 11))
                             (seq 0 21)) 0 21 a) in H; [| lia].
  apply (forallb_seq
           (fun b => rising (line (fun c => carried f a b c) 10 11)) 0 21 b)
    in H; [| lia].
  apply (rising_spec (fun c => carried f a b c) 10 11 c c' H); [lia | lia | exact Hle].
Qed.

(** X8.  Between two returned results, a higher sub-score never gives a
    lower overall score when the other two sub-scores are the same: this
    holds for the safety score, across the step at 50 where the code
    changes formula, for the quality score and for the engagement
    score. *)
Theorem overall_rises_with_each_score
        rt1 text1 hm1 mt1 ir1 r1 rt2 text2 hm2 mt2 ir2 r2 :
  analyze rt1 text1 hm1 mt1 ir1 = Ok r1 ->
  analyze rt2 text2 hm2 mt2 ir2 = Ok r2 ->
  (quality_score r1 = quality_score r2 ->
   engagement_potential r1 = engagement_potential r2 ->
   PrimFloat.leb (safety_score r1) (safety_score r2) = true ->
   PrimFloat.leb (overall_score r1) (overall_score r2) = true)
  /\ (safety_score r1 = safety_score r2 ->
      engagement_potential r1 = engagement_potential r2 ->
      PrimFloat.leb (quality_score r1) (quality_score r2) = true ->
      PrimFloat.leb (overall_score r1) (overall_score r2) = true)
  /\ (safety_score r1 = safety_score r2 ->
      quality_score r1 = quality_score r2 ->
      PrimFloat.leb (engagement_potential r1) (engagement_potential r2) = true ->
      PrimFloat.leb (overall_score r1) (overall_score r2) = true).
Proof.
  intros H1 H2.
  destruct (scores_of_a_result _ _ _ _ _ _ H1)
    as (f1 & ps1 & a1 & b1 & c1 & Ha1 & Hb1 & Hc1 & Es1 & Eq1 & Ee1 & Eo1 & _).
  destruct (scores_of_a_result _ _ _ _ _ _ H2)
    as (f2 & ps2 & a2 & b2 & c2 & Ha2 & Hb2 & Hc2 & Es2 & Eq2 & Ee2 & Eo2 & _).
  rewrite Es1, Es2, Eq1, Eq2, Ee1, Ee2, Eo1, Eo2.
  rewrite (carried_ignores_features f2 f1).
  split; [| split].
  - intros Hb Hc Hle.
    apply fives_inj in Hb; [| lia | lia]. apply fives_inj in Hc; [| lia | lia].
    subst b2 c2. apply rising_in_safety_spec; assumption.
  - intros Ha Hc Hle.
    apply fives_inj in Ha; [| lia | lia]. apply fives_inj in Hc; [| lia | lia].
    subst a2 c2. apply rising_in_quality_spec; assumption.
  - intros Ha Hb Hle.
    apply fives_inj in Ha; [| lia | lia]. apply fives_inj in Hb; [| lia | lia].
    subst a2 b2. apply rising_in_engagement_spec; assumption.
Qed.

Lemma overall_rises_with_each_score_witness :
  match analyze rt_fwd "stupid" false None false,
        analyze rt_fwd "ok" false None false with
  | Ok r1, Ok r2 =>
      PrimFloat.ltb (safety_score r1) (safety_score r2) = true
      /\ PrimFloat.leb (overall_score r1) (overall_score r2) = true
  | _, _ => False
  end.
Proof.
  destruct (analyze rt_fwd "stupid" false None false) as [r1 | e] eqn:E1;
    [| vm_compute in E1; discriminate E1].
  destruct (analyze rt_fwd "ok" false None false) as [r2 | e] eqn:E2;
    [| vm_compute in E2; discriminate E2].
  destruct (overall_rises_with_each_score _ _ _ _ _ _ _ _ _ _ _ _ E1 E2)
    as (Hs & _ & _).
  vm_compute in E1. injection E1 as <-.
  vm_compute in E2. injection E2 as <-.
  split; [vm_compute; reflexivity |].
  apply Hs; vm_compute; reflexivity.
Defined.

(** X11.  A returned result whose safety score is below 50 has an overall
    score below 25 and a risk level of HIGH or CRITICAL, whatever its
    quality and engagement scores: no text that loses more than half of
    its safety score is rated LOW or MEDIUM. *)
Theorem low_safety_is_high_risk rt text hm mt ir r :
  analyze rt text hm mt ir = Ok r ->
  PrimFloat.ltb (safety_score r) 50 = true ->
  PrimFloat.ltb (overall_score r) 25 = true
  /\ (risk_level r = HIGH \/ risk_level r = CRITICAL).
Proof.
  intros H Hlow.
  destruct (scores_of_a_result _ _ _ _ _ _ H)
    as (f & ps & a & b & c & Ha & Hb & Hc & Es & _ & _ & Eo & Er).
  rewrite Es in Hlow. rewrite Eo, Er. unfold carried, _determine_risk_level.
  assert (HP : all_fives (fun s q e =>
            if PrimFloat.ltb s 50
            then (PrimFloat.ltb (round1 (_calculate_overall_score s q e f)) 25
                  && PrimFloat.ltb (_calculate_overall_score s q e f) 40)%bool
            else true) = true)
    by (vm_cast_no_check (eq_refl true)).
  pose proof (all_fives_spec _ HP a b c Ha Hb (proj2 Hc)) as HQ.
  cbv beta in HQ. rewrite Hlow in HQ.
  apply andb_true_iff in HQ. destruct HQ as [HQ1 HQ2].
  split; [exact HQ1 |].
  destruct (nonempty (filter is_critical ps)); [right; reflexivity |].
  rewrite HQ2. left; reflexivity.
Qed.

Lemma low_safety_is_high_risk_witness :
  match analyze rt_fwd "stupid http://bit.ly/x" false None false with
  | Ok r =>
      PrimFloat.ltb (safety_score r) 50 = true
      /\ PrimFloat.ltb (overall_score r) 25 = true
      /\ (risk_level r = HIGH \/ risk_level r = CRITICAL)
  | Raise _ => False
  end.
Proof.
  destruct (analyze rt_fwd "stupid http://bit.ly/x" false None false)
    as [r | e] eqn:E.
  - assert (Hs : PrimFloat.ltb (safety_score r) 50 = true).
    { vm_compute in E. injection E as <-. vm_compute. reflexivity. }
    split; [exact Hs |].
    exact (low_safety_is_high_risk rt_fwd _ false None false r E Hs).
  - vm_compute in E. discriminate E.
Defined.

(** ** The recommendations *)

Lemma extract_features_flags rt text hm mt ir f :
  _extract_features rt text hm mt ir = Ok f ->
  has_media f = hm /\ media_type f = mt /\ is_reply f = ir.
Proof.
  unfold _extract_features. intros H.
  apply bind_ok in H. destruct H as [cr [_ H]].
  injection H as <-. repeat split.
Qed.

Lemma when_nil (b : bool) (s : string) (r : list string) :
  when b s r = [] <-> b = false /\ r = [].
Proof.
  unfold when, push. destruct b.
  - split; [intros H; destruct r; discriminate H | intros [H _]; discriminate H].
  - tauto.
Qed.

Lemma when_keeps (P : string -> Prop) (b : bool) (s : string) (r : list string) :
  P s -> Forall P r -> Forall P (when b s r).
Proof.
  intros Hs Hr. unfold when, push. destruct b; [| exact Hr].
  apply Forall_app. split; [exact Hr | constructor; [exact Hs | constructor]].
Qed.

Lemma when_later (b : bool) (s x : string) (r : list string) :
  In x r -> In x (when b s r).
Proof.
  intros H. unfold when, push. destruct b; [| exact H].
  apply in_or_app. left. exact H.
Qed.

Lemma when_made (s : string) (r : list string) : In s (when true s r).
Proof. unfold when, push. apply in_or_app. right. left. reflexivity. Qed.

(** Nine optional recommendations, then the last one when none was made. *)
Lemma recommendations_cases (c1 c2 c3 c4 c5 c6 c7 c8 c9 : bool)
      (s1 s2 s3 s4 s5 s6 s7 s8 s9 g : string) :
  s1 <> g -> s2 <> g -> s3 <> g -> s4 <> g -> s5 <> g -> s6 <> g ->
  s7 <> g -> s8 <> g -> s9 <> g ->
  let base :=
    when c9 s9 (when c8 s8 (when c7 s7 (when c6 s6 (when c5 s5 (when c4 s4
      (when c3 s3 (when c2 s2 (when c1 s1 [])))))))) in
  let r := when (negb (nonempty base)) g base in
  r <> []
  /\ (In g r <-> r = [g])
  /\ (r = [g] <->
      (c1 || c2 || c3 || c4 || c5 || c6 || c7 || c8 || c9)%bool = false)
  /\ (c8 = true -> In s8 r).
Proof.
  intros N1 N2 N3 N4 N5 N6 N7 N8 N9 base r.
  assert (Hnone : base = [] <->
            (c1 || c2 || c3 || c4 || c5 || c6 || c7 || c8 || c9)%bool = false).
  { unfold base. rewrite !when_nil, !orb_false_iff. tauto. }
  assert (Hg : Forall (fun s => s <> g) base).
  { unfold base. repeat (apply when_keeps; [assumption |]). constructor. }
  assert (H8 : c8 = true -> In s8 base).
  { intros ->. unfold base. apply when_later. apply when_made. }
  clearbody base. subst r. destruct base as [| x l].
  - cbn [nonempty negb when push app].
    split; [discriminate |]. split; [| split].
    + split; [reflexivity | intros _; left; reflexivity].
    + split; [intros _; apply Hnone; reflexivity | reflexivity].
    + intros H. destruct (H8 H).
  - assert (Hne : x :: l <> []) by discriminate.
    cbn [nonempty negb when].
    assert (Hnot : ~ In g (x :: l)).
    { intros Hin. rewrite Forall_forall in Hg. exact (Hg g Hin eq_refl). }
    split; [exact Hne |]. split; [| split].
    + split; [intros H; contradiction (Hnot H) |].
      intros H. rewrite H in Hnot. exfalso. apply Hnot. left. reflexivity.
    + split.
      * intros H. rewrite H in Hnot. exfalso. apply Hnot. left. reflexivity.
      * intros H. apply Hnone in H. discriminate H.
    + exact H8.
Qed.

(** When none of the nine conditions holds, in terms of the length. *)
Lemma no_recommendation_iff (c1 c2 c4 c5 c6 hq hm : bool) (len : nat) :
  (c1 || c2 || Nat.ltb len 50 || c4 || c5 || c6
   || (negb hq && Nat.ltb 50 len) || negb hm
   || (Nat.ltb len 100 && Nat.leb 50 len))%bool = false
  <-> (negb c1 && negb c2 && negb (Nat.ltb len 100) && negb c4 && negb c5
       && negb c6 && hq && hm)%bool = true.
Proof.
  assert (Hlen :
    (Nat.ltb len 50 = true /\ Nat.ltb len 100 = true)
    \/ (Nat.ltb len 50 = false /\ Nat.ltb len 100 = true
        /\ Nat.leb 50 len = true)
    \/ (Nat.ltb len 50 = false /\ Nat.ltb len 100 = false
        /\ Nat.ltb 50 len = true)).
  { destruct (Nat.ltb_spec len 50); destruct (Nat.ltb_spec len 100);
      destruct (Nat.leb_spec 50 len); destruct (Nat.ltb_spec 50 len);
      try lia; tauto. }
  destruct Hlen as [(E1 & E2) | [(E1 & E2 & E3) | (E1 & E2 & E3)]];
    rewrite ?E1, ?E2, ?E3;
    destruct c1, c2, c4, c5, c6, hq, hm;
    destruct (Nat.ltb 50 len); destruct (Nat.leb 50 len);
    cbn [orb andb negb]; split; intros E;
      first [ reflexivity | discriminate E ].
Qed.

(** X9.  A returned result always carries at least one recommendation.  The
    closing [Looks good!] is made only when no other is, so it never stands
    beside another; and that happens exactly when the safety score is at
    least 70, no URL is suspicious, the text has at least 100 characters,
    at most 30% capitals, at most three hashtags and five newlines, a
    question mark, and the tweet has media.  A tweet without media is
    always told to add an image or a video. *)
Theorem recommendations_are_never_empty rt text hm mt ir r :
  analyze rt text hm mt ir = Ok r ->
  recommendations r <> []
  /\ (In looks_good (recommendations r) <-> recommendations r = [looks_good])
  /\ (recommendations r = [looks_good]
      <-> nothing_to_recommend (feature_breakdown r) (safety_score r) = true)
  /\ (hm = false -> In add_media (recommendations r)).
Proof.
  intros H. apply analyze_inv in H.
  destruct H as (f & s & w & ps & Hf & Hs & ->).
  destruct (safety_score_fives _ _ _ _ _ _ Hs) as (a & Ha & ->).
  destruct (extract_features_flags _ _ _ _ _ _ Hf) as (Hm & _ & _).
  unfold assemble.
  cbn [recommendations feature_breakdown safety_score].
  rewrite (round1_fives a Ha).
  unfold _generate_recommendations. cbv zeta.
  match goal with
  | |- context [when ?c9 ?s9 (when ?c8 ?s8 (when ?c7 ?s7 (when ?c6 ?s6
         (when ?c5 ?s5 (when ?c4 ?s4 (when ?c3 ?s3 (when ?c2 ?s2
           (when ?c1 ?s1 []))))))))] =>
      destruct (recommendations_cases c1 c2 c3 c4 c5 c6 c7 c8 c9
                  s1 s2 s3 s4 s5 s6 s7 s8 s9 looks_good)
        as (R1 & R2 & R3 & R4);
      try (unfold looks_good; cbn [String.append]; discriminate)
  end.
  cbv zeta in R1, R2, R3, R4.
  split; [exact R1 |]. split; [exact R2 |]. split.
  - rewrite R3. apply no_recommendation_iff.
  - intros ->. apply R4. rewrite Hm. reflexivity.
Qed.

Lemma recommendations_are_never_empty_witness :
  match analyze rt_fwd "ok" false None false with
  | Ok r => recommendations r <> [] /\ In add_media (recommendations r)
  | Raise _ => False
  end.
Proof.
  destruct (analyze rt_fwd "ok" false None false) as [r | e] eqn:E.
  - destruct (recommendations_are_never_empty rt_fwd "ok" false None false r E)
      as (H1 & _ & _ & H4).
    split; [exact H1 | exact (H4 eq_refl)].
  - vm_compute in E. discriminate E.
Defined.

(** ** Which texts make [analyze] raise *)

(** A pattern with two groups finds tuples, never strings. *)
Lemma findall_two_groups (rx : regex) (text : string) :
  ngroups rx = 2%nat -> Forall (fun m => is_str m = false) (findall rx text).
Proof.
  intros Hn. unfold findall. rewrite Hn.
  induction (scan rx None (chars text) 0) as [| m l IH]; simpl.
  - constructor.
  - constructor; [reflexivity | exact IH].
Qed.

Lemma all_matches_toxic (text : string) :
  all_matches toxic_regex text
  = (findall (toxic_pattern 0) text
     ++ findall (toxic_pattern 1) text
     ++ findall (toxic_pattern 2) text
     ++ findall (toxic_pattern 3) text)%list.
Proof.
  unfold all_matches, toxic_regex, toxic_pattern. cbn [map flat_map nth TOXIC_PATTERNS].
  rewrite app_nil_r. reflexivity.
Qed.

Lemma firstn_all_strings (n : nat) (l1 rest : list found) :
  forallb is_str l1 = true -> (n <= List.length l1)%nat ->
  forallb is_str (firstn n (l1 ++ rest)) = true.
Proof.
  intros H1 Hn. rewrite firstn_app.
  replace (n - List.length l1)%nat with 0%nat by lia.
  cbn [firstn]. rewrite app_nil_r. apply forallb_firstn. exact H1.
Qed.

Lemma firstn_meets_tuple (n : nat) (l1 rest : list found) (m : found) (l : list found) :
  (List.length l1 < n)%nat -> rest = m :: l -> is_str m = false ->
  forallb is_str (firstn n (l1 ++ rest)) = false.
Proof.
  intros Hn -> Hm. rewrite firstn_app, forallb_app.
  destruct (n - List.length l1)%nat as [| k] eqn:E; [lia |].
  cbn [firstn forallb]. rewrite Hm. cbn [andb]. apply andb_false_r.
Qed.

(** When the first three toxic matches are all strings. *)
Lemma first_three_toxic_matches (text : string) :
  forallb is_str (slice_to 3 (all_matches toxic_regex text)) = true
  <-> (3 <= List.length (findall (toxic_pattern 0) text))%nat
      \/ (findall (toxic_pattern 1) text = []
          /\ findall (toxic_pattern 2) text = []).
Proof.
  rewrite all_matches_toxic. unfold slice_to.
  pose proof (findall_one_group (toxic_pattern 0) text eq_refl) as H0.
  pose proof (findall_two_groups (toxic_pattern 1) text eq_refl) as H1.
  pose proof (findall_two_groups (toxic_pattern 2) text eq_refl) as H2.
  pose proof (findall_one_group (toxic_pattern 3) text eq_refl) as H3.
  set (l0 := findall (toxic_pattern 0) text) in *.
  set (l1 := findall (toxic_pattern 1) text) in *.
  set (l2 := findall (toxic_pattern 2) text) in *.
  set (l3 := findall (toxic_pattern 3) text) in *.
  clearbody l0 l1 l2 l3.
  destruct (Nat.le_gt_cases 3 (List.length l0)) as [Hlen | Hlen].
  - split; [intros _; left; exact Hlen |].
    intros _. apply firstn_all_strings; assumption.
  - destruct l1 as [| m1 l1].
    + destruct l2 as [| m2 l2].
      * split; [intros _; right; split; reflexivity |].
        intros _. cbn [app]. rewrite firstn_app, forallb_app.
        rewrite (forallb_firstn _ _ _ H0), (forallb_firstn _ _ _ H3).
        reflexivity.
      * inversion H2 as [| ? ? Hm2 _]; subst. cbn [app].
        rewrite (firstn_meets_tuple 3 l0 _ m2 (l2 ++ l3) Hlen eq_refl Hm2).
        split; [discriminate |].
        intros [H | [_ H]]; [lia | discriminate H].
    + inversion H1 as [| ? ? Hm1 _]; subst. cbn [app].
      rewrite (firstn_meets_tuple 3 l0 _ m1 (l1 ++ l2 ++ l3) Hlen eq_refl Hm1).
      split; [discriminate |].
      intros [H | [H _]]; [lia | discriminate H].
Qed.

(** X10.  [analyze] raises on a text exactly when the second or the third
    toxic pattern (the two with two groups) matches in it and the first
    pattern matches fewer than three times -- three matches of the first
    pattern fill the slice of three that is joined, and hide the tuples.
    The exception is always TypeError, and whether it is raised depends on
    the text alone, not on the flags nor on the interpreter. *)
Theorem analyze_raises_iff rt text hm mt ir :
  (analyze rt text hm mt ir = Raise TypeError
   <-> (List.length (findall (toxic_pattern 0) text) < 3)%nat
       /\ (findall (toxic_pattern 1) text <> []
           \/ findall (toxic_pattern 2) text <> []))
  /\ (forall e, analyze rt text hm mt ir = Raise e -> e = TypeError)
  /\ ((exists r, analyze rt text hm mt ir = Ok r)
      \/ analyze rt text hm mt ir = Raise TypeError).
Proof.
  pose proof (analyze_outcome rt text hm mt ir) as H.
  pose proof (first_three_toxic_matches text) as Hc.
  destruct (forallb is_str (slice_to 3 (all_matches toxic_regex text))).
  - destruct H as [r Hr]. rewrite Hr.
    split; [| split].
    + split; [discriminate |].
      intros [Hlt Hne]. destruct (proj1 Hc eq_refl) as [H3 | [E1 E2]]; [lia |].
      destruct Hne as [Hne | Hne]; [contradiction (Hne E1) | contradiction (Hne E2)].
    + intros e He. discriminate He.
    + left. exists r. reflexivity.
  - rewrite H. split; [| split].
    + split; [| reflexivity].
      intros _. split.
      * destruct (Nat.le_gt_cases 3 (List.length (findall (toxic_pattern 0) text)))
          as [Hge | Hlt]; [| exact Hlt].
        assert (Hf : false = true) by (apply Hc; left; exact Hge).
        discriminate Hf.
      * destruct (findall (toxic_pattern 1) text) as [| m1 l1];
          [| left; discriminate].
        destruct (findall (toxic_pattern 2) text) as [| m2 l2];
          [| right; discriminate].
        assert (Hf : false = true) by (apply Hc; right; split; reflexivity).
        discriminate Hf.
    + intros e He. injection He as <-. reflexivity.
    + right. reflexivity.
Qed.

(** ** Which URLs are suspicious *)








(** ** The command line *)

Lemma no_blank_pair_cons (a : string) (l : list string) :
  no_blank_pair (a :: l)
  = (negb (String.eqb a "" && String.eqb (hd "x" l) "") && no_blank_pair l)%bool.
Proof.
  destruct l as [| b l]; cbn [no_blank_pair hd].
  - rewrite andb_false_r. reflexivity.
  - reflexivity.
Qed.

Lemma no_blank_pair_app_pair (l r : list string) :
  no_blank_pair (l ++ "" :: "" :: r) = false.
Proof.
  induction l as [| a l IH].
  - reflexivity.
  - cbn [app]. rewrite no_blank_pair_cons, IH. apply andb_false_r.
Qed.

(** Appending a line keeps the property unless it makes a blank pair. *)
Lemma no_blank_pair_push (l : list string) (x : string) :
  no_blank_pair (l ++ [x])
  = (no_blank_pair l
     && negb (String.eqb x "" && nonempty l && String.eqb (last l "") ""))%bool.
Proof.
  induction l as [| a l IH].
  - cbn. destruct (String.eqb x ""); reflexivity.
  - cbn [app]. rewrite !no_blank_pair_cons, IH.
    destruct l as [| b l].
    + cbn. destruct (String.eqb a ""), (String.eqb x ""); reflexivity.
    + cbn [app hd nonempty last andb].
      destruct (String.eqb a "" && String.eqb b "")%bool;
        destruct (no_blank_pair (b :: l));
        destruct (String.eqb x ""); cbn; try reflexivity;
        rewrite ?andb_true_r; reflexivity.
Qed.

Lemma last_blank (l : list string) :
  nonempty l = true -> String.eqb (last l "") "" = true ->
  l = (removelast l ++ [""])%list.
Proof.
  intros Hn Hl. apply String.eqb_eq in Hl.
  assert (Hne : l <> []) by (destruct l; [discriminate Hn | discriminate]).
  pose proof (app_removelast_last "" Hne) as H. rewrite Hl in H. exact H.
Qed.

(** The first blank pair of a list is where it is. *)
Lemma first_blank_pair_unique (l1 l2 r1 r2 : list string) :
  (l1 ++ "" :: "" :: r1 = l2 ++ "" :: "" :: r2)%list ->
  no_blank_pair (l1 ++ [""]) = true ->
  no_blank_pair (l2 ++ [""]) = true ->
  l1 = l2 /\ r1 = r2.
Proof.
  revert l2. induction l1 as [| a l1 IH]; intros [| b l2] E H1 H2.
  - injection E as <-. split; reflexivity.
  - cbn [app] in E. injection E as <- E.
    destruct l2 as [| c l2].
    + cbn in H2. discriminate H2.
    + cbn [app] in E. injection E as <- E.
      cbn [app] in H2. rewrite no_blank_pair_cons in H2. cbn in H2.
      discriminate H2.
  - cbn [app] in E. injection E as -> E.
    destruct l1 as [| c l1].
    + cbn in H1. discriminate H1.
    + cbn [app] in E. injection E as -> E.
      cbn [app] in H1. rewrite no_blank_pair_cons in H1. cbn in H1.
      discriminate H1.
  - cbn [app] in E. injection E as -> E.
    cbn [app] in H1, H2. rewrite no_blank_pair_cons in H1, H2.
    apply andb_true_iff in H1, H2.
    destruct (IH l2 E (proj2 H1) (proj2 H2)) as [-> ->].
    split; reflexivity.
Qed.

(** The loop, from any state of [lines] without a blank pair. *)
Lemma read_lines_from (stdin lines : list string) :
  no_blank_pair lines = true ->
  match read_lines stdin lines with
  | Some (got, rest) =>
      (lines ++ stdin = got ++ "" :: "" :: rest)%list
      /\ no_blank_pair (got ++ [""]) = true
  | None => no_blank_pair (lines ++ stdin) = true
  end.
Proof.
  revert lines. induction stdin as [| line stdin IH]; intros lines Hl.
  - cbn [read_lines]. rewrite app_nil_r. exact Hl.
  - cbn [read_lines].
    destruct (String.eqb line "" && nonempty lines
              && String.eqb (last lines "") "")%bool eqn:Ec.
    + apply andb_true_iff in Ec. destruct Ec as [Ec E3].
      apply andb_true_iff in Ec. destruct Ec as [E1 E2].
      apply String.eqb_eq in E1. subst line.
      pose proof (last_blank lines E2 E3) as El.
      split.
      * rewrite El at 1. rewrite <- app_assoc. reflexivity.
      * rewrite <- El. exact Hl.
    + assert (Hp : no_blank_pair (push lines line) = true).
      { unfold push. rewrite no_blank_pair_push, Hl, Ec. reflexivity. }
      specialize (IH (push lines line) Hp).
      unfold push in IH. rewrite <- app_assoc in IH. exact IH.
Qed.

(** X13.  In the interactive mode the text [main] analyses is made of the
    lines typed before the first two consecutive empty lines, joined by
    line breaks, and the input goes on after that pair; when the input
    holds no two consecutive empty lines, reading it ends in [EOFError].
    A single empty line is part of the text. *)
Theorem interactive_text_ends_at_blank_pair (prog : string)
        (stdin lines rest : list string) :
  (read_lines stdin [] = Some (lines, rest)
   <-> stdin = (lines ++ "" :: "" :: rest)%list
       /\ no_blank_pair (lines ++ [""]) = true)
  /\ (read_lines stdin [] = None <-> no_blank_pair stdin = true)
  /\ (read_text [prog] stdin
      = match read_lines stdin [] with
        | Some (lines, rest) => Some (join (String newline "") lines, rest)
        | None => None
        end).
Proof.
  pose proof (read_lines_from stdin [] eq_refl) as H. cbn [app] in H.
  split; [| split; [| reflexivity]].
  - destruct (read_lines stdin []) as [[got rest'] |].
    + destruct H as [E Hn]. split.
      * intros H'. injection H' as <- <-. split; assumption.
      * intros [E' Hn']. rewrite E in E'.
        destruct (first_blank_pair_unique _ _ _ _ E' Hn Hn') as [-> ->].
        reflexivity.
    + split; [discriminate |].
      intros [E' _]. rewrite E', no_blank_pair_app_pair in H. discriminate H.
  - destruct (read_lines stdin []) as [[got rest'] |].
    + destruct H as [E _]. split; [discriminate |].
      rewrite E, no_blank_pair_app_pair. discriminate.
    + split; [intros _; exact H | reflexivity].
Qed.

Lemma read_media_type_cases (line : string) :
  read_media_type line = "image" \/ read_media_type line = "video"
  \/ read_media_type line = "gif".
Proof.
  unfold read_media_type. cbv zeta. cbn [existsb].
  destruct (String.eqb_spec (lower line) "image") as [-> | _]; [left; reflexivity |].
  destruct (String.eqb_spec (lower line) "video") as [-> | _];
    [right; left; reflexivity |].
  destruct (String.eqb_spec (lower line) "gif") as [-> | _];
    [right; right; reflexivity |].
  left. reflexivity.
Qed.

(** The media type [main] passes on. *)
Lemma main_call_media argv stdin text hm mt ir rest :
  main_call argv stdin = Some (text, hm, mt, ir, rest) ->
  (hm = false /\ mt = None)
  \/ (hm = true
      /\ (mt = Some "image" \/ mt = Some "video" \/ mt = Some "gif")).
Proof.
  unfold main_call.
  destruct (read_text argv stdin) as [[t s1] |]; [| discriminate].
  destruct s1 as [| answer s2]; [discriminate |]. cbv zeta.
  destruct (says_yes answer).
  - destruct s2 as [| line s3]; [discriminate |].
    destruct s3 as [| answer' s4]; [discriminate |].
    intros H. injection H as _ <- <- _ _. right. split; [reflexivity |].
    destruct (read_media_type_cases line) as [-> | [-> | ->]]; tauto.
  - destruct s2 as [| answer' s3]; [discriminate |].
    intros H. injection H as _ <- <- _ _. left. split; reflexivity.
Qed.

(** The types of the boosts of a result. *)
Lemma boost_types rt text hm mt ir r :
  analyze rt text hm mt ir = Ok r ->
  exists f,
    has_media f = hm /\ media_type f = mt
    /\ map b_type (boosts r) = map fst (fired2 (engagement_rows f)).
Proof.
  intros H. apply analyze_inv in H.
  destruct H as (f & s & w & ps & Hf & _ & ->).
  destruct (extract_features_flags _ _ _ _ _ _ Hf) as (Hm & Ht & _).
  exists f. split; [exact Hm |]. split; [exact Ht |].
  unfold assemble. cbn [boosts].
  destruct (analyze_engagement_exact f) as [_ Hb].
  transitivity (map fst (map boost_shown (snd (_analyze_engagement_potential f)))).
  - rewrite map_map. reflexivity.
  - rewrite Hb, map_map. reflexivity.
Qed.

(** X14.  The media type [main] passes to [analyze] is unset when the
    answer to the media question does not start with [y] or [Y], and
    otherwise one of [image], [video], [gif], any other answer counting as
    [image]; so a result computed from the command line never holds the
    generic [MEDIA] boost, which the engagement scorer keeps for other
    media types. *)
Theorem cli_media_boost_is_never_generic argv stdin text hm mt ir rest :
  main_call argv stdin = Some (text, hm, mt, ir, rest) ->
  ((hm = false /\ mt = None)
   \/ (hm = true
       /\ (mt = Some "image" \/ mt = Some "video" \/ mt = Some "gif")))
  /\ forall rt r,
       analyze rt text hm mt ir = Ok r ->
       ~ In "MEDIA" (map b_type (boosts r)).
Proof.
  intros H. apply main_call_media in H. split; [exact H |].
  intros rt r Hr Hin.
  destruct (boost_types _ _ _ _ _ _ Hr) as (f & Hm & Ht & Hb).
  rewrite Hb in Hin. clear Hb Hr.
  unfold engagement_rows, fired2, question_points, media_points,
    media_boost_type, sweet_spot_points, formatting_points, media_is in Hin.
  rewrite Hm, Ht in Hin.
  destruct H as [[-> ->] | [-> [-> | [-> | ->]]]];
    destruct (has_question f);
    destruct (Nat.leb SWEET_SPOT_MIN (text_length f)
              && Nat.leb (text_length f) SWEET_SPOT_MAX)%bool;
    destruct (PrimFloat.leb (caps_ratio f) RECOMMENDED_CAPS_RATIO);
    cbn in Hin;
    repeat (destruct Hin as [Hin | Hin]; [discriminate Hin |]);
    exact Hin.
Qed.

Lemma cli_media_boost_is_never_generic_witness :
  main_call ["analyzer.py"; "hello"; "world"] ["Yes"; "JPEG"; "n"; "n"]
  = Some ("hello world", true, Some "image", false, ["n"])
  /\ forall rt r,
       analyze rt "hello world" true (Some "image") false = Ok r ->
       ~ In "MEDIA" (map b_type (boosts r)).
Proof.
  split; [reflexivity |].
  exact (proj2 (cli_media_boost_is_never_generic
                  ["analyzer.py"; "hello"; "world"] ["Yes"; "JPEG"; "n"; "n"]
                  "hello world" true (Some "image") false ["n"] eq_refl)).
Defined.

(** ** The detectors do not look at the case of the text *)











Section Lowered.

Variables (R R' : Type) (F : R -> R').



End Lowered.












(** ** Penalties and the advice that answers them *)

(** A caps ratio above 0.5 is above [MAX_CAPS_RATIO]. *)
Lemma above_half_is_above_max (x : float) :
  PrimFloat.ltb 0.5 x = true -> PrimFloat.ltb MAX_CAPS_RATIO x = true.
Proof.
  rewrite !FloatAxioms.ltb_spec.
  change (Prim2SF 0.5) with (S754_finite false 4503599627370496 (-53)).
  change (Prim2SF MAX_CAPS_RATIO)
    with (S754_finite false 5404319552844595 (-54)).
  destruct (Prim2SF x) as [s | s | | s m e]; unfold SFltb, SFcompare.
  - destruct s; intros H; (discriminate H || reflexivity).
  - destruct s; intros H; (discriminate H || reflexivity).
  - intros H; discriminate H.
  - destruct s; [intros H; discriminate H |].
    destruct (Z.compare_spec (-53) e) as [<- | Hlt | Hgt].
    + intros _. reflexivity.
    + intros _. destruct (Z.compare_spec (-54) e); [lia | reflexivity | lia].
    + intros H. discriminate H.
Qed.

Lemma existsb_when (x : string) (b : bool) (s : string) (r : list string) :
  existsb (String.eqb x) (when b s r)
  = (existsb (String.eqb x) r || (b && String.eqb x s))%bool.
Proof.
  unfold when, push. destruct b.
  - rewrite existsb_app. cbn [existsb andb]. rewrite orb_false_r. reflexivity.
  - cbn [andb]. rewrite orb_false_r. reflexivity.
Qed.

(** The type of each penalty is that of its row. *)
Lemma has_type_rows (t : string) (ps : list Penalty)
      (rows : list (string * level * string)) :
  map shown ps = rows ->
  existsb (fun p => String.eqb t (p_type p)) ps
  = existsb (fun x => String.eqb t (fst (fst x))) rows.
Proof.
  intros <-. rewrite existsb_map. reflexivity.
Qed.

(** Which safety rows that fired have a given type. *)
Lemma safety_row_types (t : string) (pt ps pn pu : Z) (s1 s2 : level) :
  existsb (fun x : string * level * string => String.eqb t (fst (fst x)))
    (map row_shown
       (fired [ ("HIGH_TOXICITY", s1, pt, toxic_warning);
                ("HIGH_SPAMMY_CONTENT", s2, ps, spam_warning);
                ("NSFW_CONTENT", CRITICAL, pn, nsfw_warning);
                ("UNTRUSTED_URL", HIGH, pu, url_warning) ]))
  = ((negb (pt =? 0)%Z && String.eqb t "HIGH_TOXICITY")
     || (negb (ps =? 0)%Z && String.eqb t "HIGH_SPAMMY_CONTENT")
     || (negb (pn =? 0)%Z && String.eqb t "NSFW_CONTENT")
     || (negb (pu =? 0)%Z && String.eqb t "UNTRUSTED_URL"))%bool.
Proof.
  unfold fired. cbn [filter fst snd].
  destruct (pt =? 0)%Z, (ps =? 0)%Z, (pn =? 0)%Z, (pu =? 0)%Z;
    cbn [negb map existsb row_shown fst snd andb orb]; btauto.
Qed.

(** Which quality rows that fired have a given type. *)
Lemma quality_row_types (t : string) (f : Features) :
  existsb (fun x : string * level * string => String.eqb t (fst (fst x)))
    (map row3_shown (fired3 (quality_rows f)))
  = ((Nat.ltb (text_length f) 10 && String.eqb t "TOO_SHORT")
     || (negb (Nat.ltb (text_length f) 10)
         && Nat.ltb (text_length f) OPTIMAL_LENGTH_MIN
         && String.eqb t "BELOW_OPTIMAL")
     || (PrimFloat.ltb 0.5 (caps_ratio f) && String.eqb t "EXCESSIVE_CAPS")
     || (negb (PrimFloat.ltb 0.5 (caps_ratio f))
         && PrimFloat.ltb MAX_CAPS_RATIO (caps_ratio f)
         && String.eqb t "HIGH_CAPS")
     || (Nat.ltb 10 (newline_count f) && String.eqb t "EXCESSIVE_NEWLINES")
     || (Nat.ltb 5 (hashtag_count f) && String.eqb t "HASHTAG_SPAM"))%bool.
Proof.
  unfold fired3, quality_rows, length_points, caps_points, newline_points,
    hashtag_points.
  destruct (Nat.ltb (text_length f) 10);
    destruct (Nat.ltb (text_length f) OPTIMAL_LENGTH_MIN);
    destruct (PrimFloat.ltb 0.5 (caps_ratio f));
    destruct (PrimFloat.ltb MAX_CAPS_RATIO (caps_ratio f));
    destruct (Nat.ltb 10 (newline_count f));
    destruct (Nat.ltb 5 (hashtag_count f));
    cbn [filter fst snd Z.eqb negb map existsb row3_shown andb orb]; btauto.
Qed.

Lemma url_points_fire (l : list string) :
  negb (url_points (List.length l) =? 0)%Z = nonempty l.
Proof. destruct l; reflexivity. Qed.

(** The types of the penalties of a result, from the features and the
    counts. *)
Lemma has_type_of_result rt text hm mt ir r (t : string) :
  analyze rt text hm mt ir = Ok r ->
  has_type t r
  = ((negb (toxicity_points (List.length (all_matches toxic_regex text)) =? 0)%Z
      && String.eqb t "HIGH_TOXICITY")
     || (negb (spam_points (List.length (all_matches spam_regex text)) =? 0)%Z
         && String.eqb t "HIGH_SPAMMY_CONTENT")
     || (negb (nsfw_points (List.length (all_matches nsfw_regex text)) =? 0)%Z
         && String.eqb t "NSFW_CONTENT")
     || (nonempty (suspicious_urls (feature_breakdown r))
         && String.eqb t "UNTRUSTED_URL")
     || existsb (fun x : string * level * string => String.eqb t (fst (fst x)))
          (map row3_shown (fired3 (quality_rows (feature_breakdown r)))))%bool.
Proof.
  intros H. apply analyze_inv in H.
  destruct H as (f & s & w & ps & Hf & Hs & ->).
  unfold has_type, assemble. cbn [penalties feature_breakdown].
  destruct (analyze_safety_exact _ _ _ _ _ _ Hs) as (_ & Hps & _).
  destruct (analyze_quality_exact f) as [_ Hq].
  rewrite existsb_app, (has_type_rows t ps _ Hps), (has_type_rows t _ _ Hq).
  unfold safety_rows. rewrite safety_row_types, url_points_fire. reflexivity.
Qed.

(** The recommendations of a result are those of its features and its
    safety score. *)
Lemma advised_of_result rt text hm mt ir r (x : string) :
  analyze rt text hm mt ir = Ok r ->
  exists q e ps qs,
    advised x r
    = existsb (String.eqb x)
        (_generate_recommendations (feature_breakdown r) (safety_score r)
                                   q e ps qs).
Proof.
  intros H. apply analyze_inv in H.
  destruct H as (f & s & w & ps & Hf & Hs & ->).
  destruct (safety_score_fives _ _ _ _ _ _ Hs) as (a & Ha & ->).
  unfold advised, assemble. cbn [recommendations feature_breakdown safety_score].
  rewrite (round1_fives a Ha).
  eexists _, _, _, _. reflexivity.
Qed.

(** Which conditions make each of the five recommendations. *)
Lemma advised_when (f : Features) (s q e : float) (ps qs : list Penalty) :
  existsb (String.eqb url_advice) (_generate_recommendations f s q e ps qs)
  = nonempty (suspicious_urls f)
  /\ existsb (String.eqb length_advice) (_generate_recommendations f s q e ps qs)
     = Nat.ltb (text_length f) OPTIMAL_LENGTH_MIN
  /\ existsb (String.eqb caps_advice) (_generate_recommendations f s q e ps qs)
     = PrimFloat.ltb MAX_CAPS_RATIO (caps_ratio f)
  /\ existsb (String.eqb (hashtag_advice (hashtag_count f)))
       (_generate_recommendations f s q e ps qs)
     = Nat.ltb 3 (hashtag_count f)
  /\ existsb (String.eqb newline_advice) (_generate_recommendations f s q e ps qs)
     = Nat.ltb 5 (newline_count f).
Proof.
  unfold _generate_recommendations. cbv zeta.
  rewrite !existsb_when. cbn [existsb].
  set (c1 := PrimFloat.ltb s 70).
  set (c2 := nonempty (suspicious_urls f)).
  set (c3 := Nat.ltb (text_length f) OPTIMAL_LENGTH_MIN).
  set (c4 := PrimFloat.ltb MAX_CAPS_RATIO (caps_ratio f)).
  set (c5 := Nat.ltb 3 (hashtag_count f)).
  set (c6 := Nat.ltb 5 (newline_count f)).
  set (c7 := (negb (has_question f) && Nat.ltb 50 (text_length f))%bool).
  set (c8 := negb (has_media f)).
  set (c9 := (Nat.ltb (text_length f) SWEET_SPOT_MIN
              && Nat.leb OPTIMAL_LENGTH_MIN (text_length f))%bool).
  set (c10 := negb _).
  clearbody c1 c2 c3 c4 c5 c6 c7 c8 c9 c10.
  unfold hashtag_advice. rewrite !String.eqb_refl.
  repeat match goal with
         | |- context [String.eqb ?a ?b] =>
             let v := eval vm_compute in (String.eqb a b) in
             change (String.eqb a b) with v
         end.
  repeat split; btauto.
Qed.

(** X16.  In a returned result the penalties and the recommendations
    agree: an UNTRUSTED_URL penalty is present exactly when the
    recommendation to replace the URLs is; a TOO_SHORT or BELOW_OPTIMAL
    penalty exactly when the recommendation to expand the tweet is; an
    EXCESSIVE_CAPS or HIGH_CAPS penalty exactly when the recommendation to
    reduce the capitals is; and a HASHTAG_SPAM or EXCESSIVE_NEWLINES
    penalty comes with the recommendation to reduce the hashtags or the
    line breaks (which is made from lower counts on). *)
Theorem penalties_come_with_advice rt text hm mt ir r :
  analyze rt text hm mt ir = Ok r ->
  has_type "UNTRUSTED_URL" r = advised url_advice r
  /\ (has_type "TOO_SHORT" r || has_type "BELOW_OPTIMAL" r)%bool
     = advised length_advice r
  /\ (has_type "EXCESSIVE_CAPS" r || has_type "HIGH_CAPS" r)%bool
     = advised caps_advice r
  /\ (has_type "HASHTAG_SPAM" r = true ->
      advised (hashtag_advice (hashtag_count (feature_breakdown r))) r = true)
  /\ (has_type "EXCESSIVE_NEWLINES" r = true ->
      advised newline_advice r = true).
Proof.
  intros H.
  rewrite !(has_type_of_result _ _ _ _ _ _ _ H), !quality_row_types.
  destruct (advised_of_result _ _ _ _ _ _ url_advice H) as (q & e & ps & qs & A1).
  destruct (advised_of_result _ _ _ _ _ _ length_advice H) as (q2 & e2 & ps2 & qs2 & A2).
  destruct (advised_of_result _ _ _ _ _ _ caps_advice H) as (q3 & e3 & ps3 & qs3 & A3).
  destruct (advised_of_result _ _ _ _ _ _
              (hashtag_advice (hashtag_count (feature_breakdown r))) H)
    as (q4 & e4 & ps4 & qs4 & A4).
  destruct (advised_of_result _ _ _ _ _ _ newline_advice H) as (q5 & e5 & ps5 & qs5 & A5).
  rewrite A1, A2, A3, A4, A5. clear A1 A2 A3 A4 A5 H.
  set (f := feature_breakdown r). clearbody f.
  rewrite (proj1 (advised_when f _ q e ps qs)).
  rewrite (proj1 (proj2 (advised_when f _ q2 e2 ps2 qs2))).
  rewrite (proj1 (proj2 (proj2 (advised_when f _ q3 e3 ps3 qs3)))).
  rewrite (proj1 (proj2 (proj2 (proj2 (advised_when f _ q4 e4 ps4 qs4))))).
  rewrite (proj2 (proj2 (proj2 (proj2 (advised_when f _ q5 e5 ps5 qs5))))).
  repeat match goal with
         | |- context [String.eqb ?a ?b] =>
             let v := eval vm_compute in (String.eqb a b) in
             change (String.eqb a b) with v
         end.
  unfold OPTIMAL_LENGTH_MIN.
  split; [btauto |]. split; [| split; [| split]].
  - destruct (Nat.ltb_spec (text_length f) 10);
      destruct (Nat.ltb_spec (text_length f) 50); try lia; btauto.
  - pose proof (above_half_is_above_max (caps_ratio f)) as Hcaps.
    destruct (PrimFloat.ltb 0.5 (caps_ratio f));
      [rewrite (Hcaps eq_refl) |]; btauto.
  - destruct (Nat.ltb_spec 5 (hashtag_count f));
      destruct (Nat.ltb_spec 3 (hashtag_count f)); lia.
  - destruct (Nat.ltb_spec 10 (newline_count f));
      destruct (Nat.ltb_spec 5 (newline_count f)); lia.
Qed.

Lemma penalties_come_with_advice_witness :
  match analyze rt_fwd "ok http://bit.ly/x" false None false with
  | Ok r =>
      has_type "UNTRUSTED_URL" r = true /\ advised url_advice r = true
      /\ has_type "BELOW_OPTIMAL" r = true /\ advised length_advice r = true
  | Raise _ => False
  end.
Proof.
  destruct (analyze rt_fwd "ok http://bit.ly/x" false None false)
    as [r | e] eqn:E.
  - destruct (penalties_come_with_advice rt_fwd _ false None false r E)
      as (H1 & H2 & _).
    rewrite <- H1, <- H2. clear H1 H2.
    vm_compute in E. injection E as <-.
    repeat split; vm_compute; reflexivity.
  - vm_compute in E. discriminate E.
Defined.
